(** * Dataset validation: row-count and content comparison, run configuration

    A shallow embedding of [spark_validation.py] and
    [helpers/models/validation_config.py].

    - [Py]: the Python values the program computes with: exceptions,
      integers, binary64 floats, truthiness.
    - [Spark]: data frames as the program uses them (columns, count,
      [concat_ws], [distinct], [subtract]).
    - [SparkValidation]: [validate_row_count] and [validate_content], in a
      small monad that records the calls made on the engine and the lines
      logged, and that propagates exceptions.
    - [Datetime]: naive timestamps, [replace], subtraction of a delay,
      [strptime] on the format of the override, [strftime].
    - [Args], [Setting], [FileConfig], [DatabaseOptions], [DatabaseConfig],
      [Datasource], [ValidationConfig]: the pydantic models and their
      validators.
    - [Statements]: the vocabulary of the properties, and sample data.
    - [Generic]: [parse_config] of [helpers/generic.py], on the element
      tree of the document.
    - [Main]: the readers, [read_dataset], [spark_write_hdfs] and the body
      of [main], over an engine that is a parameter.
    - [Timeline], [Verdicts], [Samples]: more vocabulary and sample data.

    The properties follow the definitions. *)

From Stdlib Require Import ZArith Floats String Ascii List Lia Bool.
From stdpp Require Import gmap strings list.
Import ListNotations.

(* ===================================================================== *)
(** ** Python values *)
(* ===================================================================== *)

Module Py.

(** The exceptions the modelled code can raise. *)
Inductive exn : Type :=
| ZeroDivisionError
| OverflowError
| TypeError
| AttributeError
| ValueError (msg : string)
| ValidationError (msg : string).

Inductive result (A : Type) : Type :=
| Ok (a : A)
| Raise (e : exn).
Arguments Ok {A} a.
Arguments Raise {A} e.

Definition bind {A B} (r : result A) (k : A -> result B) : result B :=
  match r with
  | Ok a => k a
  | Raise e => Raise e
  end.

(** A Python [float] is an IEEE 754 binary64 number. *)
Definition pyfloat : Type := spec_float.

Definition Z2SF (z : Z) : spec_float :=
  match z with
  | Z0 => S754_zero false
  | Zpos p => S754_finite false p 0
  | Zneg p => S754_finite true p 0
  end.

(** [float(n)]: the integer rounded to the nearest binary64, ties to
    even; [OverflowError] when it is too large. *)
Definition float_of_int (n : Z) : result pyfloat :=
  match binary_normalize prec emax n 0 false with
  | S754_infinity _ => Raise OverflowError
  | f => Ok f
  end.

(** [a / b] on two [int]s: the quotient of the two integers, rounded once
    to the nearest binary64. *)
Definition int_truediv (a b : Z) : result pyfloat :=
  if (b =? 0)%Z then Raise ZeroDivisionError
  else
    match SFdiv prec emax (Z2SF a) (Z2SF b) with
    | S754_infinity _ => Raise OverflowError
    | q => Ok q
    end.

(** [x * n] with [x] a [float] and [n] an [int]: [n] is converted first. *)
Definition float_mul_int (x : pyfloat) (n : Z) : result pyfloat :=
  bind (float_of_int n) (fun y => Ok (SFmul prec emax x y)).

(** [x <= n] with [x] a [float] and [n] an [int]: Python compares the two
    numbers exactly, without rounding [n]. *)
Definition float_le_int (x : pyfloat) (n : Z) : bool :=
  match x with
  | S754_nan => false
  | S754_infinity s => s
  | S754_zero _ => (0 <=? n)%Z
  | S754_finite s m e =>
      let v := if s then Zneg m else Zpos m in
      match e with
      | Zneg k => (v <=? n * 2 ^ Zpos k)%Z
      | _ => (v * 2 ^ e <=? n)%Z
      end
  end.

(** Truthiness of an optional string: [None] and [""] are falsy. *)
Definition truthy (o : option string) : bool :=
  match o with
  | Some s => negb (String.eqb s "")
  | None => false
  end.

End Py.

(* ===================================================================== *)
(** ** Data frames *)
(* ===================================================================== *)

Module Spark.

(** A cell is SQL NULL or the string form of its value (what the implicit
    cast to string inside [concat_ws] gives to a value that is no array). *)
Definition value : Type := option string.
Definition row : Type := list value.

Record DataFrame : Type := {
  schema : list (string * string);  (* column name, column type *)
  rows : list row
}.

Definition columns (df : DataFrame) : list string := (schema df).*1.

Definition count (df : DataFrame) : Z := Z.of_nat (length (rows df)).

(** SQL [concat_ws(sep, c1, ..., cn)]: NULL arguments are skipped. *)
Definition concat_ws (sep : string) (r : row) : string :=
  String.concat sep (omap id r).

(** A row of one string cell. *)
Definition single (s : string) : row := [Some s].

(** [df.selectExpr("concat_ws(sep, * ) as name")] *)
Definition select_concat_ws (sep name : string) (df : DataFrame) : DataFrame :=
  {| schema := [(name, "string")];
     rows := (fun r => single (concat_ws sep r)) <$> rows df |}.

(** [df.distinct()] *)
Definition distinct (df : DataFrame) : DataFrame :=
  {| schema := schema df; rows := remove_dups (rows df) |}.

(** [a.subtract(b)], SQL [EXCEPT DISTINCT]. *)
Definition subtract (a b : DataFrame) : DataFrame :=
  {| schema := schema a;
     rows := remove_dups (list_difference (rows a) (rows b)) |}.

(** The calls the program makes on a data frame. *)
Inductive op : Type :=
| Columns
| Schema
| Count
| SelectExpr (expr : string)
| Distinct
| Subtract.

End Spark.

(* ===================================================================== *)
(** ** spark_validation.py *)
(* ===================================================================== *)

Module SparkValidation.
Import Py Spark.

(** The dictionary [validate_row_count] returns. *)
Record RowCount : Type := {
  count_source : Z;
  count_target : Z;
  count_diff : Z;
  percentage_diff : pyfloat;
  threshold : Z;
  is_passed : bool
}.

(** The lines written with [logging.info], by their interpolated fields.
    [None] in a content line is the literal [N/A]. *)
Inductive log_record : Type :=
| RowCountLog (r : RowCount)
| ContentLog (schema_match : bool)
             (source_not_in_target target_not_in_source : option Z)
             (validation_passed : bool)
| SchemaLog (s : list (string * string)).

Inductive event : Type :=
| Call (o : op)
| Info (l : log_record).

(** Computations that call the engine, log, and may raise. *)
Definition Eff (A : Type) : Type := list event -> result (A * list event).

Definition ret {A} (a : A) : Eff A := fun t => Ok (a, t).

Definition ebind {A B} (c : Eff A) (k : A -> Eff B) : Eff B :=
  fun t => match c t with
           | Ok (a, t') => k a t'
           | Raise e => Raise e
           end.

Definition emit (ev : event) : Eff unit := fun t => Ok (tt, t ++ [ev]).

Definition lift {A} (r : result A) : Eff A :=
  fun t => match r with Ok a => Ok (a, t) | Raise e => Raise e end.

Definition run {A} (c : Eff A) : result (A * list event) := c [].

Notation "'let*' x ':=' c 'in' k" := (ebind c (fun x => k))
  (at level 10, x name, c at level 100, k at level 200).
Notation "c ';;' k" := (ebind c (fun _ => k))
  (at level 100, k at level 200, right associativity).

Definition logging_info (l : log_record) : Eff unit := emit (Info l).

Definition df_columns (df : DataFrame) : Eff (list string) :=
  emit (Call Columns);; ret (columns df).
Definition df_schema (df : DataFrame) : Eff (list (string * string)) :=
  emit (Call Schema);; ret (schema df).
Definition df_count (df : DataFrame) : Eff Z :=
  emit (Call Count);; ret (count df).
Definition df_selectExpr_concat_ws (sep name : string) (df : DataFrame)
  : Eff DataFrame :=
  emit (Call (SelectExpr ("concat_ws('" ++ sep ++ "', *) as " ++ name)));;
  ret (select_concat_ws sep name df).
Definition df_distinct (df : DataFrame) : Eff DataFrame :=
  emit (Call Distinct);; ret (distinct df).
Definition df_subtract (a b : DataFrame) : Eff DataFrame :=
  emit (Call Subtract);; ret (subtract a b).

Definition validate_row_count (df_source df_target : DataFrame) (threshold : Z)
  : Eff RowCount :=
  let* count_source := df_count df_source in
  let* count_target := df_count df_target in
  let count_diff := Z.abs (count_source - count_target) in
  let* quotient := lift (int_truediv count_diff count_source) in
  let* percentage_diff := lift (float_mul_int quotient 100) in
  let is_passed := if float_le_int percentage_diff threshold then true else false in
  let res := {| count_source := count_source;
                count_target := count_target;
                count_diff := count_diff;
                percentage_diff := percentage_diff;
                threshold := threshold;
                is_passed := is_passed |} in
  logging_info (RowCountLog res);;
  ret res.

Definition validate_content (df_source df_target : DataFrame) : Eff unit :=
  let* cols_source := df_columns df_source in
  let* cols_target := df_columns df_target in
  if bool_decide (cols_source <> cols_target) then
    logging_info (ContentLog false None None false);;
    (let* s := df_schema df_source in logging_info (SchemaLog s));;
    (let* s := df_schema df_target in logging_info (SchemaLog s));;
    ret tt
  else
    let* source_row := df_selectExpr_concat_ws "||" "row" df_source in
    let* source_hash := df_distinct source_row in
    let* target_row := df_selectExpr_concat_ws "||" "row" df_target in
    let* target_hash := df_distinct target_row in
    let* diff_source := df_subtract source_hash target_hash in
    let* diff_target := df_subtract target_hash source_hash in
    let* diff_source_count := df_count diff_source in
    let* diff_target_count := df_count diff_target in
    let is_passed := (diff_source_count =? 0)%Z && (diff_target_count =? 0)%Z in
    logging_info
      (ContentLog true (Some diff_source_count) (Some diff_target_count) is_passed);;
    ret tt.

End SparkValidation.

(* ===================================================================== *)
(** ** datetime *)
(* ===================================================================== *)

Module Datetime.
Import Py.
Local Open Scope Z_scope.

(** A naive [datetime.datetime]. *)
Record datetime : Type := {
  year : Z;
  month : Z;
  day : Z;
  hour : Z;
  minute : Z;
  second : Z;
  microsecond : Z
}.

Definition is_leap (y : Z) : bool :=
  (y mod 4 =? 0) && (negb (y mod 100 =? 0) || (y mod 400 =? 0)).

Definition days_in_month (y m : Z) : Z :=
  if m =? 2 then (if is_leap y then 29 else 28)
  else if (m =? 4) || (m =? 6) || (m =? 9) || (m =? 11) then 30
  else 31.

Definition MINYEAR : Z := 1.
Definition MAXYEAR : Z := 9999.

(** The range checks of the [datetime] constructor. *)
Definition check_date_fields (y m d : Z) : bool :=
  (MINYEAR <=? y) && (y <=? MAXYEAR) && (1 <=? m) && (m <=? 12)
  && (1 <=? d) && (d <=? days_in_month y m).

Definition check_time_fields (hh mm ss us : Z) : bool :=
  (0 <=? hh) && (hh <=? 23) && (0 <=? mm) && (mm <=? 59)
  && (0 <=? ss) && (ss <=? 59) && (0 <=? us) && (us <=? 999999).

Definition valid (dt : datetime) : bool :=
  check_date_fields (year dt) (month dt) (day dt)
  && check_time_fields (hour dt) (minute dt) (second dt) (microsecond dt).

(** [datetime(y, m, d, hh, mm, ss, us)] *)
Definition new (y m d hh mm ss us : Z) : result datetime :=
  if check_date_fields y m d && check_time_fields hh mm ss us then
    Ok {| year := y; month := m; day := d; hour := hh; minute := mm;
          second := ss; microsecond := us |}
  else Raise (ValueError "field out of range").

(** [dt.replace(day=, hour=, minute=, second=, microsecond=)]: [None]
    keeps the field; the new value goes through the constructor. *)
Definition replace (dt : datetime) (d hh mm ss us : option Z) : result datetime :=
  new (year dt) (month dt) (default (day dt) d) (default (hour dt) hh)
      (default (minute dt) mm) (default (second dt) ss)
      (default (microsecond dt) us).

(** *** Proleptic Gregorian ordinals, as datetime computes them *)

Definition days_before_year (y : Z) : Z :=
  let y1 := y - 1 in y1 * 365 + y1 / 4 - y1 / 100 + y1 / 400.

Definition days_before_month_table (m : Z) : Z :=
  match m with
  | 1 => 0 | 2 => 31 | 3 => 59 | 4 => 90 | 5 => 120 | 6 => 151
  | 7 => 181 | 8 => 212 | 9 => 243 | 10 => 273 | 11 => 304 | 12 => 334
  | _ => 0
  end.

Definition days_in_month_table (m : Z) : Z :=
  match m with
  | 2 => 28
  | 4 | 6 | 9 | 11 => 30
  | _ => 31
  end.

Definition days_before_month (y m : Z) : Z :=
  days_before_month_table m + (if (2 <? m) && is_leap y then 1 else 0).

Definition ymd2ord (y m d : Z) : Z :=
  days_before_year y + days_before_month y m + d.

Definition DI400Y : Z := 146097.
Definition DI100Y : Z := 36524.
Definition DI4Y : Z := 1461.
Definition MAXORDINAL : Z := 3652059.

Definition ord2ymd (ordinal : Z) : Z * Z * Z :=
  let n := ordinal - 1 in
  let n400 := n / DI400Y in
  let n := n mod DI400Y in
  let y := n400 * 400 + 1 in
  let n100 := n / DI100Y in
  let n := n mod DI100Y in
  let n4 := n / DI4Y in
  let n := n mod DI4Y in
  let n1 := n / 365 in
  let n := n mod 365 in
  let y := y + n100 * 100 + n4 * 4 + n1 in
  if (n1 =? 4) || (n100 =? 4) then (y - 1, 12, 31)
  else
    let leapyear := (n1 =? 3) && (negb (n4 =? 24) || (n100 =? 3)) in
    let m := Z.shiftr (n + 50) 5 in
    let preceding :=
      days_before_month_table m + (if (2 <? m) && leapyear then 1 else 0) in
    if n <? preceding then
      let m := m - 1 in
      let preceding :=
        preceding
        - (days_in_month_table m + (if (m =? 2) && leapyear then 1 else 0)) in
      (y, m, n - preceding + 1)
    else (y, m, n - preceding + 1).

Definition MAX_DELTA_DAYS : Z := 999999999.

(** [timedelta(days=d, seconds=s)], normalised to days and seconds of the
    day. *)
Definition timedelta (d s : Z) : result (Z * Z) :=
  let d := d + s / 86400 in
  let s := s mod 86400 in
  if MAX_DELTA_DAYS <? Z.abs d then Raise OverflowError else Ok (d, s).

(** [dt - timedelta(seconds=s)] *)
Definition sub_seconds (dt : datetime) (s : Z) : result datetime :=
  bind (timedelta 0 s) (fun '(td, ts) =>
  bind (timedelta (- td) (- ts)) (fun '(nd, ns) =>
  bind (timedelta (ymd2ord (year dt) (month dt) (day dt) + nd)
                  (hour dt * 3600 + minute dt * 60 + second dt + ns))
       (fun '(days, secs) =>
  if (0 <? days) && (days <=? MAXORDINAL) then
    let '(y, m, d) := ord2ymd days in
    Ok {| year := y; month := m; day := d;
          hour := secs / 3600;
          minute := secs mod 3600 / 60;
          second := secs mod 3600 mod 60;
          microsecond := microsecond dt |}
  else Raise OverflowError))).

(** *** [datetime.strptime(s, "%Y-%m-%d %H:%M:%S")]

    strptime turns the format into a regular expression, one group per
    directive, and takes the first match the backtracking engine finds.
    A pattern is modelled by the list of its matches from the start of
    the text, in the order the engine tries them: each match is the value
    read and the text that follows it. Text is ASCII. *)

Definition pattern (A : Type) : Type := string -> list (A * string).

Definition digit (c : ascii) : bool := (("0" <=? c) && (c <=? "9"))%char.
Definition between (lo hi : ascii) (c : ascii) : bool :=
  ((lo <=? c) && (c <=? hi))%char.
Definition digit_value (c : ascii) : Z := Z.of_N (N_of_ascii c) - 48.

(** [\s] *)
Definition space (c : ascii) : bool :=
  let n := N_of_ascii c in
  ((9 <=? n) && (n <=? 13) || (28 <=? n) && (n <=? 32))%N.

Definition one (p : ascii -> bool) : pattern Z :=
  fun s => match s with
           | String c rest => if p c then [(digit_value c, rest)] else []
           | EmptyString => []
           end.

Definition two (p1 p2 : ascii -> bool) : pattern Z :=
  fun s => match s with
           | String c1 (String c2 rest) =>
               if p1 c1 && p2 c2
               then [(10 * digit_value c1 + digit_value c2, rest)] else []
           | _ => []
           end.

Definition lit (a : ascii) : pattern unit :=
  fun s => match s with
           | String c rest => if Ascii.eqb c a then [(tt, rest)] else []
           | EmptyString => []
           end.

Definition alt {A} (p q : pattern A) : pattern A := fun s => p s ++ q s.

Definition andthen {A B} (p : pattern A) (k : A -> pattern B) : pattern B :=
  fun s => flat_map (fun '(a, rest) => k a rest) (p s).

(** [\s+], greedy: the longest run first. *)
Fixpoint spaces (s : string) : list (unit * string) :=
  match s with
  | String c rest => if space c then spaces rest ++ [(tt, rest)] else []
  | EmptyString => []
  end.

(** [%Y]: [\d\d\d\d] *)
Definition re_Y : pattern Z :=
  andthen (two digit digit) (fun hi =>
  andthen (two digit digit) (fun lo => fun s => [(100 * hi + lo, s)])).
(** [%m]: [1[0-2]|0[1-9]|[1-9]] *)
Definition re_m : pattern Z :=
  alt (two (between "1" "1") (between "0" "2"))
 (alt (two (between "0" "0") (between "1" "9"))
      (one (between "1" "9"))).
(** [%d]: [3[0-1]|[1-2]\d|0[1-9]|[1-9]| [1-9]] *)
Definition re_d : pattern Z :=
  alt (two (between "3" "3") (between "0" "1"))
 (alt (two (between "1" "2") digit)
 (alt (two (between "0" "0") (between "1" "9"))
 (alt (one (between "1" "9"))
      (andthen (lit " ") (fun _ => one (between "1" "9")))))).
(** [%H]: [2[0-3]|[0-1]\d|\d] *)
Definition re_H : pattern Z :=
  alt (two (between "2" "2") (between "0" "3"))
 (alt (two (between "0" "1") digit)
      (one digit)).
(** [%M]: [[0-5]\d|\d] *)
Definition re_M : pattern Z :=
  alt (two (between "0" "5") digit) (one digit).
(** [%S]: [6[0-1]|[0-5]\d|\d] *)
Definition re_S : pattern Z :=
  alt (two (between "6" "6") (between "0" "1"))
 (alt (two (between "0" "5") digit)
      (one digit)).

(** The expression of ["%Y-%m-%d %H:%M:%S"]. *)
Definition re_format : pattern (Z * Z * Z * Z * Z * Z) :=
  andthen re_Y (fun y =>
  andthen (lit "-") (fun _ =>
  andthen re_m (fun m =>
  andthen (lit "-") (fun _ =>
  andthen re_d (fun d =>
  andthen spaces (fun _ =>
  andthen re_H (fun hh =>
  andthen (lit ":") (fun _ =>
  andthen re_M (fun mm =>
  andthen (lit ":") (fun _ =>
  andthen re_S (fun ss => fun s => [((y, m, d, hh, mm, ss), s)]))))))))))).

Definition strptime (s : string) : result datetime :=
  match re_format s with
  | [] => Raise (ValueError "time data does not match format")
  | ((y, m, d, hh, mm, ss), rest) :: _ =>
      match rest with
      | EmptyString => new y m d hh mm ss 0
      | _ => Raise (ValueError "unconverted data remains")
      end
  end.

(** *** [dt.strftime(fmt)]

    Python replaces [%f], [%z] and [%Z] itself (a naive datetime has no
    offset and no zone name) and hands the format to the C library. What
    the C library makes of [%Y %m %d %H %M %S] and [%%] is the same
    everywhere. From the first place where the format holds anything else
    (another specification, flags or a width, a year below 1000 under [%Y],
    a [%] that ends the format, a null character), how the rest of the
    format is rendered is the platform's business: [libc] takes the rest of
    the format and gives its text, or fails. *)

Definition digit_char (n : Z) : ascii := ascii_of_N (Z.to_N (48 + n mod 10)).

(** [n] in decimal on [width] digits, zero padded. *)
Fixpoint decimal (width : nat) (n : Z) : string :=
  match width with
  | O => EmptyString
  | S w => decimal w (n / 10) ++ String (digit_char n) EmptyString
  end.

(** The text of the directive [%c], when it does not depend on the
    platform. *)
Definition directive (c : ascii) (dt : datetime) : option string :=
  if Ascii.eqb c "Y" then
    (if 1000 <=? year dt then Some (decimal 4 (year dt)) else None)
  else if Ascii.eqb c "m" then Some (decimal 2 (month dt))
  else if Ascii.eqb c "d" then Some (decimal 2 (day dt))
  else if Ascii.eqb c "H" then Some (decimal 2 (hour dt))
  else if Ascii.eqb c "M" then Some (decimal 2 (minute dt))
  else if Ascii.eqb c "S" then Some (decimal 2 (second dt))
  else if Ascii.eqb c "f" then Some (decimal 6 (microsecond dt))
  else if Ascii.eqb c "z" then Some EmptyString
  else if Ascii.eqb c "Z" then Some EmptyString
  else if Ascii.eqb c "%" then Some "%"%string
  else None.

Section Strftime.
Variable libc : string -> datetime -> result string.

Fixpoint strftime (dt : datetime) (fmt : string) : result string :=
  match fmt with
  | EmptyString => Ok EmptyString
  | String c rest =>
      if Ascii.eqb c "%" then
        match rest with
        | EmptyString => libc fmt dt
        | String c' rest' =>
            match directive c' dt with
            | Some x => bind (strftime dt rest') (fun r => Ok (x ++ r)%string)
            | None => libc fmt dt
            end
        end
      else if Ascii.eqb c zero then libc fmt dt
      else bind (strftime dt rest) (fun r => Ok (String c r))
  end.
End Strftime.

End Datetime.

(* ===================================================================== *)
(** ** helpers/models/validation_config.py

    Each pydantic model is a module: [Raw.t] is the mapping handed to the
    constructor, after pydantic's coercion of scalars, with [None] for a key
    that is absent; [t] is the validated object; [new] is construction:
    the [mode='before'] validators, the field checks, then the
    [mode='after'] validators, in the order of the class body. pydantic
    reports a [ValueError] raised by a validator as a [ValidationError];
    it collects the errors of all fields into one, for which the first
    failing check stands here. *)
(* ===================================================================== *)

Import Py.

Definition required {A} (field : string) (o : option A) : result A :=
  match o with
  | Some a => Ok a
  | None => Raise (ValidationError (field ++ ": Field required"))
  end.

Definition literal (field : string) (allowed : list string) (s : string)
  : result string :=
  if bool_decide (s ∈ allowed) then Ok s
  else Raise (ValidationError (field ++ ": Input should be one of the literals")).

Definition optional_literal (field : string) (allowed : list string)
  (o : option string) : result (option string) :=
  match o with
  | Some s => bind (literal field allowed s) (fun s => Ok (Some s))
  | None => Ok None
  end.

(** A [ValueError] that leaves a validator. *)
Definition in_validator {A} (r : result A) : result A :=
  match r with
  | Raise (ValueError msg) => Raise (ValidationError msg)
  | _ => r
  end.

(** The tuning keys of [CsvOptions], [ParquetOptions] and [DatabaseOptions]
    that nothing here inspects: the mapping of the keys that are set, which
    is what [model_dump(exclude_none=True)] hands to the reader. *)
Definition reader_options : Type := list (string * string).

Module Args.
Record t : Type := {
  config : string;
  datetime : option string;
  verbose : bool;
  spark_master : string
}.

Definition new (values : t) : result t :=
  bind (literal "spark_master" ["yarn"; "local"] (spark_master values))
       (fun _ => Ok values).
End Args.

Module Setting.
Module Raw.
Record t : Type := {
  validation_name : option string;
  validation_threshold : option Z;
  validate_content : option bool;
  defaulttimedelay : option Z;
  source_name : option string;
  destination_name : option string;
  summary_log : option string;
  granularity : option string;
  validation_type : option string
}.
End Raw.

Record t : Type := {
  validation_name : string;
  validation_threshold : Z;
  validate_content : bool;
  defaulttimedelay : Z;
  source_name : option string;
  destination_name : option string;
  summary_log : string;
  granularity : option string;
  validation_type : option string
}.

(** [Field(le=100)] *)
Definition le (bound : Z) (field : string) (v : Z) : result Z :=
  if (v <=? bound)%Z then Ok v
  else Raise (ValidationError (field ++ ": Input should be less than or equal to the bound")).

Definition new (values : Raw.t) : result t :=
  bind (required "validation_name" (Raw.validation_name values)) (fun name =>
  bind (required "validation_threshold" (Raw.validation_threshold values)) (fun th =>
  bind (le 100 "validation_threshold" th) (fun th =>
  bind (required "summary_log" (Raw.summary_log values)) (fun log =>
  bind (optional_literal "granularity" ["monthly"; "daily"; "hourly"]
          (Raw.granularity values)) (fun gran =>
  bind (optional_literal "validation_type"
          ["hdfs-hdfs"; "hdfs-jdbc"; "jdbc-hdfs"; "jdbc-jdbc"]
          (Raw.validation_type values)) (fun vtype =>
  Ok {| validation_name := name;
        validation_threshold := th;
        validate_content := default false (Raw.validate_content values);
        defaulttimedelay := default 0%Z (Raw.defaulttimedelay values);
        source_name := Raw.source_name values;
        destination_name := Raw.destination_name values;
        summary_log := log;
        granularity := gran;
        validation_type := vtype |})))))).

Definition set_summary_log (s : t) (log : string) : t :=
  {| validation_name := validation_name s;
     validation_threshold := validation_threshold s;
     validate_content := validate_content s;
     defaulttimedelay := defaulttimedelay s;
     source_name := source_name s;
     destination_name := destination_name s;
     summary_log := log;
     granularity := granularity s;
     validation_type := validation_type s |}.
End Setting.

Module FileConfig.
(** What the [options] key holds: a plain mapping, or the [CsvOptions] or
    [ParquetOptions] object that [set_file_options] builds from it. *)
Inductive options_value : Type :=
| Mapping (o : reader_options)
| CsvOptions (o : reader_options)
| ParquetOptions (o : reader_options).

Module Raw.
Record t : Type := {
  format : option string;
  path : option string;
  options : option options_value
}.

Definition is_empty (values : t) : bool :=
  match format values, path values, options values with
  | None, None, None => true
  | _, _, _ => false
  end.
End Raw.

Record t : Type := {
  format : string;
  path : string;
  options : option options_value
}.

(** The options class [cls] applied to the unpacked [_options] when that
    is truthy, to no argument otherwise; only a mapping can be unpacked.
    What the class makes of each key (it checks and converts the values of
    the keys it declares, and drops the others) is not modelled: the
    object stands for the class applied to the mapping. *)
Definition build (cls : reader_options -> options_value)
  (o : option options_value) : result options_value :=
  match o with
  | None => Ok (cls [])
  | Some (Mapping []) => Ok (cls [])
  | Some (Mapping (kv :: l)) => Ok (cls (kv :: l))
  | Some _ => Raise TypeError
  end.

Definition set_options (values : Raw.t) (o : options_value) : Raw.t :=
  {| Raw.format := Raw.format values; Raw.path := Raw.path values;
     Raw.options := Some o |}.

Definition set_file_options (values : Raw.t) : result Raw.t :=
  let _format := Raw.format values in
  let _options := Raw.options values in
  if bool_decide (_format = Some "csv"%string) then
    bind (build CsvOptions _options) (fun o => Ok (set_options values o))
  else if bool_decide (_format = Some "parquet"%string) then
    bind (build ParquetOptions _options) (fun o => Ok (set_options values o))
  else Ok values.

Definition new (values : Raw.t) : result t :=
  bind (in_validator (set_file_options values)) (fun values =>
  bind (required "format" (Raw.format values)) (fun f =>
  bind (literal "format" ["csv"; "parquet"] f) (fun f =>
  bind (required "path" (Raw.path values)) (fun p =>
  Ok {| format := f; path := p; options := Raw.options values |})))).

Definition set_path (c : t) (p : string) : t :=
  {| format := format c; path := p; options := options c |}.
End FileConfig.

Module DatabaseOptions.
Module Raw.
(** The keys given: [url], [dbtable], [query], and under [others] the
    tuning keys, whose values construction is not modelled as checking. *)
Record t : Type := {
  url : option string;
  dbtable : option string;
  query : option string;
  others : reader_options
}.

Definition is_empty (values : t) : bool :=
  match url values, dbtable values, query values, others values with
  | None, None, None, [] => true
  | _, _, _, _ => false
  end.
End Raw.

Record t : Type := {
  url : string;
  dbtable : option string;
  query : option string;
  others : reader_options
}.

Definition check_dbtable_or_query (values : Raw.t) : result Raw.t :=
  let dbtable := Raw.dbtable values in
  let query := Raw.query values in
  if negb (truthy dbtable || truthy query) then
    Raise (ValueError "Either 'dbtable' or 'query' must be provided.")
  else if truthy dbtable && truthy query then
    Raise (ValueError "Only one of 'dbtable' or 'query' should be provided.")
  else Ok values.

Definition new (values : Raw.t) : result t :=
  bind (in_validator (check_dbtable_or_query values)) (fun values =>
  bind (required "url" (Raw.url values)) (fun u =>
  Ok {| url := u; dbtable := Raw.dbtable values; query := Raw.query values;
        others := Raw.others values |})).

Definition set_query (o : t) (q : string) : t :=
  {| url := url o; dbtable := dbtable o; query := Some q; others := others o |}.
End DatabaseOptions.

Module DatabaseConfig.
Module Raw.
Record t : Type := {
  format : option string;
  options : option DatabaseOptions.Raw.t
}.

Definition is_empty (values : t) : bool :=
  match format values, options values with
  | None, None => true
  | _, _ => false
  end.
End Raw.

Record t : Type := {
  format : string;
  options : DatabaseOptions.t
}.

Definition new (values : Raw.t) : result t :=
  bind (required "format" (Raw.format values)) (fun f =>
  bind (literal "format" ["jdbc"] f) (fun f =>
  bind (required "options" (Raw.options values)) (fun o =>
  bind (DatabaseOptions.new o) (fun o =>
  Ok {| format := f; options := o |})))).

Definition set_options (c : t) (o : DatabaseOptions.t) : t :=
  {| format := format c; options := o |}.
End DatabaseConfig.

Module Datasource.
Module Raw.
Record t : Type := {
  type : option string;
  database_config : option DatabaseConfig.Raw.t;
  file_config : option FileConfig.Raw.t
}.
End Raw.

Record t : Type := {
  type : string;
  database_config : option DatabaseConfig.t;
  file_config : option FileConfig.t
}.

(** [not values.get(key)]: the key is absent, [None], or an empty
    mapping. *)
Definition missing {A} (is_empty : A -> bool) (o : option A) : bool :=
  match o with
  | Some v => is_empty v
  | None => true
  end.

Definition check_target_config (values : Raw.t) : result Raw.t :=
  let ds_type := Raw.type values in
  if bool_decide (ds_type = Some "database"%string)
     && missing DatabaseConfig.Raw.is_empty (Raw.database_config values) then
    Raise (ValueError "database_config must be provided for type 'database'.")
  else if bool_decide (ds_type = Some "file"%string)
     && missing FileConfig.Raw.is_empty (Raw.file_config values) then
    Raise (ValueError "file_config must be provided for type 'file'.")
  else Ok values.

Definition optional {A B} (new : A -> result B) (o : option A)
  : result (option B) :=
  match o with
  | Some v => bind (new v) (fun b => Ok (Some b))
  | None => Ok None
  end.

Definition new (values : Raw.t) : result t :=
  bind (in_validator (check_target_config values)) (fun values =>
  bind (required "type" (Raw.type values)) (fun ty =>
  bind (literal "type" ["database"; "file"] ty) (fun ty =>
  bind (optional DatabaseConfig.new (Raw.database_config values)) (fun db =>
  bind (optional FileConfig.new (Raw.file_config values)) (fun fc =>
  Ok {| type := ty; database_config := db; file_config := fc |}))))).

Definition set_database_config (d : t) (c : option DatabaseConfig.t) : t :=
  {| type := type d; database_config := c; file_config := file_config d |}.
Definition set_file_config (d : t) (c : option FileConfig.t) : t :=
  {| type := type d; database_config := database_config d; file_config := c |}.
End Datasource.

Module ValidationConfig.
Import Datetime.

Module Raw.
(** The mapping the configuration is built from, each part absent or a
    mapping of its shape. *)
Record t : Type := {
  args : option Args.t;
  setting : option Setting.Raw.t;
  source : option Datasource.Raw.t;
  target : option Datasource.Raw.t;
  process_datetime : option datetime
}.
End Raw.

(** The configs of the source and of the target are separate objects:
    construction builds each from its own part of the mapping. The record
    holds them by value. *)
Record t : Type := {
  args : Args.t;
  setting : Setting.t;
  source : Datasource.t;
  target : Datasource.t;
  process_datetime : option datetime
}.

Definition set_process_datetime_field (values : t) (dt : datetime) : t :=
  {| args := args values; setting := setting values; source := source values;
     target := target values; process_datetime := Some dt |}.

(** The truncation of [_process_datetime] by [_granularity] in
    [set_process_datetime]. *)
Definition truncate (_granularity : option string) (_process_datetime : datetime)
  : result datetime :=
  if bool_decide (_granularity = Some "monthly"%string) then
    replace _process_datetime (Some 1%Z) (Some 0%Z) (Some 0%Z) (Some 0%Z) (Some 0%Z)
  else if bool_decide (_granularity = Some "daily"%string) then
    replace _process_datetime None (Some 0%Z) (Some 0%Z) (Some 0%Z) (Some 0%Z)
  else
    replace _process_datetime None None (Some 0%Z) (Some 0%Z) (Some 0%Z).

(** The timestamp before truncation: the [if _datetime ... else ...] of
    [set_process_datetime]. [now] is the value of [datetime.now()]. *)
Definition untruncated (now : datetime) (_datetime : option string)
  (_default_timedelay : Z) : result datetime :=
  match _datetime with
  | Some s =>
      if truthy (Some s) then strptime s
      else sub_seconds now _default_timedelay
  | None => sub_seconds now _default_timedelay
  end.

Definition set_process_datetime (now : datetime) (values : t) : result t :=
  let _datetime := Args.datetime (args values) in
  let _default_timedelay := Setting.defaulttimedelay (setting values) in
  let _granularity := Setting.granularity (setting values) in
  bind (untruncated now _datetime _default_timedelay) (fun _process_datetime =>
  bind (truncate _granularity _process_datetime) (fun _process_datetime =>
  Ok (set_process_datetime_field values _process_datetime))).

Section Platform.
Variable libc : string -> datetime -> result string.

(** One turn of the loop over the two database configs. *)
Definition render_query (dt : datetime) (config : option DatabaseConfig.t)
  : result (option DatabaseConfig.t) :=
  match config with
  | Some c =>
      match DatabaseOptions.query (DatabaseConfig.options c) with
      | Some q =>
          if truthy (Some q) then
            bind (strftime libc dt q) (fun q' =>
            Ok (Some (DatabaseConfig.set_options c
                        (DatabaseOptions.set_query (DatabaseConfig.options c) q'))))
          else Ok config
      | None => Ok config
      end
  | None => Ok config
  end.

(** One turn of the loop over the two file configs. *)
Definition render_path (dt : datetime) (config : option FileConfig.t)
  : result (option FileConfig.t) :=
  match config with
  | Some c =>
      if truthy (Some (FileConfig.path c)) then
        bind (strftime libc dt (FileConfig.path c)) (fun p' =>
        Ok (Some (FileConfig.set_path c p')))
      else Ok config
  | None => Ok config
  end.

(** The body of the [try] in [set_strftime_string]. *)
Definition render_all (values : t) : result t :=
  match process_datetime values with
  | None => Raise AttributeError
  | Some dt =>
      bind (strftime libc dt (Setting.summary_log (setting values))) (fun log =>
      bind (render_query dt (Datasource.database_config (source values))) (fun sdb =>
      bind (render_query dt (Datasource.database_config (target values))) (fun tdb =>
      bind (render_path dt (Datasource.file_config (source values))) (fun sfc =>
      bind (render_path dt (Datasource.file_config (target values))) (fun tfc =>
      Ok {| args := args values;
            setting := Setting.set_summary_log (setting values) log;
            source := Datasource.set_file_config
                        (Datasource.set_database_config (source values) sdb) sfc;
            target := Datasource.set_file_config
                        (Datasource.set_database_config (target values) tdb) tfc;
            process_datetime := process_datetime values |})))))
  end.

Definition set_strftime_string (values : t) : result t :=
  match render_all values with
  | Ok values => Ok values
  | Raise _ => Raise (ValueError "error setting strftime.")
  end.

Definition new (now : datetime) (values : Raw.t) : result t :=
  bind (required "args" (Raw.args values)) (fun a =>
  bind (Args.new a) (fun a =>
  bind (required "setting" (Raw.setting values)) (fun s =>
  bind (Setting.new s) (fun s =>
  bind (required "source" (Raw.source values)) (fun src =>
  bind (Datasource.new src) (fun src =>
  bind (required "target" (Raw.target values)) (fun tgt =>
  bind (Datasource.new tgt) (fun tgt =>
  bind (in_validator (set_process_datetime now
          {| args := a; setting := s; source := src; target := tgt;
             process_datetime := Raw.process_datetime values |})) (fun v =>
  in_validator (set_strftime_string v)))))))))).
End Platform.

End ValidationConfig.

(* ===================================================================== *)
(** ** Vocabulary of the statements, and sample data *)
(* ===================================================================== *)

Module Statements.
Import Spark SparkValidation Datetime.

(** *** The comparisons as the specification words them *)

(** [count_diff / count_source * 100] in binary64 arithmetic. *)
Definition spec_percentage_diff (count_diff count_source : Z) : pyfloat :=
  SFmul prec emax (SFdiv prec emax (Z2SF count_diff) (Z2SF count_source))
        (binary_normalize prec emax 100 0 false).

(** The fingerprint of a row, and the set of fingerprints of a dataset. *)
Definition fingerprint (r : row) : string := concat_ws "||" r.

Definition fingerprints (df : DataFrame) : gset string :=
  list_to_set (fingerprint <$> rows df).

(** The record the row-count check returns on counts [cs] and [ct]. *)
Definition spec_row_count (cs ct threshold : Z) : RowCount :=
  let pd := spec_percentage_diff (Z.abs (cs - ct)) cs in
  {| count_source := cs;
     count_target := ct;
     count_diff := Z.abs (cs - ct);
     percentage_diff := pd;
     threshold := threshold;
     is_passed := float_le_int pd threshold |}.

(** The calls that compute fingerprints and their differences. *)
Definition fingerprint_work (ev : event) : bool :=
  match ev with
  | Call (SelectExpr _) | Call Distinct | Call Subtract | Call Count => true
  | _ => false
  end.

Definition concat_expr : string := "concat_ws('||', *) as row".

(** What the content check does and logs when the schemas match and the
    two difference counts are [n_source] and [n_target]. *)
Definition content_trace (n_source n_target : Z) : list event :=
  [Call Columns; Call Columns;
   Call (SelectExpr concat_expr); Call Distinct;
   Call (SelectExpr concat_expr); Call Distinct;
   Call Subtract; Call Subtract; Call Count; Call Count;
   Info (ContentLog true (Some n_source) (Some n_target)
           ((n_source =? 0)%Z && (n_target =? 0)%Z))].

(** What the content check does and logs when the schemas differ. *)
Definition mismatch_trace (df_source df_target : DataFrame) : list event :=
  [Call Columns; Call Columns;
   Info (ContentLog false None None false);
   Call Schema; Info (SchemaLog (schema df_source));
   Call Schema; Info (SchemaLog (schema df_target))].

(** The number of fingerprints of [a] that are no fingerprint of [b]. *)
Definition rows_only_in (a b : DataFrame) : Z :=
  Z.of_nat (size (fingerprints a ∖ fingerprints b)).

Section Rendering.
Variable libc : string -> datetime -> result string.
Variable dt : datetime.

(** [after] is [before] with its query, when it has one, rendered once
    against [dt], and nothing else changed. *)
Definition query_rendered (before after : option DatabaseConfig.t) : Prop :=
  match before, after with
  | None, None => True
  | Some c, Some c' =>
      DatabaseConfig.format c' = DatabaseConfig.format c
      /\ DatabaseOptions.url (DatabaseConfig.options c')
         = DatabaseOptions.url (DatabaseConfig.options c)
      /\ DatabaseOptions.dbtable (DatabaseConfig.options c')
         = DatabaseOptions.dbtable (DatabaseConfig.options c)
      /\ DatabaseOptions.others (DatabaseConfig.options c')
         = DatabaseOptions.others (DatabaseConfig.options c)
      /\ match DatabaseOptions.query (DatabaseConfig.options c) with
         | Some q =>
             exists q', strftime libc dt q = Ok q'
                        /\ DatabaseOptions.query (DatabaseConfig.options c') = Some q'
         | None => DatabaseOptions.query (DatabaseConfig.options c') = None
         end
  | _, _ => False
  end.

(** [after] is [before] with its path rendered once against [dt]. *)
Definition path_rendered (before after : option FileConfig.t) : Prop :=
  match before, after with
  | None, None => True
  | Some c, Some c' =>
      FileConfig.format c' = FileConfig.format c
      /\ FileConfig.options c' = FileConfig.options c
      /\ strftime libc dt (FileConfig.path c) = Ok (FileConfig.path c')
  | _, _ => False
  end.

Definition query_of (c : option DatabaseConfig.t) : list string :=
  match c with
  | Some c => match DatabaseOptions.query (DatabaseConfig.options c) with
              | Some q => [q]
              | None => []
              end
  | None => []
  end.

Definition path_of (c : option FileConfig.t) : list string :=
  match c with
  | Some c => [FileConfig.path c]
  | None => []
  end.

(** Neither [%] nor a null character in the text. *)
Fixpoint plain (s : string) : bool :=
  match s with
  | EmptyString => true
  | String c rest =>
      negb (Ascii.eqb c "%") && negb (Ascii.eqb c zero) && plain rest
  end.

(** The templated strings of a run. *)
Definition templates (values : ValidationConfig.t) : list string :=
  Setting.summary_log (ValidationConfig.setting values)
  :: query_of (Datasource.database_config (ValidationConfig.source values))
  ++ query_of (Datasource.database_config (ValidationConfig.target values))
  ++ path_of (Datasource.file_config (ValidationConfig.source values))
  ++ path_of (Datasource.file_config (ValidationConfig.target values)).
End Rendering.

(** *** Sample frames *)

Definition frame (n : nat) : DataFrame :=
  {| schema := [("id", "string")]; rows := replicate n [Some "x"%string] |}.

Definition people : list (string * string) :=
  [("name", "string"); ("city", "string")].
Definition shared_rows : list row :=
  [[Some "ann"; Some "oslo"]; [Some "bob"; None]]%string.
Definition source_people : DataFrame :=
  {| schema := people; rows := [Some "cy"; Some "rome"]%string :: shared_rows |}.
Definition target_people : DataFrame :=
  {| schema := people; rows := shared_rows ++ [[Some "dee"; Some "lima"]%string] |}.
Definition people_reordered : DataFrame :=
  {| schema := [("city", "string"); ("name", "string")];
     rows := [[Some "oslo"; Some "ann"]; [None; Some "bob"]]%string |}.

(** Two frames with the same schema and one row each; the two rows differ
    and have the same fingerprint. *)
Definition split_left : DataFrame :=
  {| schema := people; rows := [[Some "a||b"; Some "c"]%string] |}.
Definition split_right : DataFrame :=
  {| schema := people; rows := [[Some "a"; Some "b||c"]%string] |}.

(** *** Sample configuration *)

Definition sample_args (override : option string) : Args.t :=
  {| Args.config := "conf/orders.xml";
     Args.datetime := override;
     Args.verbose := false;
     Args.spark_master := "local" |}.

Definition sample_setting (threshold : Z) (granularity : option string)
  : Setting.Raw.t :=
  {| Setting.Raw.validation_name := Some "orders"%string;
     Setting.Raw.validation_threshold := Some threshold;
     Setting.Raw.validate_content := Some true;
     Setting.Raw.defaulttimedelay := Some 3600%Z;
     Setting.Raw.source_name := Some "lake"%string;
     Setting.Raw.destination_name := Some "warehouse"%string;
     Setting.Raw.summary_log := Some "/logs/%Y-%m/orders"%string;
     Setting.Raw.granularity := granularity;
     Setting.Raw.validation_type := Some "hdfs-jdbc"%string |}.

Definition sample_file : FileConfig.Raw.t :=
  {| FileConfig.Raw.format := Some "csv"%string;
     FileConfig.Raw.path := Some "/data/orders/%Y/%m/%d"%string;
     FileConfig.Raw.options :=
       Some (FileConfig.Mapping [("header", "true")]%string) |}.

Definition sample_database : DatabaseConfig.Raw.t :=
  {| DatabaseConfig.Raw.format := Some "jdbc"%string;
     DatabaseConfig.Raw.options :=
       Some {| DatabaseOptions.Raw.url := Some "jdbc:postgresql://db/sales"%string;
               DatabaseOptions.Raw.dbtable := None;
               DatabaseOptions.Raw.query :=
                 Some "select * from orders where day = '%Y-%m-%d'"%string;
               DatabaseOptions.Raw.others := [("fetchsize", "1000")]%string |} |}.

Definition sample_source : Datasource.Raw.t :=
  {| Datasource.Raw.type := Some "file"%string;
     Datasource.Raw.database_config := None;
     Datasource.Raw.file_config := Some sample_file |}.

Definition sample_target : Datasource.Raw.t :=
  {| Datasource.Raw.type := Some "database"%string;
     Datasource.Raw.database_config := Some sample_database;
     Datasource.Raw.file_config := None |}.

(** A source of kind [file] that supplies both configs. *)
Definition both_configs : Datasource.Raw.t :=
  {| Datasource.Raw.type := Some "file"%string;
     Datasource.Raw.database_config := Some sample_database;
     Datasource.Raw.file_config := Some sample_file |}.

Definition sample_raw (override : option string) (granularity : option string)
  : ValidationConfig.Raw.t :=
  {| ValidationConfig.Raw.args := Some (sample_args override);
     ValidationConfig.Raw.setting := Some (sample_setting 5 granularity);
     ValidationConfig.Raw.source := Some sample_source;
     ValidationConfig.Raw.target := Some sample_target;
     ValidationConfig.Raw.process_datetime := None |}.

(** A validated run, before the two [mode='after'] validators. *)
Definition sample_values (override : option string) (granularity : option string)
  : ValidationConfig.t :=
  {| ValidationConfig.args := sample_args override;
     ValidationConfig.setting := {| Setting.validation_name := "orders"%string;
                   Setting.validation_threshold := 5%Z;
                   Setting.validate_content := true;
                   Setting.defaulttimedelay := 3600%Z;
                   Setting.source_name := None;
                   Setting.destination_name := None;
                   Setting.summary_log := "/logs/%Y-%m/orders"%string;
                   Setting.granularity := granularity;
                   Setting.validation_type := None |};
     ValidationConfig.source := {| Datasource.type := "file"%string;
                  Datasource.database_config := None;
                  Datasource.file_config :=
                    Some {| FileConfig.format := "csv"%string;
                            FileConfig.path := "/data/orders/%Y/%m/%d"%string;
                            FileConfig.options := None |} |};
     ValidationConfig.target := {| Datasource.type := "database"%string;
                  Datasource.database_config :=
                    Some {| DatabaseConfig.format := "jdbc"%string;
                            DatabaseConfig.options :=
                              {| DatabaseOptions.url := "jdbc:postgresql://db/sales"%string;
                                 DatabaseOptions.dbtable := None;
                                 DatabaseOptions.query := Some "select '%Y-%m-%d'"%string;
                                 DatabaseOptions.others := [] |} |};
                  Datasource.file_config := None |};
     ValidationConfig.process_datetime := None |}.

(** A platform that rejects whatever is platform-specific. *)
Definition no_libc (rest : string) (dt : datetime) : result string :=
  Raise (ValueError "Invalid format string").

(** The wall clock of the sample runs: 2024-01-01 10:45:00. *)
Definition sample_now : datetime :=
  {| year := 2024; month := 1; day := 1; hour := 10; minute := 45;
     second := 0; microsecond := 0 |}.

End Statements.

(* ===================================================================== *)
(** ** helpers/generic.py *)
(* ===================================================================== *)

Module Generic.

Local Unset Elimination Schemes.

(** An element of the document as ElementTree holds it: its tag, its text
    (a string or [None]) and its child elements in document order. *)
Inductive Element : Type :=
| Elem (tag : string) (text : option string) (children : list Element).

Definition tag (e : Element) : string :=
  match e with Elem t _ _ => t end.
Definition text (e : Element) : option string :=
  match e with Elem _ s _ => s end.
Definition children (e : Element) : list Element :=
  match e with Elem _ _ cs => cs end.

(** What the parser builds: the text of a leaf, a dictionary, or the list
    that collects the values of a repeated tag. A dictionary keeps its keys
    in insertion order. *)
Inductive value : Type :=
| Text (s : option string)
| Dict (d : list (string * value))
| Many (l : list value).

Definition dict : Type := list (string * value).

(** [d.get(k)] *)
Fixpoint get (k : string) (d : dict) : option value :=
  match d with
  | [] => None
  | (k', v) :: d' => if String.eqb k k' then Some v else get k d'
  end.

(** [d[k] = v]: the value of an existing key is replaced where it stands, a
    new key goes to the end. *)
Fixpoint set (k : string) (v : value) (d : dict) : dict :=
  match d with
  | [] => [(k, v)]
  | (k', v') :: d' =>
      if String.eqb k k' then (k', v) :: d' else (k', v') :: set k v d'
  end.

(** One turn of the loop over the children: [parsed] is
    [_parse_element(child)]. *)
Definition add_child (child_dict : dict) (child_tag : string) (parsed : value)
  : dict :=
  match get child_tag child_dict with
  | Some old =>
      let l := match old with
               | Many l => l
               | _ => [old]
               end in
      set child_tag (Many (l ++ [parsed])) child_dict
  | None => set child_tag parsed child_dict
  end.

Fixpoint _parse_element (element : Element) : value :=
  match element with
  | Elem _ s cs =>
      match cs with
      | [] => Text s
      | _ :: _ =>
          Dict ((fix loop (cs : list Element) (child_dict : dict) : dict :=
                   match cs with
                   | [] => child_dict
                   | child :: cs' =>
                       loop cs' (add_child child_dict (tag child)
                                   (_parse_element child))
                   end) cs [])
      end
  end.

(** [parse_config], from the root element that [ET.parse] returns. *)
Definition parse_config (root : Element) : dict :=
  fold_left (fun dict_config child =>
               add_child dict_config (tag child) (_parse_element child))
            (children root) [].

(** *** Vocabulary of the statements *)

Definition keys (d : dict) : list string := d.*1.

(** The values parsed from the elements that carry the tag [t], in document
    order. *)
Definition tagged (t : string) (cs : list Element) : list value :=
  _parse_element <$> filter (fun c => tag c = t) cs.

(** How the values of one tag show under their key: nothing, the value
    itself when it is alone, their list otherwise. *)
Definition collapse (vs : list value) : option value :=
  match vs with
  | [] => None
  | [v] => Some v
  | _ => Some (Many vs)
  end.

(** The tags in order of first occurrence. *)
Definition first_seen (tags : list string) : list string :=
  fold_left (fun seen t => if bool_decide (t ∈ seen) then seen else seen ++ [t])
            tags [].

(** A small document. *)
Definition leaf (t s : string) : Element := Elem t (Some s) [].
Definition sample_document : Element :=
  Elem "config" (Some "ignored")
    [ Elem "setting" None [leaf "validation_name" "orders";
                           leaf "validation_threshold" "5"];
      leaf "note" "first";
      Elem "source" None [leaf "type" "file"];
      leaf "note" "second";
      Elem "note" None [] ]%string.

End Generic.

(* ===================================================================== *)
(** ** Vocabulary of the further statements *)
(* ===================================================================== *)

Module Timeline.
Import Datetime.
Local Open Scope Z_scope.

(** The seconds from the start of day 0 of the calendar to a timestamp. *)
Definition seconds (dt : datetime) : Z :=
  ymd2ord (year dt) (month dt) (day dt) * 86400
  + hour dt * 3600 + minute dt * 60 + second dt.

(** The text holds ASCII characters only. *)
Definition ascii_text (s : string) : bool :=
  forallb (fun c => (N_of_ascii c <? 128)%N) (list_ascii_of_string s).

End Timeline.

(* ===================================================================== *)
(** ** spark_validation.py: the run *)
(* ===================================================================== *)

(** [read_dataset], the readers, [spark_write_hdfs] and the body of
    [main], from the mapping handed to [ValidationConfig] on. The engine
    is a parameter: what it answers to a call is not the program's. A run
    yields its outcome and the calls made outside the data frames, with
    the lines logged, in order. *)
Module Main.
Import Py Spark SparkValidation Datetime.

(** What can end a run: an exception of [Py], the [UnboundLocalError] of a
    local read before any assignment, an error of the engine. *)
Inductive error : Type :=
| Python (e : exn)
| UnboundLocalError
| EngineError (msg : string).

Inductive outcome (A : Type) : Type :=
| Returned (a : A)
| Raised (e : error).
Arguments Returned {A} a.
Arguments Raised {A} e.

(** What the engine answers. *)
Inductive reply (A : Type) : Type :=
| Fine (a : A)
| Failure (msg : string).
Arguments Fine {A} a.
Arguments Failure {A} msg.

(** The [Row] that [spark_write_hdfs] builds. *)
Record Row : Type := {
  timestamp : datetime;
  datetime_ : option datetime;
  granularity : option string;
  type : option string;
  source_name : option string;
  destination_name : option string;
  source_count : Z;
  destination_count : Z
}.

(** The lines logged, by their interpolated fields. *)
Inductive line : Type :=
| StartLine (validation_name : string)
            (validation_type granularity source_name destination_name : option string)
| DumpLine (config : ValidationConfig.t)
| SessionLine (spark_master : string)
| FetchedLine
| WrittenLine (summary_log : string)
| ValidationLine (l : log_record).

Inductive action : Type :=
| GetOrCreate (app_name master : string)
| Load (format : string) (options : reader_options) (path : option string)
| CreateDataFrame (rows : list Row)
| Save (format mode path : string) (rows : list Row)
| Logged (l : line).

(** The engine, by what it answers to each call the program makes: an
    answer is a function of the arguments of the call. *)
Record engine : Type := {
  getOrCreate : string -> string -> reply unit;
  load : string -> reader_options -> option string -> reply DataFrame;
  createDataFrame : list Row -> reply unit;
  save : string -> string -> string -> list Row -> reply unit
}.

Definition Run (A : Type) : Type := list action -> outcome A * list action.

Definition ret {A} (a : A) : Run A := fun t => (Returned a, t).

Definition raise {A} (e : error) : Run A := fun t => (Raised e, t).

Definition rbind {A B} (c : Run A) (k : A -> Run B) : Run B :=
  fun t => match c t with
           | (Returned a, t') => k a t'
           | (Raised e, t') => (Raised e, t')
           end.

Notation "'let!' x ':=' c 'in' k" := (rbind c (fun x => k))
  (at level 10, x name, c at level 100, k at level 200).
Notation "c ';!' k" := (rbind c (fun _ => k))
  (at level 100, k at level 200, right associativity).

(** A call on the engine: recorded, then answered. *)
Definition call {A} (a : action) (r : reply A) : Run A :=
  fun t => (match r with
            | Fine v => Returned v
            | Failure msg => Raised (EngineError msg)
            end, t ++ [a]).

Definition info (l : line) : Run unit := fun t => (Returned tt, t ++ [Logged l]).

Definition of_result {A} (r : result A) : Run A :=
  match r with
  | Ok a => ret a
  | Raise e => raise (Python e)
  end.

(** The lines among the events of a check. *)
Definition lines (evs : list event) : list action :=
  omap (fun ev => match ev with
                  | Info l => Some (Logged (ValidationLine l))
                  | Call _ => None
                  end) evs.

(** A check on data frames inside a run. Each check logs after its last
    step that can raise, so a check that raises has logged nothing. *)
Definition check {A} (c : Eff A) : Run A :=
  fun t => match run c with
           | Ok (a, evs) => (Returned a, t ++ lines evs)
           | Raise e => (Raised (Python e), t)
           end.

(** [options.model_dump(exclude_none=True)] on the options of a file. *)
Definition file_options_dump (o : FileConfig.options_value) : reader_options :=
  match o with
  | FileConfig.Mapping o | FileConfig.CsvOptions o | FileConfig.ParquetOptions o => o
  end.

Definition entry (key : string) (o : option string) : reader_options :=
  match o with
  | Some v => [(key, v)]
  | None => []
  end.

(** [options.model_dump(exclude_none=True)] on [DatabaseOptions]. *)
Definition database_options_dump (o : DatabaseOptions.t) : reader_options :=
  ("url"%string, DatabaseOptions.url o)
  :: entry "dbtable" (DatabaseOptions.dbtable o)
  ++ entry "query" (DatabaseOptions.query o)
  ++ DatabaseOptions.others o.

Section Engine.
Variable spark : engine.

Definition spark_get_session (app_name master : string) : Run unit :=
  let _master := if bool_decide (master = "local"%string) then "local[*]"%string
                 else master in
  call (GetOrCreate app_name _master) (getOrCreate spark app_name _master).

Definition spark_read_file (file_config : option FileConfig.t) : Run DataFrame :=
  match file_config with
  | None => raise (Python AttributeError)
  | Some file_config =>
      let _format := FileConfig.format file_config in
      match FileConfig.options file_config with
      | None => raise (Python AttributeError)
      | Some options =>
          let _options := file_options_dump options in
          let _path := FileConfig.path file_config in
          call (Load _format _options (Some _path))
               (load spark _format _options (Some _path))
      end
  end.

Definition spark_read_db (database_config : option DatabaseConfig.t) : Run DataFrame :=
  match database_config with
  | None => raise (Python AttributeError)
  | Some database_config =>
      let _format := DatabaseConfig.format database_config in
      let _options := database_options_dump (DatabaseConfig.options database_config) in
      call (Load _format _options None) (load spark _format _options None)
  end.

(** [now] is the value of [datetime.now()] when the row is built. *)
Definition spark_write_hdfs (now : datetime) (config : Setting.t)
  (process_datetime : option datetime) (data : RowCount) : Run unit :=
  let row := {| timestamp := now;
                datetime_ := process_datetime;
                granularity := Setting.granularity config;
                type := Setting.validation_type config;
                source_name := Setting.source_name config;
                destination_name := Setting.destination_name config;
                source_count := count_source data;
                destination_count := count_target data |} in
  call (CreateDataFrame [row]) (createDataFrame spark [row]);!
  call (Save "csv" "append" (Setting.summary_log config) [row])
       (save spark "csv" "append" (Setting.summary_log config) [row]);!
  info (WrittenLine (Setting.summary_log config)).

Definition read_dataset (dataset_config : Datasource.t) : Run DataFrame :=
  if bool_decide (Datasource.type dataset_config = "file"%string) then
    spark_read_file (Datasource.file_config dataset_config)
  else if bool_decide (Datasource.type dataset_config = "database"%string) then
    spark_read_db (Datasource.database_config dataset_config)
  else raise UnboundLocalError.

(** The body of [main], given the mapping that [ValidationConfig] is
    built from. [now] is the clock when the configuration is built,
    [now'] when the report row is. *)
Definition main (libc : string -> datetime -> result string) (now now' : datetime)
  (mapping : ValidationConfig.Raw.t) : Run unit :=
  let! config := of_result (ValidationConfig.new libc now mapping) in
  let setting := ValidationConfig.setting config in
  let args := ValidationConfig.args config in
  info (StartLine (Setting.validation_name setting)
                  (Setting.validation_type setting)
                  (Setting.granularity setting)
                  (Setting.source_name setting)
                  (Setting.destination_name setting));!
  (if Args.verbose args then info (DumpLine config) else ret tt);!
  spark_get_session (Setting.validation_name setting) (Args.spark_master args);!
  info (SessionLine (Args.spark_master args));!
  let! df_source := read_dataset (ValidationConfig.source config) in
  let! df_target := read_dataset (ValidationConfig.target config) in
  info FetchedLine;!
  let! res := check (validate_row_count df_source df_target
                       (Setting.validation_threshold setting)) in
  spark_write_hdfs now' setting (ValidationConfig.process_datetime config) res;!
  if Setting.validate_content setting then check (validate_content df_source df_target)
  else ret tt.

End Engine.

(** *** Vocabulary of the statements about a run *)

(** The calls that write the report. *)
Definition writes (a : action) : bool :=
  match a with
  | CreateDataFrame _ | Save _ _ _ _ => true
  | _ => false
  end.

Definition reads (a : action) : bool :=
  match a with
  | Load _ _ _ => true
  | _ => false
  end.

(** The arguments of the [load] for a data source that carries the
    config of its kind, with its options object. *)
Definition request (d : Datasource.t)
  : option (string * reader_options * option string) :=
  if bool_decide (Datasource.type d = "file"%string) then
    match Datasource.file_config d with
    | Some c =>
        match FileConfig.options c with
        | Some o => Some (FileConfig.format c, file_options_dump o,
                          Some (FileConfig.path c))
        | None => None
        end
    | None => None
    end
  else if bool_decide (Datasource.type d = "database"%string) then
    match Datasource.database_config d with
    | Some c => Some (DatabaseConfig.format c,
                      database_options_dump (DatabaseConfig.options c), None)
    | None => None
    end
  else None.

Definition load_call (rq : string * reader_options * option string) : action :=
  let '(f, o, p) := rq in Load f o p.

Definition load_reply (spark : engine) (rq : string * reader_options * option string)
  : reply DataFrame :=
  let '(f, o, p) := rq in load spark f o p.

(** The master the session is asked for, under the two masters that
    [Args] accepts. *)
Definition session_master (config : ValidationConfig.t) : string :=
  if bool_decide (Args.spark_master (ValidationConfig.args config) = "local"%string)
  then "local[*]" else "yarn".

(** A run up to the line that follows the two reads. *)
Definition fetched (config : ValidationConfig.t)
  (rq_source rq_target : string * reader_options * option string) : list action :=
  let setting := ValidationConfig.setting config in
  [Logged (StartLine (Setting.validation_name setting)
                     (Setting.validation_type setting)
                     (Setting.granularity setting)
                     (Setting.source_name setting)
                     (Setting.destination_name setting))]
  ++ (if Args.verbose (ValidationConfig.args config) then [Logged (DumpLine config)]
      else [])
  ++ [GetOrCreate (Setting.validation_name setting) (session_master config);
      Logged (SessionLine (Args.spark_master (ValidationConfig.args config)));
      load_call rq_source; load_call rq_target; Logged FetchedLine].

(** The report row of a run on counts [cs] and [ct], built at [now]. *)
Definition report_row (now : datetime) (config : ValidationConfig.t) (cs ct : Z) : Row :=
  let setting := ValidationConfig.setting config in
  {| timestamp := now;
     datetime_ := ValidationConfig.process_datetime config;
     granularity := Setting.granularity setting;
     type := Setting.validation_type setting;
     source_name := Setting.source_name setting;
     destination_name := Setting.destination_name setting;
     source_count := cs;
     destination_count := ct |}.

(** The lines of the content check, when the run makes it. *)
Definition content_lines (config : ValidationConfig.t) (df_source df_target : DataFrame)
  : list action :=
  if Setting.validate_content (ValidationConfig.setting config) then
    match run (validate_content df_source df_target) with
    | Ok (_, evs) => lines evs
    | Raise _ => []
    end
  else [].

(** The ways a run can end, other than by returning, once its
    configuration is built: an error of the engine, or the
    [ZeroDivisionError] or [OverflowError] of the row-count check. *)
Definition expected (e : error) : bool :=
  match e with
  | EngineError _ | Python ZeroDivisionError | Python OverflowError => true
  | _ => false
  end.

Definition ends_as_expected {A} (r : outcome A * list action) : Prop :=
  match r.1 with
  | Returned _ => True
  | Raised e => expected e = true
  end.

(** An engine that answers every read with the same frame and accepts
    every write. *)
Definition constant_engine (df : DataFrame) : engine :=
  {| getOrCreate := fun _ _ => Fine tt;
     load := fun _ _ _ => Fine df;
     createDataFrame := fun _ => Fine tt;
     save := fun _ _ _ _ => Fine tt |}.

End Main.

(* ===================================================================== *)
(** ** Verdicts of the two checks *)
(* ===================================================================== *)

Module Verdicts.
Import Py Spark SparkValidation.

(** The sign bit of a float; a NaN counts as unsigned. *)
Definition signbit (f : pyfloat) : bool :=
  match f with
  | S754_zero s | S754_infinity s | S754_finite s _ _ => s
  | S754_nan => false
  end.

(** [is_passed] of the row-count check, when it returns. *)
Definition row_count_passed (df_source df_target : DataFrame) (threshold : Z)
  : option bool :=
  match run (validate_row_count df_source df_target threshold) with
  | Ok (res, _) => Some (is_passed res)
  | Raise _ => None
  end.

(** The [validation passed] fields that the content check logs. *)
Definition content_passed (df_source df_target : DataFrame) : list bool :=
  match run (validate_content df_source df_target) with
  | Ok (_, evs) =>
      omap (fun ev => match ev with
                      | Info (ContentLog _ _ _ passed) => Some passed
                      | _ => None
                      end) evs
  | Raise _ => []
  end.

(** [df] with every row twice. *)
Definition doubled (df : DataFrame) : DataFrame :=
  {| schema := schema df; rows := rows df ++ rows df |}.

End Verdicts.

Module Samples.
Import Datetime.

(** A validated run with an empty override and no delay. *)
Definition undelayed_values : ValidationConfig.t :=
  {| ValidationConfig.args := Statements.sample_args (Some ""%string);
     ValidationConfig.setting :=
       {| Setting.validation_name := "orders"%string;
          Setting.validation_threshold := 5%Z;
          Setting.validate_content := false;
          Setting.defaulttimedelay := 0%Z;
          Setting.source_name := None;
          Setting.destination_name := None;
          Setting.summary_log := "/logs/orders"%string;
          Setting.granularity := Some "daily"%string;
          Setting.validation_type := None |};
     ValidationConfig.source :=
       ValidationConfig.source (Statements.sample_values None None);
     ValidationConfig.target :=
       ValidationConfig.target (Statements.sample_values None None);
     ValidationConfig.process_datetime := None |}.

(** The sample configuration as it stands once its templates have been
    rendered against [sample_now]. *)
Definition rendered_values : ValidationConfig.t :=
  {| ValidationConfig.args := Statements.sample_args None;
     ValidationConfig.setting :=
       Setting.set_summary_log
         (ValidationConfig.setting (Statements.sample_values None (Some "daily"%string)))
         "/logs/2024-01/orders";
     ValidationConfig.source :=
       Datasource.set_file_config
         (ValidationConfig.source (Statements.sample_values None None))
         (Some {| FileConfig.format := "csv";
                  FileConfig.path := "/data/orders/2024/01/01";
                  FileConfig.options := None |});
     ValidationConfig.target :=
       Datasource.set_database_config
         (ValidationConfig.target (Statements.sample_values None None))
         (Some {| DatabaseConfig.format := "jdbc";
                  DatabaseConfig.options :=
                    {| DatabaseOptions.url := "jdbc:postgresql://db/sales";
                       DatabaseOptions.dbtable := None;
                       DatabaseOptions.query := Some "select '2024-01-01'"%string;
                       DatabaseOptions.others := [] |} |});
     ValidationConfig.process_datetime := Some Statements.sample_now |}.

End Samples.

(* ===================================================================== *)
(** * Properties *)
(* ===================================================================== *)

Import Py Spark SparkValidation Statements.

(** ** Integer division never overflows on row counts *)

Section FloatRounding.
Local Open Scope Z_scope.

Lemma digits2_pos_bounds (p : positive) :
  Zpos p < 2 ^ Zpos (digits2_pos p) /\ 2 ^ Zpos (digits2_pos p) <= 2 * Zpos p.
Proof.
  induction p as [p IH | p IH |]; cbn [digits2_pos].
  - rewrite Pos2Z.inj_succ, Z.pow_succ_r by lia. lia.
  - rewrite Pos2Z.inj_succ, Z.pow_succ_r by lia. lia.
  - cbn. lia.
Qed.

Lemma Zdigits2_le (m d : Z) : 0 <= m -> 0 <= d -> m < 2 ^ d -> Zdigits2 m <= d.
Proof.
  intros Hm Hd Hlt. destruct m as [| p | p]; cbn [Zdigits2]; try lia.
  destruct (digits2_pos_bounds p) as [_ Hlow].
  destruct (Z.le_gt_cases (Zpos (digits2_pos p)) d) as [|Hgt]; [done|].
  assert (2 ^ (d + 1) <= 2 ^ Zpos (digits2_pos p)) by (apply Z.pow_le_mono_r; lia).
  rewrite Z.pow_add_r in * by lia. lia.
Qed.

Lemma shr_m_shr_1 (mrs : shr_record) :
  0 <= shr_m mrs -> shr_m (shr_1 mrs) = shr_m mrs / 2.
Proof.
  destruct mrs as [m r s]; cbn [shr_m]. intros Hm.
  rewrite <- Z.div2_div.
  destruct m as [| [p | p |] | p]; try reflexivity; lia.
Qed.

Lemma pow2_pos (k : Z) : 0 <= k -> 0 < 2 ^ k.
Proof. intros. apply Z.pow_pos_nonneg; lia. Qed.

Lemma shr_m_iter_pos (p : positive) (mrs : shr_record) :
  0 <= shr_m mrs ->
  shr_m (SpecFloat.iter_pos shr_1 p mrs) = shr_m mrs / 2 ^ Zpos p.
Proof.
  revert mrs. induction p as [p IH | p IH |]; intros mrs Hm; cbn [SpecFloat.iter_pos].
  - assert (H1 : 0 <= shr_m (shr_1 mrs)).
    { rewrite shr_m_shr_1 by done. apply Z.div_pos; lia. }
    assert (H2 : 0 <= shr_m (SpecFloat.iter_pos shr_1 p (shr_1 mrs))).
    { rewrite IH by done. apply Z.div_pos; [done | apply pow2_pos; lia]. }
    assert (Hp := pow2_pos (Zpos p) ltac:(lia)).
    rewrite IH, IH, shr_m_shr_1 by done.
    rewrite !Z.div_div by lia. f_equal.
    replace (Zpos p~1) with (1 + Zpos p + Zpos p) by lia.
    rewrite !Z.pow_add_r by lia. lia.
  - assert (H2 : 0 <= shr_m (SpecFloat.iter_pos shr_1 p mrs)).
    { rewrite IH by done. apply Z.div_pos; [done | apply pow2_pos; lia]. }
    assert (Hp := pow2_pos (Zpos p) ltac:(lia)).
    rewrite IH, IH by done.
    rewrite !Z.div_div by lia. f_equal.
    replace (Zpos p~0) with (Zpos p + Zpos p) by lia.
    rewrite !Z.pow_add_r by lia. lia.
  - rewrite shr_m_shr_1 by done. reflexivity.
Qed.

(** The exponent and the mantissa after [shr_fexp]. *)
Lemma shr_fexp_spec (m e : Z) (l : location) :
  0 <= m ->
  let '(mrs, e') := shr_fexp prec emax m e l in
  e' = Z.max e (fexp prec emax (Zdigits2 m + e)) /\
  shr_m mrs = m / 2 ^ (e' - e).
Proof.
  intros Hm. unfold shr_fexp, shr.
  assert (Hrec : shr_m (shr_record_of_loc m l) = m)
    by (destruct l as [| []]; reflexivity).
  destruct (fexp prec emax (Zdigits2 m + e) - e) as [| p | p] eqn:E.
  - split; [lia |]. rewrite Hrec, Z.sub_diag, Z.div_1_r. done.
  - split; [lia |]. rewrite shr_m_iter_pos by lia. rewrite Hrec. f_equal. f_equal. lia.
  - split; [lia |]. rewrite Hrec, Z.sub_diag, Z.div_1_r. done.
Qed.

Lemma round_nearest_even_bounds (m : Z) (l : location) :
  m <= round_nearest_even m l <= m + 1.
Proof.
  unfold round_nearest_even. destruct l as [| []]; try lia.
  destruct (Z.even m); lia.
Qed.

(** Rounding a mantissa below [2 ^ (63 - ex)] at an exponent [ex <= 0]
    never gives an infinity. *)
Lemma binary_round_aux_finite (sx : bool) (mx ex : Z) (lx : location) :
  0 <= mx -> ex <= 0 -> mx < 2 ^ (63 - ex) ->
  forall s, binary_round_aux prec emax sx mx ex lx <> S754_infinity s.
Proof.
  intros Hmx Hex Hlt s. unfold binary_round_aux.
  pose proof (shr_fexp_spec mx ex lx Hmx) as H1.
  destruct (shr_fexp prec emax mx ex lx) as [mrs' e'].
  destruct H1 as [He' Hm'].
  set (m1 := round_nearest_even (shr_m mrs') (loc_of_shr_record mrs')).
  assert (Hd : Zdigits2 mx <= 63 - ex) by (apply Zdigits2_le; lia).
  assert (Hk : 0 <= e' - ex) by lia.
  assert (Hm'0 : 0 <= shr_m mrs').
  { rewrite Hm'. apply Z.div_pos; [done | apply pow2_pos; lia]. }
  assert (Hm1 : 0 <= m1 <= shr_m mrs' + 1).
  { pose proof (round_nearest_even_bounds (shr_m mrs') (loc_of_shr_record mrs')).
    unfold m1. lia. }
  assert (He'b : e' <= 10).
  { rewrite He'. unfold fexp, emin, prec, emax. lia. }
  assert (Hm'lt : shr_m mrs' < 2 ^ (63 - e')).
  { rewrite Hm'. apply Z.div_lt_upper_bound; [apply pow2_pos; lia |].
    rewrite <- Z.pow_add_r by lia. replace (e' - ex + (63 - e')) with (63 - ex) by lia.
    done. }
  assert (Hd1 : Zdigits2 m1 <= 64 - e').
  { apply Zdigits2_le; [lia | lia |].
    replace (64 - e') with (1 + (63 - e')) by lia.
    rewrite Z.pow_add_r by lia. change (2 ^ 1) with 2. lia. }
  pose proof (shr_fexp_spec m1 e' loc_Exact ltac:(lia)) as H2.
  destruct (shr_fexp prec emax m1 e' loc_Exact) as [mrs'' e''].
  destruct H2 as [He'' _].
  destruct (shr_m mrs''); try discriminate.
  destruct (Z.leb_spec e'' (emax - prec)) as [|Hgt]; [discriminate |].
  exfalso. revert Hgt. rewrite He''. unfold fexp, emin, prec, emax. lia.
Qed.

Lemma SFdiv_core_binary_bounds (a b : positive) :
  Zpos a < 2 ^ 63 ->
  let '(q, e, _) := SFdiv_core_binary prec emax (Zpos a) 0 (Zpos b) 0 in
  0 <= q /\ e <= 0 /\ q < 2 ^ (63 - e).
Proof.
  intros Ha. unfold SFdiv_core_binary.
  set (e := Z.min _ _).
  assert (He : e <= 0) by (unfold e; lia).
  assert (Hm : exists m', (match 0 - 0 - e with
                           | Z0 => Zpos a | Zpos _ => Z.shiftl (Zpos a) (0 - 0 - e)
                           | Zneg _ => 0 end) = m' /\ 0 <= m' < 2 ^ (63 - e)).
  { destruct (0 - 0 - e) as [| p | p] eqn:E; try lia.
    - eexists; split; [done |]. replace e with 0 by lia. cbn. lia.
    - eexists; split; [done |]. rewrite Z.shiftl_mul_pow2 by lia.
      replace (63 - e) with (63 + Zpos p) by lia.
      rewrite Z.pow_add_r by lia.
      assert (0 < 2 ^ Zpos p) by (apply pow2_pos; lia). nia. }
  destruct Hm as (m' & -> & Hm'0 & Hm'lt).
  pose proof (Z_div_mod m' (Zpos b) ltac:(lia)) as Hdiv.
  destruct (Z.div_eucl m' (Zpos b)) as [q r].
  destruct Hdiv as [Hq Hr].
  split; [nia |]. split; [done | nia].
Qed.

Lemma int_truediv_count (a b : Z) :
  0 <= a < 2 ^ 63 -> 1 <= b ->
  int_truediv a b = Ok (SFdiv prec emax (Z2SF a) (Z2SF b)).
Proof.
  intros Ha Hb. unfold int_truediv.
  destruct (Z.eqb_spec b 0) as [| _]; [lia |].
  destruct b as [| pb | pb]; try lia.
  destruct a as [| pa | pa]; try lia; [reflexivity |].
  cbn [Z2SF SFdiv xorb].
  pose proof (SFdiv_core_binary_bounds pa pb ltac:(lia)) as Hcore.
  destruct (SFdiv_core_binary prec emax (Zpos pa) 0 (Zpos pb) 0) as [[q e] l].
  destruct Hcore as (Hq & He & Hlt).
  pose proof (binary_round_aux_finite false q e l Hq He Hlt) as Hfin.
  destruct (binary_round_aux prec emax false q e l); try reflexivity.
  exfalso. by eapply Hfin.
Qed.

End FloatRounding.

(** ** Row-count check *)

Section RowCount.
Local Open Scope Z_scope.

Lemma count_nonneg (df : DataFrame) : 0 <= count df.
Proof. unfold count. lia. Qed.

Lemma float_mul_int_100 (x : pyfloat) :
  float_mul_int x 100 = Ok (SFmul prec emax x (binary_normalize prec emax 100 0 false)).
Proof. reflexivity. Qed.

(** C1. When the source has no rows the division [count_diff / count_source]
    raises [ZeroDivisionError]: the check returns no result and logs
    nothing, whatever the target and the threshold. *)
Theorem validate_row_count_empty_source (df_source df_target : DataFrame) (threshold : Z) :
  count df_source = 0 ->
  run (validate_row_count df_source df_target threshold) = Raise ZeroDivisionError.
Proof.
  intros H0. unfold run, validate_row_count, df_count, ebind, emit, ret, lift.
  cbn. rewrite H0. reflexivity.
Qed.

Lemma validate_row_count_empty_source_witness :
  count (frame 0) = 0 /\
  run (validate_row_count (frame 0) (frame 0) 5) = Raise ZeroDivisionError.
Proof.
  split; [reflexivity |].
  apply (validate_row_count_empty_source (frame 0) (frame 0) 5). reflexivity.
Defined.

Lemma validate_row_count_counts (df_source df_target : DataFrame) (threshold : Z) :
  1 <= count df_source -> count df_source < 2 ^ 63 -> count df_target < 2 ^ 63 ->
  let res := spec_row_count (count df_source) (count df_target) threshold in
  run (validate_row_count df_source df_target threshold)
  = Ok (res, [Call Count; Call Count; Info (RowCountLog res)]).
Proof.
  intros H1 Hs Ht res.
  pose proof (count_nonneg df_target) as Ht0.
  unfold run, validate_row_count, df_count, logging_info, ebind, emit, ret, lift.
  cbn [app].
  rewrite int_truediv_count by lia.
  rewrite float_mul_int_100.
  unfold res, spec_row_count, spec_percentage_diff.
  destruct (float_le_int _ threshold); reflexivity.
Qed.

(** C2. With at least one source row (counts are 64-bit, as the engine
    returns them), the check returns [count_diff = |count_source -
    count_target|], [percentage_diff = count_diff / count_source * 100] in
    binary64 arithmetic, and [is_passed = (percentage_diff <= threshold)],
    the comparison being exact and non-strict: counts 100 and 97 under
    threshold 5 give 3.0 and pass, 100 and 80 give 20.0 and fail, and 100
    and 95, where the percentage equals the threshold, pass. *)
Theorem validate_row_count_spec :
  (forall (df_source df_target : DataFrame) (threshold : Z),
      1 <= count df_source -> count df_source < 2 ^ 63 -> count df_target < 2 ^ 63 ->
      exists res trace,
        run (validate_row_count df_source df_target threshold) = Ok (res, trace)
        /\ count_source res = count df_source
        /\ count_target res = count df_target
        /\ count_diff res = Z.abs (count df_source - count df_target)
        /\ percentage_diff res = spec_percentage_diff (count_diff res) (count df_source)
        /\ SparkValidation.threshold res = threshold
        /\ is_passed res = float_le_int (percentage_diff res) threshold)
  /\ (forall df_source df_target,
         count df_source = 100 -> count df_target = 97 ->
         exists res trace,
           run (validate_row_count df_source df_target 5) = Ok (res, trace)
           /\ Ok (percentage_diff res) = float_of_int 3
           /\ is_passed res = true)
  /\ (forall df_source df_target,
         count df_source = 100 -> count df_target = 80 ->
         exists res trace,
           run (validate_row_count df_source df_target 5) = Ok (res, trace)
           /\ Ok (percentage_diff res) = float_of_int 20
           /\ is_passed res = false)
  /\ (forall df_source df_target,
         count df_source = 100 -> count df_target = 95 ->
         exists res trace,
           run (validate_row_count df_source df_target 5) = Ok (res, trace)
           /\ Ok (percentage_diff res) = float_of_int 5
           /\ is_passed res = true).
Proof.
  split; [| split; [| split]].
  - intros src tgt th H1 Hs Ht.
    eexists _, _. split; [by apply validate_row_count_counts |].
    cbn. repeat split; reflexivity.
  - intros src tgt Hs Ht.
    eexists _, _. split; [apply validate_row_count_counts; rewrite ?Hs, ?Ht; lia |].
    rewrite Hs, Ht. split; vm_compute; reflexivity.
  - intros src tgt Hs Ht.
    eexists _, _. split; [apply validate_row_count_counts; rewrite ?Hs, ?Ht; lia |].
    rewrite Hs, Ht. split; vm_compute; reflexivity.
  - intros src tgt Hs Ht.
    eexists _, _. split; [apply validate_row_count_counts; rewrite ?Hs, ?Ht; lia |].
    rewrite Hs, Ht. split; vm_compute; reflexivity.
Qed.

Lemma validate_row_count_spec_witness :
  exists res trace,
    run (validate_row_count (frame 100) (frame 97) 5) = Ok (res, trace)
    /\ count_diff res = 3
    /\ Ok (percentage_diff res) = float_of_int 3
    /\ is_passed res = true.
Proof.
  destruct validate_row_count_spec as [Hgen _].
  destruct (Hgen (frame 100) (frame 97) 5) as (res & trace & Hrun & _ & _ & Hd & Hp & _ & Hpass);
    [vm_compute; congruence | reflexivity | reflexivity |].
  exists res, trace. split; [exact Hrun |].
  split; [rewrite Hd; reflexivity |].
  split.
  - rewrite Hp, Hd. vm_compute. reflexivity.
  - rewrite Hpass, Hp, Hd. vm_compute. reflexivity.
Defined.

(** Binary64 rounding is visible at the boundary: 7 rows missing out of 100
    give 7.000000000000001, which is above a threshold of 7. *)
Example validate_row_count_rounding :
  exists res trace,
    run (validate_row_count (frame 100) (frame 93) 7) = Ok (res, trace)
    /\ percentage_diff res = S754_finite false 7881299347898369 (-50)
    /\ float_of_int 7 = Ok (S754_finite false 7881299347898368 (-50))
    /\ is_passed res = false.
Proof. eexists _, _. vm_compute. repeat split; reflexivity. Qed.

End RowCount.

(** ** Fingerprints and set difference *)

Section Fingerprints.

Local Instance single_inj : Inj (=) (=) single.
Proof. intros s1 s2 H. by injection H. Qed.

Lemma select_concat_ws_rows (df : DataFrame) :
  rows (select_concat_ws "||" "row" df) = single <$> (fingerprint <$> rows df).
Proof. cbn. by rewrite <- list_fmap_compose. Qed.

(** The rows [subtract] leaves, counted, against the set difference. *)
Lemma subtract_distinct_length (F G : list string) :
  length (remove_dups (list_difference (remove_dups (single <$> F))
                                       (remove_dups (single <$> G))))
  = size (list_to_set F ∖ list_to_set G : gset string).
Proof.
  set (Y := remove_dups (list_difference F G)).
  transitivity (length (single <$> Y)).
  - apply Permutation_length, NoDup_Permutation.
    + apply NoDup_remove_dups.
    + apply NoDup_fmap_2; [apply _ | apply NoDup_remove_dups].
    + intros x. unfold Y.
      rewrite elem_of_remove_dups, list_elem_of_difference, !elem_of_remove_dups.
      rewrite !list_elem_of_fmap. split.
      * intros [(s & -> & Hs) Hn]. exists s. split; [done |].
        rewrite elem_of_remove_dups, list_elem_of_difference. split; [done |].
        intros HG. apply Hn. by exists s.
      * intros (s & -> & Hs).
        rewrite elem_of_remove_dups, list_elem_of_difference in Hs.
        destruct Hs as [HF HG]. split; [by exists s |].
        intros (s' & Heq & HG'). apply (inj single) in Heq. by subst.
  - rewrite length_fmap. rewrite <- (size_list_to_set (C := gset string) Y)
      by apply NoDup_remove_dups.
    f_equal. apply set_eq. intros s. unfold Y.
    rewrite elem_of_list_to_set, elem_of_remove_dups, list_elem_of_difference.
    rewrite elem_of_difference, !elem_of_list_to_set. done.
Qed.

Lemma count_subtract_distinct (src tgt : DataFrame) :
  count (subtract (distinct (select_concat_ws "||" "row" src))
                  (distinct (select_concat_ws "||" "row" tgt)))
  = Z.of_nat (size (fingerprints src ∖ fingerprints tgt)).
Proof.
  unfold count, subtract, distinct. cbn [rows].
  rewrite !select_concat_ws_rows. f_equal. apply subtract_distinct_length.
Qed.

End Fingerprints.

(** ** Content check *)

Section Content.
Local Open Scope Z_scope.

Lemma validate_content_same_columns (df_source df_target : DataFrame) :
  columns df_source = columns df_target ->
  run (validate_content df_source df_target)
  = Ok (tt, content_trace (rows_only_in df_source df_target)
                          (rows_only_in df_target df_source)).
Proof.
  intros Hcols.
  unfold run, validate_content, df_columns, df_selectExpr_concat_ws, df_distinct,
    df_subtract, df_count, logging_info, ebind, emit, ret.
  cbn [app].
  rewrite bool_decide_eq_false_2 by (intros Hne; by apply Hne).
  rewrite !count_subtract_distinct. reflexivity.
Qed.

Lemma elem_of_fingerprints (df : DataFrame) (s : string) :
  s ∈ fingerprints df <-> s ∈ fingerprint <$> rows df.
Proof. unfold fingerprints. by rewrite elem_of_list_to_set. Qed.

(** One extra row on one side, with a fingerprint of its own. *)
Lemma rows_only_in_one_extra (a b : DataFrame) (common : list row) (ra rb : row) :
  rows a ≡ₚ ra :: common -> rows b ≡ₚ rb :: common ->
  fingerprint ra ∉ fingerprint <$> rows b ->
  rows_only_in a b = 1.
Proof.
  intros Ha Hb Hra. unfold rows_only_in.
  replace (fingerprints a ∖ fingerprints b) with ({[fingerprint ra]} : gset string).
  { by rewrite size_singleton. }
  apply set_eq. intros s.
  rewrite elem_of_difference, elem_of_singleton, !elem_of_fingerprints.
  rewrite Hb in Hra |- *. rewrite Ha. rewrite !fmap_cons, !elem_of_cons in *.
  split.
  - intros ->. split; [by left |]. intros H. by apply Hra.
  - intros [[-> | Hc] Hn]; [done |]. exfalso. apply Hn. by right.
Qed.

(** C3 (amended). With equal column sequences the content check counts
    the rows only in the source as the size of the set difference of the
    fingerprints of the source minus those of the target, and the rows
    only in the target as the size of the opposite difference, the
    fingerprint of a row being its non-NULL column values joined by [||];
    it logs [is_passed] true exactly when both counts are zero. When each
    side has one extra row whose fingerprint is no fingerprint of the
    other side, the counts are 1 and 1 and the check fails. *)
Theorem validate_content_fingerprints (df_source df_target : DataFrame) :
  columns df_source = columns df_target ->
  exists n_source n_target passed,
    run (validate_content df_source df_target)
    = Ok (tt, [Call Columns; Call Columns;
               Call (SelectExpr "concat_ws('||', *) as row"); Call Distinct;
               Call (SelectExpr "concat_ws('||', *) as row"); Call Distinct;
               Call Subtract; Call Subtract; Call Count; Call Count;
               Info (ContentLog true (Some n_source) (Some n_target) passed)])
    /\ n_source = Z.of_nat (size (fingerprints df_source ∖ fingerprints df_target))
    /\ n_target = Z.of_nat (size (fingerprints df_target ∖ fingerprints df_source))
    /\ (passed = true <-> n_source = 0 /\ n_target = 0)
    /\ (forall r, fingerprint r = String.concat "||" (omap id r))
    /\ (forall common r_source r_target,
           rows df_source ≡ₚ r_source :: common ->
           rows df_target ≡ₚ r_target :: common ->
           fingerprint r_source ∉ fingerprint <$> rows df_target ->
           fingerprint r_target ∉ fingerprint <$> rows df_source ->
           n_source = 1 /\ n_target = 1 /\ passed = false).
Proof.
  intros Hcols.
  exists (rows_only_in df_source df_target), (rows_only_in df_target df_source),
    ((rows_only_in df_source df_target =? 0) && (rows_only_in df_target df_source =? 0)).
  split; [by apply validate_content_same_columns |].
  split; [reflexivity |]. split; [reflexivity |].
  split; [rewrite andb_true_iff, !Z.eqb_eq; done |].
  split; [reflexivity |].
  intros common rs rt Hs Ht Hrs Hrt.
  rewrite (rows_only_in_one_extra df_source df_target common rs rt) by done.
  rewrite (rows_only_in_one_extra df_target df_source common rt rs) by done.
  done.
Qed.

Lemma validate_content_fingerprints_witness :
  columns source_people = columns target_people /\
  run (validate_content source_people target_people)
  = Ok (tt, [Call Columns; Call Columns;
             Call (SelectExpr "concat_ws('||', *) as row"); Call Distinct;
             Call (SelectExpr "concat_ws('||', *) as row"); Call Distinct;
             Call Subtract; Call Subtract; Call Count; Call Count;
             Info (ContentLog true (Some 1) (Some 1) false)]).
Proof.
  split; [reflexivity |].
  destruct (validate_content_fingerprints source_people target_people eq_refl)
    as (n1 & n2 & p & Hrun & _ & _ & _ & _ & Hone).
  destruct (Hone shared_rows [Some "cy"; Some "rome"]%string [Some "dee"; Some "lima"]%string)
    as (-> & -> & ->).
  - reflexivity.
  - unfold target_people. cbn [rows]. symmetry. apply Permutation_cons_append.
  - apply (bool_decide_unpack _). vm_compute. exact I.
  - apply (bool_decide_unpack _). vm_compute. exact I.
  - exact Hrun.
Defined.

(** C3 as stated fails: each frame has one row that the other frame lacks,
    and the check reports 0 and 0 and passes. *)
Lemma validate_content_delimiter_collision :
  columns split_left = columns split_right
  /\ (exists r, rows split_left = [r] /\ r ∉ rows split_right)
  /\ (exists r, rows split_right = [r] /\ r ∉ rows split_left)
  /\ run (validate_content split_left split_right)
     = Ok (tt, [Call Columns; Call Columns;
                Call (SelectExpr "concat_ws('||', *) as row"); Call Distinct;
                Call (SelectExpr "concat_ws('||', *) as row"); Call Distinct;
                Call Subtract; Call Subtract; Call Count; Call Count;
                Info (ContentLog true (Some 0) (Some 0) true)]).
Proof.
  split; [reflexivity |]. split; [| split].
  - eexists. split; [reflexivity |]. apply (bool_decide_unpack _). vm_compute. exact I.
  - eexists. split; [reflexivity |]. apply (bool_decide_unpack _). vm_compute. exact I.
  - vm_compute. reflexivity.
Qed.

(** C4. When the column-name sequences differ, by name or by order, the
    content check returns without raising: it logs [schema_match] false,
    no counts, [is_passed] false, then the two schemas; it makes no
    [selectExpr], [distinct], [subtract] or [count] call. Reordered
    columns are such a case. *)
Theorem validate_content_schema_mismatch (df_source df_target : DataFrame) :
  columns df_source <> columns df_target ->
  run (validate_content df_source df_target)
  = Ok (tt, [Call Columns; Call Columns;
             Info (ContentLog false None None false);
             Call Schema; Info (SchemaLog (schema df_source));
             Call Schema; Info (SchemaLog (schema df_target))])
  /\ (forall res trace,
         run (validate_content df_source df_target) = Ok (res, trace) ->
         forallb (fun ev => negb (fingerprint_work ev)) trace = true)
  /\ (columns df_source ≡ₚ columns df_target ->
      exists trace,
        run (validate_content df_source df_target) = Ok (tt, trace)
        /\ Info (ContentLog false None None false) ∈ trace).
Proof.
  intros Hne.
  assert (Hrun : run (validate_content df_source df_target)
                 = Ok (tt, mismatch_trace df_source df_target)).
  { unfold run, validate_content, df_columns, df_schema, logging_info, ebind, emit, ret.
    cbn [app]. rewrite bool_decide_eq_true_2 by done. reflexivity. }
  split; [exact Hrun |]. split.
  - intros res trace. rewrite Hrun. intros [= <- <-]. reflexivity.
  - intros _. eexists. split; [exact Hrun |].
    unfold mismatch_trace. rewrite !elem_of_cons. auto.
Qed.

Lemma validate_content_schema_mismatch_witness :
  columns source_people <> columns people_reordered
  /\ columns source_people ≡ₚ columns people_reordered
  /\ run (validate_content source_people people_reordered)
     = Ok (tt, [Call Columns; Call Columns;
                Info (ContentLog false None None false);
                Call Schema; Info (SchemaLog (schema source_people));
                Call Schema; Info (SchemaLog (schema people_reordered))]).
Proof.
  assert (Hne : columns source_people <> columns people_reordered) by discriminate.
  split; [exact Hne |]. split; [apply Permutation_swap |].
  exact (proj1 (validate_content_schema_mismatch source_people people_reordered Hne)).
Defined.

End Content.

(** ** Results *)

Section Results.

Lemma bind_ok {A B} (r : result A) (k : A -> result B) (b : B) :
  bind r k = Ok b -> exists a, r = Ok a /\ k a = Ok b.
Proof. destruct r as [a |]; [eauto | discriminate]. Qed.

Lemma in_validator_ok {A} (r : result A) (a : A) :
  in_validator r = Ok a -> r = Ok a.
Proof. destruct r as [| []]; cbn; congruence. Qed.

End Results.

(** ** Timestamps *)

Section Timestamps.
Import Datetime.
Local Open Scope Z_scope.

Lemma new_ok (y m d hh mm ss us : Z) (dt : datetime) :
  new y m d hh mm ss us = Ok dt ->
  valid dt = true
  /\ dt = {| year := y; month := m; day := d; hour := hh; minute := mm;
            second := ss; microsecond := us |}.
Proof.
  unfold new, valid.
  destruct (check_date_fields y m d && check_time_fields hh mm ss us) eqn:E;
    [| discriminate].
  intros [= <-]. cbn. done.
Qed.

Lemma new_valid (y m d hh mm ss us : Z) :
  check_date_fields y m d = true -> check_time_fields hh mm ss us = true ->
  new y m d hh mm ss us
  = Ok {| year := y; month := m; day := d; hour := hh; minute := mm;
          second := ss; microsecond := us |}.
Proof. intros Hd Ht. unfold new. by rewrite Hd, Ht. Qed.

Lemma strptime_valid (s : string) (dt : datetime) :
  strptime s = Ok dt -> valid dt = true.
Proof.
  unfold strptime. destruct (re_format s) as [| [[[[[[y m] d] hh] mm] ss] rest] l];
    [discriminate |].
  destruct rest; [| discriminate]. intros H. by apply new_ok in H as [? _].
Qed.

Lemma strptime_empty : strptime "" = Raise (ValueError "time data does not match format").
Proof. reflexivity. Qed.

Lemma days_in_month_ge (y m : Z) : 28 <= days_in_month y m.
Proof.
  unfold days_in_month.
  repeat match goal with |- context [if ?b then _ else _] => destruct b end; lia.
Qed.

Lemma valid_fields (dt : datetime) :
  valid dt = true ->
  check_date_fields (year dt) (month dt) (day dt) = true
  /\ check_date_fields (year dt) (month dt) 1 = true
  /\ 0 <= hour dt <= 23.
Proof.
  unfold valid, check_date_fields, check_time_fields, MINYEAR, MAXYEAR.
  pose proof (days_in_month_ge (year dt) (month dt)).
  rewrite !andb_true_iff, !Z.leb_le. intros. repeat split; lia.
Qed.

Import ValidationConfig.

Lemma truncate_monthly (dt : datetime) :
  valid dt = true ->
  truncate (Some "monthly"%string) dt
  = Ok {| year := year dt; month := month dt; day := 1; hour := 0;
          minute := 0; second := 0; microsecond := 0 |}.
Proof.
  intros Hv. apply valid_fields in Hv as (_ & H1 & _).
  unfold truncate, replace. cbn. by apply new_valid.
Qed.

Lemma truncate_daily (dt : datetime) :
  valid dt = true ->
  truncate (Some "daily"%string) dt
  = Ok {| year := year dt; month := month dt; day := day dt; hour := 0;
          minute := 0; second := 0; microsecond := 0 |}.
Proof.
  intros Hv. apply valid_fields in Hv as (Hd & _ & _).
  unfold truncate, replace. cbn. by apply new_valid.
Qed.

(** Every other value of the granularity, [None] included, takes the
    [else] branch. *)
Lemma truncate_else (g : option string) (dt : datetime) :
  g <> Some "monthly"%string -> g <> Some "daily"%string ->
  valid dt = true ->
  truncate g dt
  = Ok {| year := year dt; month := month dt; day := day dt; hour := hour dt;
          minute := 0; second := 0; microsecond := 0 |}.
Proof.
  intros Hm Hd Hv. apply valid_fields in Hv as (Hdate & _ & Hh).
  unfold truncate, replace.
  rewrite !bool_decide_eq_false_2 by done. cbn.
  apply new_valid; [done |].
  unfold check_time_fields. rewrite !andb_true_iff, !Z.leb_le. lia.
Qed.

Lemma truncate_valid (g : option string) (dt dt' : datetime) :
  truncate g dt = Ok dt' -> valid dt' = true.
Proof.
  unfold truncate, replace.
  repeat case_bool_decide; intros Hnew; by apply new_ok in Hnew as [? _].
Qed.

Lemma truncate_total (g : option string) (dt : datetime) :
  valid dt = true -> exists dt', truncate g dt = Ok dt'.
Proof.
  intros Hv.
  destruct (decide (g = Some "monthly"%string)) as [-> |];
    [rewrite truncate_monthly by done; eauto |].
  destruct (decide (g = Some "daily"%string)) as [-> |];
    [rewrite truncate_daily by done; eauto |].
  rewrite truncate_else by done; eauto.
Qed.

(** C6. Truncation is idempotent under every granularity: what [truncate]
    returns on a timestamp, it returns again on that result. It does
    return on every timestamp the [datetime] type holds. *)
Theorem truncate_idempotent (g : string) (dt : datetime) :
  g ∈ ["monthly"; "daily"; "hourly"]%string ->
  valid dt = true ->
  exists dt', truncate (Some g) dt = Ok dt' /\ truncate (Some g) dt' = Ok dt'.
Proof.
  intros Hg Hv.
  destruct (truncate_total (Some g) dt Hv) as [dt' Hdt']. exists dt'.
  split; [done |].
  pose proof (truncate_valid _ _ _ Hdt') as Hv'.
  rewrite !elem_of_cons, elem_of_nil in Hg.
  destruct Hg as [-> | [-> | [-> | []]]].
  - rewrite truncate_monthly in Hdt' |- * by done.
    injection Hdt' as <-. reflexivity.
  - rewrite truncate_daily in Hdt' |- * by done.
    injection Hdt' as <-. reflexivity.
  - rewrite truncate_else in Hdt' |- * by done.
    injection Hdt' as <-. reflexivity.
Qed.

End Timestamps.

Section Ordinals.
Import Datetime.
Local Open Scope Z_scope.

(** Evaluate the arithmetic on literals that is left in the goal. *)
Ltac literal z :=
  match z with
  | Z0 => idtac
  | Zpos ?p => is_ground p
  | Zneg ?p => is_ground p
  end.

Ltac fold_literals :=
  repeat match goal with
    | |- context [?a - ?b] =>
        literal a; literal b;
        let v := eval vm_compute in (a - b) in change (a - b) with v
    | |- context [?a + ?b] =>
        literal a; literal b;
        let v := eval vm_compute in (a + b) in change (a + b) with v
    | |- context [?a <? ?b] =>
        literal a; literal b;
        let v := eval vm_compute in (a <? b) in change (a <? b) with v
    | |- context [?a =? ?b] =>
        literal a; literal b;
        let v := eval vm_compute in (a =? b) in change (a =? b) with v
    | |- context [days_before_month_table ?a] =>
        literal a;
        let v := eval vm_compute in (days_before_month_table a) in
        change (days_before_month_table a) with v
    | |- context [days_in_month_table ?a] =>
        literal a;
        let v := eval vm_compute in (days_in_month_table a) in
        change (days_in_month_table a) with v
    end.

Lemma is_leap_cycle (a b c d : Z) :
  0 <= a -> 0 <= b <= 3 -> 0 <= c <= 24 -> 0 <= d <= 3 ->
  is_leap (a * 400 + 1 + b * 100 + c * 4 + d)
  = (d =? 3) && (negb (c =? 24) || (b =? 3)).
Proof.
  intros Ha Hb Hc Hd. unfold is_leap.
  destruct (Z.eqb_spec d 3), (Z.eqb_spec c 24), (Z.eqb_spec b 3);
    repeat match goal with
      | |- context [?x mod ?k =? 0] => destruct (Z.eqb_spec (x mod k) 0)
      end; cbn; try reflexivity; exfalso; Z.div_mod_to_equations; lia.
Qed.

Lemma ord2ymd_valid (n : Z) :
  1 <= n <= MAXORDINAL ->
  let '(y, m, d) := ord2ymd n in check_date_fields y m d = true.
Proof.
  intros Hn. unfold ord2ymd, DI400Y, DI100Y, DI4Y, MAXORDINAL in *. cbv zeta.
  set (n0 := n - 1).
  set (n400 := n0 / 146097). set (r1 := n0 mod 146097).
  set (n100 := r1 / 36524). set (r2 := r1 mod 36524).
  set (n4 := r2 / 1461). set (r3 := r2 mod 1461).
  set (n1 := r3 / 365). set (r4 := r3 mod 365).
  assert (H400 : 0 <= n400 <= 24 /\ 0 <= r1 < 146097 /\ n0 = 146097 * n400 + r1)
    by (unfold n400, r1; Z.div_mod_to_equations; lia).
  assert (H100 : 0 <= n100 <= 4 /\ 0 <= r2 < 36524 /\ r1 = 36524 * n100 + r2)
    by (unfold n100, r2; Z.div_mod_to_equations; lia).
  assert (H4 : 0 <= n4 <= 24 /\ 0 <= r3 < 1461 /\ r2 = 1461 * n4 + r3)
    by (unfold n4, r3; Z.div_mod_to_equations; lia).
  assert (H1 : 0 <= n1 <= 4 /\ 0 <= r4 < 365 /\ r3 = 365 * n1 + r4)
    by (unfold n1, r4; Z.div_mod_to_equations; lia).
  assert (Hn0 : 0 <= n0 <= 3652058) by (unfold n0; lia).
  clearbody n400 r1 n100 r2 n4 r3 n1 r4 n0.
  destruct ((n1 =? 4) || (n100 =? 4)) eqn:E4.
  - unfold check_date_fields, MINYEAR, MAXYEAR. cbn [days_in_month Z.eqb].
    rewrite orb_true_iff, !Z.eqb_eq in E4.
    rewrite !andb_true_iff, !Z.leb_le. change (days_in_month _ 12) with 31. lia.
  - rewrite orb_false_iff, !Z.eqb_neq in E4.
    set (leapyear := (n1 =? 3) && (negb (n4 =? 24) || (n100 =? 3))).
    set (y := n400 * 400 + 1 + n100 * 100 + n4 * 4 + n1).
    assert (Hleap : is_leap y = leapyear) by (apply is_leap_cycle; lia).
    assert (Hy : 1 <= y <= 9999) by (unfold y; lia).
    rewrite Z.shiftr_div_pow2 by lia. change (2 ^ 5) with 32.
    set (m := (r4 + 50) / 32).
    assert (Hm : 1 <= m <= 12 /\ 32 * m <= r4 + 50 < 32 * m + 32)
      by (unfold m; Z.div_mod_to_equations; lia).
    clearbody m y leapyear.
    assert (Hcases : m = 1 \/ m = 2 \/ m = 3 \/ m = 4 \/ m = 5 \/ m = 6 \/ m = 7
                     \/ m = 8 \/ m = 9 \/ m = 10 \/ m = 11 \/ m = 12) by lia.
    unfold check_date_fields, MINYEAR, MAXYEAR, days_in_month.
    destruct leapyear;
      repeat (destruct Hcases as [-> | Hcases]); try subst m;
      repeat (fold_literals; cbn [andb orb]);
      match goal with
      | |- context [?a <? ?b] => destruct (Z.ltb_spec a b)
      end;
      repeat (fold_literals; cbn [andb orb]);
      rewrite ?Hleap; rewrite !andb_true_iff, !Z.leb_le; lia.
Qed.
End Ordinals.

Section Arithmetic.
Import Datetime.
Local Open Scope Z_scope.

Lemma timedelta_ok (d s d' s' : Z) :
  timedelta d s = Ok (d', s') -> 0 <= s' < 86400.
Proof.
  unfold timedelta. destruct (_ <? _); [discriminate |].
  intros [= <- <-]. apply Z.mod_pos_bound. lia.
Qed.

(** Subtracting a delay from a timestamp gives a timestamp. *)
Lemma sub_seconds_valid (dt dt' : datetime) (s : Z) :
  valid dt = true -> sub_seconds dt s = Ok dt' -> valid dt' = true.
Proof.
  intros Hv. unfold sub_seconds.
  destruct (timedelta 0 s) as [[td ts] |]; [| discriminate]. cbn [bind].
  destruct (timedelta (- td) (- ts)) as [[nd ns] |]; [| discriminate]. cbn [bind].
  destruct (timedelta _ _) as [[days secs] |] eqn:E; [| discriminate]. cbn [bind].
  apply timedelta_ok in E.
  destruct ((0 <? days) && (days <=? MAXORDINAL)) eqn:Hr; [| discriminate].
  rewrite andb_true_iff, Z.ltb_lt, Z.leb_le in Hr.
  pose proof (ord2ymd_valid days ltac:(lia)) as Hd.
  destruct (ord2ymd days) as [[y m] d]. intros [= <-].
  unfold valid in *. cbn. rewrite Hd. cbn [andb].
  unfold check_time_fields in *.
  rewrite !andb_true_iff, !Z.leb_le in *.
  Z.div_mod_to_equations. lia.
Qed.
End Arithmetic.

(** ** Resolving the process timestamp *)

Section Resolution.
Import Datetime ValidationConfig.
Local Open Scope Z_scope.

Lemma set_process_datetime_override (now : datetime) (values : t)
  (s : string) (dt : datetime) :
  Args.datetime (args values) = Some s -> strptime s = Ok dt ->
  set_process_datetime now values
  = bind (truncate (Setting.granularity (setting values)) dt)
         (fun pd => Ok (set_process_datetime_field values pd)).
Proof.
  intros Hs Hdt. unfold set_process_datetime, untruncated. rewrite Hs.
  destruct s as [| c s]; [by rewrite strptime_empty in Hdt |].
  cbn [truthy String.eqb negb]. by rewrite Hdt.
Qed.

Lemma set_process_datetime_no_override (now : datetime) (values : t) :
  truthy (Args.datetime (args values)) = false ->
  set_process_datetime now values
  = bind (sub_seconds now (Setting.defaulttimedelay (setting values)))
         (fun base =>
            bind (truncate (Setting.granularity (setting values)) base)
                 (fun pd => Ok (set_process_datetime_field values pd))).
Proof.
  intros Hf. unfold set_process_datetime, untruncated.
  destruct (Args.datetime (args values)) as [s |]; [| reflexivity].
  by rewrite Hf.
Qed.

(** C5. With an override supplied, the resolved [process_datetime] is the
    parsed override truncated by the granularity: monthly sets the day to
    1 and zeroes the time of day, daily zeroes the time of day, hourly
    zeroes minutes, seconds and microseconds. The override
    ["2024-03-15 14:32:10"] under daily resolves to 2024-03-15 00:00:00. *)
Theorem set_process_datetime_override_truncated :
  (forall (now : datetime) (values : t) (s : string) (dt : datetime),
      Args.datetime (args values) = Some s -> strptime s = Ok dt ->
      exists pd,
        set_process_datetime now values = Ok (set_process_datetime_field values pd)
        /\ process_datetime (set_process_datetime_field values pd) = Some pd
        /\ truncate (Setting.granularity (setting values)) dt = Ok pd
        /\ (Setting.granularity (setting values) = Some "monthly"%string ->
            pd = {| year := year dt; month := month dt; day := 1; hour := 0;
                    minute := 0; second := 0; microsecond := 0 |})
        /\ (Setting.granularity (setting values) = Some "daily"%string ->
            pd = {| year := year dt; month := month dt; day := day dt; hour := 0;
                    minute := 0; second := 0; microsecond := 0 |})
        /\ (Setting.granularity (setting values) = Some "hourly"%string ->
            pd = {| year := year dt; month := month dt; day := day dt;
                    hour := hour dt;
                    minute := 0; second := 0; microsecond := 0 |}))
  /\ (forall (now : datetime) (values : t),
         Args.datetime (args values) = Some "2024-03-15 14:32:10"%string ->
         Setting.granularity (setting values) = Some "daily"%string ->
         exists values',
           set_process_datetime now values = Ok values'
           /\ process_datetime values'
              = Some {| year := 2024; month := 3; day := 15; hour := 0;
                        minute := 0; second := 0; microsecond := 0 |}).
Proof.
  split.
  - intros now values s dt Hs Hdt.
    pose proof (strptime_valid s dt Hdt) as Hv.
    destruct (truncate_total (Setting.granularity (setting values)) dt Hv) as [pd Hpd].
    exists pd. rewrite (set_process_datetime_override now values s dt Hs Hdt), Hpd.
    split; [reflexivity |]. split; [reflexivity |]. split; [reflexivity |].
    split; [| split]; intros Hg; rewrite Hg in Hpd.
    + rewrite truncate_monthly in Hpd by done. by injection Hpd.
    + rewrite truncate_daily in Hpd by done. by injection Hpd.
    + rewrite truncate_else in Hpd by done. by injection Hpd.
  - intros now values Hs Hg. eexists.
    rewrite (set_process_datetime_override now values _ _ Hs eq_refl), Hg.
    split; reflexivity.
Qed.

Lemma set_process_datetime_override_truncated_witness :
  exists values',
    set_process_datetime sample_now
      (sample_values (Some "2024-03-15 14:32:10"%string) (Some "daily"%string))
    = Ok values'
    /\ process_datetime values'
       = Some {| year := 2024; month := 3; day := 15; hour := 0;
                 minute := 0; second := 0; microsecond := 0 |}.
Proof.
  exact (proj2 set_process_datetime_override_truncated sample_now
           (sample_values (Some "2024-03-15 14:32:10"%string) (Some "daily"%string))
           eq_refl eq_refl).
Defined.

(** Without an override, a delay of 3600 seconds and hourly granularity,
    a run at 2024-01-01 10:45:00 resolves to 2024-01-01 09:00:00. *)
Example set_process_datetime_delay :
  set_process_datetime sample_now (sample_values None (Some "hourly"%string))
  = Ok (set_process_datetime_field (sample_values None (Some "hourly"%string))
          {| year := 2024; month := 1; day := 1; hour := 9; minute := 0;
             second := 0; microsecond := 0 |}).
Proof. rewrite set_process_datetime_no_override by reflexivity. reflexivity. Qed.

Lemma truncate_idempotent_witness :
  "monthly"%string ∈ ["monthly"; "daily"; "hourly"]%string
  /\ valid sample_now = true
  /\ exists dt', truncate (Some "monthly"%string) sample_now = Ok dt'
                 /\ truncate (Some "monthly"%string) dt' = Ok dt'.
Proof.
  assert (Hin : "monthly"%string ∈ ["monthly"; "daily"; "hourly"]%string)
    by (apply (bool_decide_unpack _); vm_compute; exact I).
  split; [exact Hin |]. split; [reflexivity |].
  exact (truncate_idempotent "monthly" sample_now Hin eq_refl).
Defined.

(** C10. With the granularity omitted, the settings are accepted with
    [granularity = None], and the truncation takes the [else] branch: the
    [process_datetime] that the configuration then carries has minutes,
    seconds and microseconds zeroed, and the year, month, day and hour of
    the untruncated timestamp, which is the parsed override or the wall
    clock minus the delay. *)
Theorem granularity_omitted :
  (forall (values : Setting.Raw.t) (name log : string) (th : Z),
      Setting.Raw.granularity values = None ->
      Setting.Raw.validation_name values = Some name ->
      Setting.Raw.validation_threshold values = Some th -> th <= 100 ->
      Setting.Raw.summary_log values = Some log ->
      (forall ty, Setting.Raw.validation_type values = Some ty ->
                  ty ∈ ["hdfs-hdfs"; "hdfs-jdbc"; "jdbc-hdfs"; "jdbc-jdbc"]%string) ->
      exists s, Setting.new values = Ok s /\ Setting.granularity s = None)
  /\ (forall (now : datetime) (values : t),
         Setting.granularity (setting values) = None ->
         valid now = true ->
         forall base,
           untruncated now (Args.datetime (args values))
             (Setting.defaulttimedelay (setting values)) = Ok base ->
           exists pd,
             set_process_datetime now values
             = Ok (set_process_datetime_field values pd)
             /\ process_datetime (set_process_datetime_field values pd) = Some pd
             /\ minute pd = 0 /\ second pd = 0 /\ microsecond pd = 0
             /\ year pd = year base /\ month pd = month base
             /\ day pd = day base /\ hour pd = hour base).
Proof.
  split.
  - intros values name log th Hg Hn Hth Hle Hlog Hty.
    unfold Setting.new. rewrite Hg, Hn, Hth, Hlog. cbn [required bind].
    unfold Setting.le. destruct (Z.leb_spec th 100); [| lia]. cbn [bind optional_literal].
    destruct (Setting.Raw.validation_type values) as [ty |] eqn:Ety.
    + cbn [optional_literal]. unfold literal.
      rewrite bool_decide_eq_true_2 by (by apply Hty). cbn [bind]. eauto.
    + cbn [optional_literal bind]. eauto.
  - intros now values Hg Hnow base Hbase.
    assert (Hv : valid base = true).
    { unfold untruncated in Hbase.
      destruct (Args.datetime (args values)) as [s |].
      - destruct (truthy (Some s)).
        + by apply strptime_valid in Hbase.
        + by apply sub_seconds_valid in Hbase.
      - by apply sub_seconds_valid in Hbase. }
    eexists. unfold set_process_datetime. rewrite Hbase. cbn [bind].
    rewrite Hg, truncate_else by done. cbn [bind].
    split; [reflexivity |]. split; [reflexivity |]. cbn. done.
Qed.

Lemma granularity_omitted_witness :
  (exists s, Setting.new (sample_setting 5 None) = Ok s
             /\ Setting.granularity s = None)
  /\ (exists pd,
        set_process_datetime sample_now (sample_values None None)
        = Ok (set_process_datetime_field (sample_values None None) pd)
        /\ process_datetime (set_process_datetime_field (sample_values None None) pd)
           = Some pd
        /\ minute pd = 0 /\ second pd = 0 /\ microsecond pd = 0
        /\ year pd = 2024 /\ month pd = 1 /\ day pd = 1 /\ hour pd = 9).
Proof.
  destruct granularity_omitted as [Hset Htrunc]. split.
  - apply (Hset (sample_setting 5 None) "orders"%string "/logs/%Y-%m/orders"%string 5);
      try reflexivity; [lia |].
    intros ty [= <-]. apply (bool_decide_unpack _). vm_compute. exact I.
  - exact (Htrunc sample_now (sample_values None None) eq_refl eq_refl
             {| year := 2024; month := 1; day := 1; hour := 9; minute := 45;
                second := 0; microsecond := 0 |} eq_refl).
Defined.

End Resolution.

(** ** Rendering the templates *)

Section Templates.
Import Datetime ValidationConfig.
Local Open Scope Z_scope.
Variable libc : string -> datetime -> result string.

Lemma render_query_spec (dt : datetime) (c c' : option DatabaseConfig.t) :
  render_query libc dt c = Ok c' -> query_rendered libc dt c c'.
Proof.
  unfold render_query, query_rendered.
  destruct c as [c |]; [| by intros [= <-]].
  destruct (DatabaseOptions.query (DatabaseConfig.options c)) as [q |] eqn:Eq.
  - destruct q as [| a q].
    + cbn [truthy String.eqb negb]. intros [= <-]. rewrite Eq.
      repeat split. exists ""%string. done.
    + cbn [truthy String.eqb negb]. intros H.
      apply bind_ok in H as (q' & Hq' & [= <-]). cbn. repeat split. eauto.
  - intros [= <-]. rewrite Eq. done.
Qed.

Lemma render_path_spec (dt : datetime) (c c' : option FileConfig.t) :
  render_path libc dt c = Ok c' -> path_rendered libc dt c c'.
Proof.
  unfold render_path, path_rendered.
  destruct c as [c |]; [| by intros [= <-]].
  destruct (FileConfig.path c) as [| a p] eqn:Ep.
  - cbn [truthy String.eqb negb]. intros [= <-]. rewrite Ep. done.
  - cbn [truthy String.eqb negb]. intros H.
    apply bind_ok in H as (p' & Hp' & [= <-]). cbn. done.
Qed.

Lemma render_query_total (dt : datetime) (c : option DatabaseConfig.t) :
  (forall t, t ∈ query_of c -> exists out, strftime libc dt t = Ok out) ->
  exists c', render_query libc dt c = Ok c'.
Proof.
  unfold render_query, query_of. intros Hall.
  destruct c as [c |]; [| eauto].
  destruct (DatabaseOptions.query (DatabaseConfig.options c)) as [q |]; [| eauto].
  destruct (truthy (Some q)); [| eauto].
  destruct (Hall q) as [out ->]; [apply list_elem_of_here |]. cbn. eauto.
Qed.

Lemma render_path_total (dt : datetime) (c : option FileConfig.t) :
  (forall t, t ∈ path_of c -> exists out, strftime libc dt t = Ok out) ->
  exists c', render_path libc dt c = Ok c'.
Proof.
  unfold render_path, path_of. intros Hall.
  destruct c as [c |]; [| eauto].
  destruct (truthy (Some (FileConfig.path c))); [| eauto].
  destruct (Hall (FileConfig.path c)) as [out ->]; [apply list_elem_of_here |].
  cbn. eauto.
Qed.

Lemma set_strftime_string_ok (values values' : t) :
  set_strftime_string libc values = Ok values' -> render_all libc values = Ok values'.
Proof.
  unfold set_strftime_string. destruct (render_all libc values); congruence.
Qed.

Lemma strftime_plain_app (dt : datetime) (pre s : string) :
  plain pre = true ->
  strftime libc dt (pre ++ s)
  = bind (strftime libc dt s) (fun r => Ok (pre ++ r)%string).
Proof.
  induction pre as [| c pre IH]; cbn [plain].
  - intros _. change (String.append "" s) with s.
    destruct (strftime libc dt s); reflexivity.
  - rewrite !andb_true_iff, !negb_true_iff. intros [[Hc Hz] Hpre].
    change (String.append (String c pre) s) with (String c (String.append pre s)).
    cbn [strftime]. rewrite Hc, Hz, IH by done.
    destruct (strftime libc dt s); reflexivity.
Qed.

Lemma strftime_year_month (dt : datetime) (post : string) :
  year dt = 2024 -> month dt = 7 ->
  strftime libc dt ("%Y-%m" ++ post)
  = bind (strftime libc dt post) (fun r => Ok ("2024-07" ++ r)%string).
Proof.
  intros Hy Hm.
  change (String.append "%Y-%m" post)
    with (String "%" (String "Y" (String "-" (String "%" (String "m" post))))).
  cbn [strftime Ascii.eqb Bool.eqb].
  unfold directive. cbn [Ascii.eqb Bool.eqb]. rewrite Hy, Hm.
  change (1000 <=? 2024) with true. cbn [bind].
  destruct (strftime libc dt post); reflexivity.
Qed.

(** C7. [set_strftime_string] renders the summary log path, every query
    present on the source or the target, and every file path present on
    the source or the target, each by one application of [strftime] to
    the field as it stood, against the [process_datetime] of the run,
    which construction has truncated before; nothing else changes. It
    succeeds when [strftime] does on each of these fields. A summary log
    path that contains [%Y-%m], rendered at a timestamp in July 2024,
    has [2024-07] in its place. *)
Theorem set_strftime_string_renders :
  (forall values values',
      set_strftime_string libc values = Ok values' ->
      exists dt,
        process_datetime values = Some dt
        /\ process_datetime values' = Some dt
        /\ args values' = args values
        /\ strftime libc dt (Setting.summary_log (setting values))
           = Ok (Setting.summary_log (setting values'))
        /\ setting values'
           = Setting.set_summary_log (setting values)
               (Setting.summary_log (setting values'))
        /\ Datasource.type (source values') = Datasource.type (source values)
        /\ Datasource.type (target values') = Datasource.type (target values)
        /\ query_rendered libc dt (Datasource.database_config (source values))
             (Datasource.database_config (source values'))
        /\ query_rendered libc dt (Datasource.database_config (target values))
             (Datasource.database_config (target values'))
        /\ path_rendered libc dt (Datasource.file_config (source values))
             (Datasource.file_config (source values'))
        /\ path_rendered libc dt (Datasource.file_config (target values))
             (Datasource.file_config (target values')))
  /\ (forall values dt,
         process_datetime values = Some dt ->
         (forall t, t ∈ templates values -> exists out, strftime libc dt t = Ok out) ->
         exists values', set_strftime_string libc values = Ok values')
  /\ (forall now raw v,
         ValidationConfig.new libc now raw = Ok v ->
         exists v0 base dt,
           untruncated now (Args.datetime (args v0))
             (Setting.defaulttimedelay (setting v0)) = Ok base
           /\ truncate (Setting.granularity (setting v0)) base = Ok dt
           /\ set_strftime_string libc (set_process_datetime_field v0 dt) = Ok v)
  /\ (forall values values' dt pre post,
         set_strftime_string libc values = Ok values' ->
         process_datetime values = Some dt ->
         year dt = 2024 -> month dt = 7 ->
         plain pre = true ->
         Setting.summary_log (setting values) = (pre ++ "%Y-%m" ++ post)%string ->
         exists post',
           strftime libc dt post = Ok post'
           /\ Setting.summary_log (setting values')
              = (pre ++ "2024-07" ++ post')%string).
Proof.
  assert (Hmain : forall values values',
             set_strftime_string libc values = Ok values' ->
             exists dt,
               process_datetime values = Some dt
               /\ process_datetime values' = Some dt
               /\ args values' = args values
               /\ strftime libc dt (Setting.summary_log (setting values))
                  = Ok (Setting.summary_log (setting values'))
               /\ setting values'
                  = Setting.set_summary_log (setting values)
                      (Setting.summary_log (setting values'))
               /\ Datasource.type (source values') = Datasource.type (source values)
               /\ Datasource.type (target values') = Datasource.type (target values)
               /\ query_rendered libc dt (Datasource.database_config (source values))
                    (Datasource.database_config (source values'))
               /\ query_rendered libc dt (Datasource.database_config (target values))
                    (Datasource.database_config (target values'))
               /\ path_rendered libc dt (Datasource.file_config (source values))
                    (Datasource.file_config (source values'))
               /\ path_rendered libc dt (Datasource.file_config (target values))
                    (Datasource.file_config (target values'))).
  { intros values values' H. apply set_strftime_string_ok in H.
    unfold render_all in H.
    destruct (process_datetime values) as [dt |] eqn:Edt; [| discriminate].
    apply bind_ok in H as (log & Hlog & H).
    apply bind_ok in H as (sdb & Hsdb & H).
    apply bind_ok in H as (tdb & Htdb & H).
    apply bind_ok in H as (sfc & Hsfc & H).
    apply bind_ok in H as (tfc & Htfc & H).
    injection H as <-. exists dt. cbn.
    apply render_query_spec in Hsdb, Htdb. apply render_path_spec in Hsfc, Htfc.
    repeat split; done. }
  split; [exact Hmain |]. split; [| split].
  - intros values dt Hdt Hall. unfold set_strftime_string, render_all. rewrite Hdt.
    unfold templates in Hall.
    destruct (Hall (Setting.summary_log (setting values))) as [log ->];
      [apply list_elem_of_here |]. cbn [bind].
    destruct (render_query_total dt (Datasource.database_config (source values)))
      as [sdb ->]; [intros t Ht; apply Hall; set_solver |]. cbn [bind].
    destruct (render_query_total dt (Datasource.database_config (target values)))
      as [tdb ->]; [intros t Ht; apply Hall; set_solver |]. cbn [bind].
    destruct (render_path_total dt (Datasource.file_config (source values)))
      as [sfc ->]; [intros t Ht; apply Hall; set_solver |]. cbn [bind].
    destruct (render_path_total dt (Datasource.file_config (target values)))
      as [tfc ->]; [intros t Ht; apply Hall; set_solver |]. cbn [bind].
    eauto.
  - intros now raw v H. unfold ValidationConfig.new in H.
    apply bind_ok in H as (a0 & _ & H). apply bind_ok in H as (a & _ & H).
    apply bind_ok in H as (s0 & _ & H). apply bind_ok in H as (s & _ & H).
    apply bind_ok in H as (src0 & _ & H). apply bind_ok in H as (src & _ & H).
    apply bind_ok in H as (tgt0 & _ & H). apply bind_ok in H as (tgt & _ & H).
    apply bind_ok in H as (v1 & Hpd & H).
    apply in_validator_ok in Hpd, H.
    unfold set_process_datetime in Hpd.
    apply bind_ok in Hpd as (base & Hbase & Hpd).
    apply bind_ok in Hpd as (dt & Hdt & [= <-]).
    eexists _, base, dt. split; [exact Hbase |]. split; [exact Hdt |]. exact H.
  - intros values values' dt pre post H Hdt Hy Hm Hpre Hlog.
    destruct (Hmain values values' H) as (dt' & Hdt' & _ & _ & Hr & _).
    rewrite Hdt in Hdt'. injection Hdt' as <-.
    rewrite Hlog, strftime_plain_app, strftime_year_month in Hr by done.
    destruct (strftime libc dt post) as [post' |]; [| discriminate].
    cbn in Hr. injection Hr as Hr. exists post'. split; [reflexivity |].
    by rewrite <- Hr.
Qed.

End Templates.

Section TemplatesSample.
Import Datetime ValidationConfig.
Local Open Scope Z_scope.

Lemma set_strftime_string_renders_witness :
  let dt := {| year := 2024; month := 7; day := 1; hour := 0; minute := 0;
               second := 0; microsecond := 0 |} in
  let values := set_process_datetime_field (sample_values None (Some "monthly"%string)) dt in
  exists values',
    set_strftime_string no_libc values = Ok values'
    /\ Setting.summary_log (setting values') = "/logs/2024-07/orders"%string.
Proof.
  intros dt values.
  destruct (set_strftime_string_renders no_libc) as (_ & Htotal & _ & Hseg).
  destruct (Htotal values dt eq_refl) as [values' Hok].
  { intros t Ht.
    change (templates values)
      with ["/logs/%Y-%m/orders"; "select '%Y-%m-%d'"; "/data/orders/%Y/%m/%d"]%string
      in Ht.
    rewrite !elem_of_cons, elem_of_nil in Ht.
    destruct Ht as [-> | [-> | [-> | []]]]; eexists; vm_compute; reflexivity. }
  exists values'. split; [exact Hok |].
  destruct (Hseg values values' dt "/logs/"%string "/orders"%string Hok)
    as (post' & Hpost & ->); try reflexivity.
  vm_compute in Hpost. injection Hpost as <-. reflexivity.
Defined.

(** Rendering twice is not rendering once: [%%Y] gives [%Y], and that,
    rendered again, gives the year. *)
Example strftime_not_idempotent :
  strftime no_libc sample_now "%%Y" = Ok "%Y"%string
  /\ strftime no_libc sample_now "%Y" = Ok "2024"%string.
Proof. split; reflexivity. Qed.

End TemplatesSample.

(** ** Construction of the models *)

Section Construction.
Local Open Scope Z_scope.

Lemma check_target_config_ok (values values' : Datasource.Raw.t) :
  in_validator (Datasource.check_target_config values) = Ok values' ->
  values' = values
  /\ (Datasource.Raw.type values = Some "database"%string ->
      Datasource.missing DatabaseConfig.Raw.is_empty
        (Datasource.Raw.database_config values) = false)
  /\ (Datasource.Raw.type values = Some "file"%string ->
      Datasource.missing FileConfig.Raw.is_empty
        (Datasource.Raw.file_config values) = false).
Proof.
  unfold Datasource.check_target_config.
  destruct (bool_decide (Datasource.Raw.type values = Some "database"%string)) eqn:Edb;
    destruct (bool_decide (Datasource.Raw.type values = Some "file"%string)) eqn:Ef;
    destruct (Datasource.missing DatabaseConfig.Raw.is_empty _) eqn:Mdb;
    destruct (Datasource.missing FileConfig.Raw.is_empty _) eqn:Mf;
    cbn; try discriminate; intros [= <-];
    (split; [reflexivity |]);
    try apply bool_decide_eq_false_1 in Edb; try apply bool_decide_eq_false_1 in Ef;
    split; intros H; try done.
Qed.

Lemma optional_present {A B} (is_empty : A -> bool) (new : A -> result B)
  (o : option A) (r : option B) :
  Datasource.missing is_empty o = false ->
  Datasource.optional new o = Ok r -> is_Some r.
Proof.
  destruct o as [a |]; [| discriminate]. intros _. cbn.
  destruct (new a); [| discriminate]. intros [= <-]. eauto.
Qed.

(** C8 (amended). Constructing a [Datasource] fails when the config that
    matches the stated kind is not supplied, so in particular when neither
    config is supplied; every accepted [Datasource] has kind [database]
    or [file] and carries the config of its kind. *)
Theorem datasource_matching_config :
  (forall values d,
      Datasource.new values = Ok d ->
      (Datasource.type d = "database"%string /\ is_Some (Datasource.database_config d))
      \/ (Datasource.type d = "file"%string /\ is_Some (Datasource.file_config d)))
  /\ (forall values,
         Datasource.Raw.database_config values = None ->
         Datasource.Raw.file_config values = None ->
         exists msg, Datasource.new values = Raise (ValidationError msg))
  /\ (forall values,
         Datasource.Raw.type values = Some "database"%string ->
         Datasource.Raw.database_config values = None ->
         Datasource.new values
         = Raise (ValidationError "database_config must be provided for type 'database'."))
  /\ (forall values,
         Datasource.Raw.type values = Some "file"%string ->
         Datasource.Raw.file_config values = None ->
         Datasource.new values
         = Raise (ValidationError "file_config must be provided for type 'file'.")).
Proof.
  assert (Hdb : forall values,
             Datasource.Raw.type values = Some "database"%string ->
             Datasource.Raw.database_config values = None ->
             Datasource.new values
             = Raise (ValidationError "database_config must be provided for type 'database'.")).
  { intros values Hty Hnone. unfold Datasource.new, Datasource.check_target_config.
    rewrite Hty, Hnone. reflexivity. }
  assert (Hfile : forall values,
             Datasource.Raw.type values = Some "file"%string ->
             Datasource.Raw.file_config values = None ->
             Datasource.new values
             = Raise (ValidationError "file_config must be provided for type 'file'.")).
  { intros values Hty Hnone. unfold Datasource.new, Datasource.check_target_config.
    rewrite Hty, Hnone. reflexivity. }
  split; [| split; [| split]]; [| | exact Hdb | exact Hfile].
  - intros values d H. unfold Datasource.new in H.
    apply bind_ok in H as (values' & Hcheck & H).
    apply check_target_config_ok in Hcheck as (-> & Hdbc & Hfc).
    apply bind_ok in H as (ty & Hty & H).
    apply bind_ok in H as (ty' & Hlit & H).
    apply bind_ok in H as (db & Hdb' & H).
    apply bind_ok in H as (fc & Hfc' & H).
    injection H as <-. cbn.
    destruct (Datasource.Raw.type values) as [ty0 |]; [| discriminate].
    injection Hty as ->. unfold literal in Hlit.
    case_bool_decide as Hin; [| discriminate]. injection Hlit as <-.
    rewrite !elem_of_cons, elem_of_nil in Hin.
    destruct Hin as [-> | [-> | []]].
    + left. split; [reflexivity |]. eapply optional_present; [by apply Hdbc | exact Hdb'].
    + right. split; [reflexivity |]. eapply optional_present; [by apply Hfc | exact Hfc'].
  - intros values Hnodb Hnofc.
    destruct (Datasource.Raw.type values) as [ty |] eqn:Ety.
    + destruct (decide (ty = "database"%string)) as [-> |].
      { rewrite Hdb by done. eauto. }
      destruct (decide (ty = "file"%string)) as [-> |].
      { rewrite Hfile by done. eauto. }
      unfold Datasource.new, Datasource.check_target_config.
      rewrite Ety, !bool_decide_eq_false_2 by congruence.
      cbn [andb in_validator bind]. rewrite Ety. cbn [required bind].
      unfold literal. rewrite bool_decide_eq_false_2; [cbn; eauto |].
      rewrite !elem_of_cons, elem_of_nil. intros [? | [? | []]]; congruence.
    + unfold Datasource.new, Datasource.check_target_config.
      rewrite Ety, !bool_decide_eq_false_2 by discriminate.
      cbn [andb in_validator bind]. rewrite Ety. cbn. eauto.
Qed.

Lemma datasource_matching_config_witness :
  exists msg,
    Datasource.new {| Datasource.Raw.type := Some "file"%string;
                      Datasource.Raw.database_config := None;
                      Datasource.Raw.file_config := None |}
    = Raise (ValidationError msg).
Proof.
  destruct datasource_matching_config as (_ & Hneither & _).
  apply Hneither; reflexivity.
Defined.

(** C8 as stated fails: a source of kind [file] that supplies both
    configs is accepted, and keeps both. *)
Lemma datasource_both_configs_accepted :
  is_Some (Datasource.Raw.database_config both_configs)
  /\ is_Some (Datasource.Raw.file_config both_configs)
  /\ exists d, Datasource.new both_configs = Ok d
               /\ Datasource.type d = "file"%string
               /\ is_Some (Datasource.database_config d)
               /\ is_Some (Datasource.file_config d).
Proof.
  split; [by eexists |]. split; [by eexists |].
  eexists. split; [vm_compute; reflexivity |].
  split; [reflexivity |]. split; by eexists.
Qed.

(** C9 (amended). Construction of the settings fails with a validation
    error whenever [validation_threshold] is above 100: every value above
    100 is rejected, so every accepted setting carries the threshold it was
    given, and that is at most 100. *)
Theorem setting_threshold_at_most_100 :
  (forall values th,
      Setting.Raw.validation_threshold values = Some th -> 100 < th ->
      exists msg, Setting.new values = Raise (ValidationError msg))
  /\ (forall values s,
         Setting.new values = Ok s ->
         Setting.Raw.validation_threshold values = Some (Setting.validation_threshold s)
         /\ Setting.validation_threshold s <= 100).
Proof.
  split.
  - intros values th Hth Hgt. unfold Setting.new. rewrite Hth.
    destruct (Setting.Raw.validation_name values); cbn [required bind]; [| eauto].
    unfold Setting.le. destruct (Z.leb_spec th 100); [lia |]. cbn. eauto.
  - intros values s H. unfold Setting.new in H.
    apply bind_ok in H as (name & _ & H).
    apply bind_ok in H as (th & Hth & H).
    apply bind_ok in H as (th' & Hle & H).
    apply bind_ok in H as (log & _ & H).
    apply bind_ok in H as (g & _ & H).
    apply bind_ok in H as (vt & _ & H).
    injection H as <-. cbn. unfold Setting.le in Hle.
    destruct (Z.leb_spec th 100); [| discriminate]. injection Hle as <-.
    destruct (Setting.Raw.validation_threshold values); [| discriminate].
    injection Hth as ->. done.
Qed.

Lemma setting_threshold_at_most_100_witness :
  exists msg, Setting.new (sample_setting 101 None) = Raise (ValidationError msg).
Proof.
  destruct setting_threshold_at_most_100 as (Habove & _).
  apply (Habove (sample_setting 101 None) 101); [reflexivity | lia].
Defined.

(** C9 as stated fails: a threshold of -1 is accepted. *)
Lemma setting_negative_threshold_accepted :
  exists s, Setting.new (sample_setting (-1) None) = Ok s
            /\ Setting.validation_threshold s = -1.
Proof. eexists. split; [vm_compute; reflexivity | reflexivity]. Qed.

End Construction.
(* ===================================================================== *)
(** * Further properties *)
(* ===================================================================== *)

(** ** helpers/generic.py: the parsed document *)

Section ParsedDocument.
Import Generic.

Lemma get_set_eq (k : string) (v : value) (d : dict) :
  get k (set k v d) = Some v.
Proof.
  induction d as [| [k' v'] d IH]; cbn [set get].
  - by rewrite String.eqb_refl.
  - destruct (String.eqb_spec k k') as [-> | Hne]; cbn [get].
    + by rewrite String.eqb_refl.
    + destruct (String.eqb_spec k k'); [done | exact IH].
Qed.

Lemma get_set_ne (k k' : string) (v : value) (d : dict) :
  k <> k' -> get k' (set k v d) = get k' d.
Proof.
  intros Hne. induction d as [| [k0 v0] d IH]; cbn [set get].
  - destruct (String.eqb_spec k' k); [congruence | done].
  - destruct (String.eqb_spec k k0) as [-> | Hk]; cbn [get].
    + destruct (String.eqb_spec k' k0); [congruence | done].
    + destruct (String.eqb_spec k' k0); [done | exact IH].
Qed.

Lemma get_None_keys (k : string) (d : dict) : get k d = None <-> k ∉ keys d.
Proof.
  unfold keys. induction d as [| [k' v] d IH]; cbn [get fmap list_fmap fst].
  - split; [intros _; apply not_elem_of_nil | done].
  - rewrite not_elem_of_cons. destruct (String.eqb_spec k k') as [-> | Hne].
    + split; [discriminate | intros [? _]; done].
    + rewrite IH. tauto.
Qed.

Lemma keys_set (k : string) (v : value) (d : dict) :
  keys (set k v d) = if bool_decide (k ∈ keys d) then keys d else keys d ++ [k].
Proof.
  unfold keys. induction d as [| [k' v'] d IH]; cbn [set fmap list_fmap fst app].
  - rewrite bool_decide_eq_false_2 by apply not_elem_of_nil. done.
  - destruct (String.eqb_spec k k') as [-> | Hne]; cbn [fmap list_fmap fst].
    + rewrite bool_decide_eq_true_2 by apply list_elem_of_here. done.
    + rewrite IH. case_bool_decide as Hin.
      * rewrite bool_decide_eq_true_2 by (by apply list_elem_of_further). done.
      * rewrite bool_decide_eq_false_2; [done |].
        rewrite not_elem_of_cons. done.
Qed.

Lemma keys_add_child (d : dict) (t : string) (v : value) :
  keys (add_child d t v) = if bool_decide (t ∈ keys d) then keys d else keys d ++ [t].
Proof.
  unfold add_child. destruct (get t d) eqn:E; apply keys_set.
Qed.

(** The loop of [_parse_element] is the fold of [parse_config]. *)
Lemma _parse_element_children (t : string) (s : option string) (c : Element)
  (cs : list Element) :
  _parse_element (Elem t s (c :: cs))
  = Dict (fold_left (fun d child => add_child d (tag child) (_parse_element child))
                    (c :: cs) []).
Proof.
  reflexivity.
Qed.

Lemma _parse_element_not_Many (e : Element) (l : list value) :
  _parse_element e <> Many l.
Proof. destruct e as [t s [| c cs]]; discriminate. Qed.

Lemma collapse_snoc (vs : list value) (v : value) :
  (forall x l, x ∈ vs -> x <> Many l) ->
  collapse (vs ++ [v])
  = Some match collapse vs with
         | None => v
         | Some old => Many (match old with Many l => l | _ => [old] end ++ [v])
         end.
Proof.
  intros Hshape. destruct vs as [| x [| y vs]]; cbn [collapse app]; [done | |].
  - f_equal. destruct x; try done.
    exfalso. eapply Hshape; [apply list_elem_of_here | done].
  - done.
Qed.

(** The dictionary built from the children [cs]. *)
Lemma fold_add_child (cs : list Element) :
  let d := fold_left (fun d child => add_child d (tag child) (_parse_element child))
                     cs [] in
  (forall t, get t d = collapse (tagged t cs))
  /\ keys d = first_seen (tag <$> cs).
Proof.
  induction cs as [| c cs IH] using rev_ind; [done |].
  cbn zeta in *. rewrite fold_left_app. cbn [fold_left].
  set (d := fold_left (fun d child => add_child d (tag child) (_parse_element child))
              cs []) in *.
  destruct IH as [IHget IHkeys]. split.
  - intros t. unfold tagged. rewrite filter_app, fmap_app.
    destruct (decide (tag c = t)) as [<- | Hne].
    + rewrite filter_cons_True, filter_nil by done. cbn [fmap list_fmap].
      rewrite collapse_snoc.
      2:{ intros x l Hx. apply list_elem_of_fmap in Hx as (e & -> & _).
          apply _parse_element_not_Many. }
      fold (tagged (tag c) cs). rewrite <- IHget.
      unfold add_child. destruct (get (tag c) d); by rewrite get_set_eq.
    + rewrite filter_cons_False, filter_nil, app_nil_r by done.
      fold (tagged t cs). rewrite <- IHget.
      unfold add_child. destruct (get (tag c) d); by rewrite get_set_ne.
  - rewrite keys_add_child, IHkeys, fmap_app. cbn [fmap list_fmap].
    unfold first_seen. rewrite fold_left_app. done.
Qed.

Lemma first_seen_spec (tags : list string) :
  NoDup (first_seen tags) /\ (forall t, t ∈ first_seen tags <-> t ∈ tags).
Proof.
  unfold first_seen. induction tags as [| t tags IH] using rev_ind.
  - split; [constructor | done].
  - rewrite fold_left_app. cbn [fold_left]. destruct IH as [Hnd Hin].
    case_bool_decide as Hseen.
    + split; [done |]. intros t'. rewrite elem_of_app, list_elem_of_singleton, Hin.
      split; [tauto |]. intros [? | ->]; [done | by apply Hin].
    + split.
      * apply NoDup_app. split; [done |]. split; [| apply NoDup_singleton].
        intros x Hx ->%list_elem_of_singleton. done.
      * intros t'. rewrite !elem_of_app, !list_elem_of_singleton, Hin. done.
Qed.

(** X1. In the dictionary that [parse_config] returns, and in the one
    [_parse_element] returns for an element with children, each tag of the
    children is a key once, the keys stand in the order in which the tags
    first occur, a tag that occurs once carries the value parsed from its
    element, and a tag that occurs several times carries the list of the
    values parsed from its elements, in document order. The text of the
    parent is dropped. *)
Theorem parse_config_collapses_repeated_tags :
  (forall root t,
      get t (parse_config root) = collapse (tagged t (children root)))
  /\ (forall root,
         keys (parse_config root) = first_seen (tag <$> children root)
         /\ NoDup (keys (parse_config root))
         /\ (forall t, t ∈ keys (parse_config root) <-> t ∈ tag <$> children root))
  /\ (forall t s c cs,
         _parse_element (Elem t s (c :: cs)) = Dict (parse_config (Elem t s (c :: cs))))
  /\ (forall root t c,
         filter (fun c => tag c = t) (children root) = [c] ->
         get t (parse_config root) = Some (_parse_element c))
  /\ (forall root t c1 c2 cs,
         filter (fun c => tag c = t) (children root) = c1 :: c2 :: cs ->
         get t (parse_config root)
         = Some (Many (_parse_element <$> c1 :: c2 :: cs))).
Proof.
  assert (Hget : forall root t,
             get t (parse_config root) = collapse (tagged t (children root))).
  { intros root t. apply (fold_add_child (children root)). }
  split; [exact Hget |]. split; [| split; [| split]].
  - intros root. pose proof (fold_add_child (children root)) as [_ Hkeys].
    cbn zeta in Hkeys. unfold parse_config. rewrite Hkeys.
    destruct (first_seen_spec (tag <$> children root)) as [Hnd Hin]. done.
  - intros t s c cs. apply _parse_element_children.
  - intros root t c Hc. rewrite Hget. unfold tagged. by rewrite Hc.
  - intros root t c1 c2 cs Hc. rewrite Hget. unfold tagged. by rewrite Hc.
Qed.

Lemma parse_config_collapses_repeated_tags_witness :
  get "note" (parse_config sample_document)
  = Some (Many [Text (Some "first"); Text (Some "second"); Text None]%string)
  /\ get "source" (parse_config sample_document)
     = Some (Dict [("type", Text (Some "file"))]%string).
Proof.
  destruct parse_config_collapses_repeated_tags as (_ & _ & _ & Hone & Hmany).
  split.
  - exact (Hmany sample_document "note"%string _ _ _ eq_refl).
  - exact (Hone sample_document "source"%string _ eq_refl).
Defined.

End ParsedDocument.

(** ** helpers/models/validation_config.py: the other validators *)

Section Validators.
Local Open Scope Z_scope.

(** X2. Every [DatabaseOptions] that construction accepts was given a
    [url] and one, and only one, of [dbtable] and [query] that is not
    empty, and the object keeps these three as given. With neither, and
    with both, construction fails with the message of the validator; with
    no [url] it fails with a validation error. *)
Theorem database_options_exactly_one :
  (forall values o,
      DatabaseOptions.new values = Ok o ->
      DatabaseOptions.Raw.url values = Some (DatabaseOptions.url o)
      /\ DatabaseOptions.dbtable o = DatabaseOptions.Raw.dbtable values
      /\ DatabaseOptions.query o = DatabaseOptions.Raw.query values
      /\ xorb (truthy (DatabaseOptions.dbtable o))
              (truthy (DatabaseOptions.query o)) = true)
  /\ (forall values,
         truthy (DatabaseOptions.Raw.dbtable values) = false ->
         truthy (DatabaseOptions.Raw.query values) = false ->
         DatabaseOptions.new values
         = Raise (ValidationError "Either 'dbtable' or 'query' must be provided."))
  /\ (forall values,
         truthy (DatabaseOptions.Raw.dbtable values) = true ->
         truthy (DatabaseOptions.Raw.query values) = true ->
         DatabaseOptions.new values
         = Raise (ValidationError "Only one of 'dbtable' or 'query' should be provided."))
  /\ (forall values,
         DatabaseOptions.Raw.url values = None ->
         exists msg, DatabaseOptions.new values = Raise (ValidationError msg)).
Proof.
  split; [| split; [| split]].
  - intros values o. unfold DatabaseOptions.new, DatabaseOptions.check_dbtable_or_query.
    destruct (truthy (DatabaseOptions.Raw.dbtable values)) eqn:Hd,
      (truthy (DatabaseOptions.Raw.query values)) eqn:Hq;
      cbn [orb andb negb in_validator bind]; try discriminate;
      (destruct (DatabaseOptions.Raw.url values) as [u |]; cbn [required bind];
       [| discriminate]);
      intros [= <-]; cbn; by rewrite Hd, Hq.
  - intros values Hd Hq.
    unfold DatabaseOptions.new, DatabaseOptions.check_dbtable_or_query.
    by rewrite Hd, Hq.
  - intros values Hd Hq.
    unfold DatabaseOptions.new, DatabaseOptions.check_dbtable_or_query.
    by rewrite Hd, Hq.
  - intros values Hu.
    unfold DatabaseOptions.new, DatabaseOptions.check_dbtable_or_query.
    destruct (truthy (DatabaseOptions.Raw.dbtable values)),
      (truthy (DatabaseOptions.Raw.query values));
      cbn [orb andb negb in_validator bind]; rewrite ?Hu; cbn; eauto.
Qed.

Lemma database_options_exactly_one_witness :
  DatabaseOptions.new {| DatabaseOptions.Raw.url := Some "jdbc:postgresql://db/sales"%string;
                         DatabaseOptions.Raw.dbtable := Some "orders"%string;
                         DatabaseOptions.Raw.query := Some "select 1"%string;
                         DatabaseOptions.Raw.others := [] |}
  = Raise (ValidationError "Only one of 'dbtable' or 'query' should be provided.").
Proof.
  destruct database_options_exactly_one as (_ & _ & Hboth).
  apply Hboth; reflexivity.
Defined.

Lemma file_config_new_built (values : FileConfig.Raw.t) (c : FileConfig.t) :
  FileConfig.new values = Ok c ->
  FileConfig.Raw.path values = Some (FileConfig.path c)
  /\ FileConfig.Raw.format values = Some (FileConfig.format c)
  /\ (FileConfig.format c = "csv"%string
      /\ (exists o, FileConfig.options c = Some (FileConfig.CsvOptions o))
      /\ (FileConfig.Raw.options values = None
          \/ FileConfig.Raw.options values = Some (FileConfig.Mapping []) ->
          FileConfig.options c = Some (FileConfig.CsvOptions []))
      \/ FileConfig.format c = "parquet"%string
         /\ (exists o, FileConfig.options c = Some (FileConfig.ParquetOptions o))
         /\ (FileConfig.Raw.options values = None
             \/ FileConfig.Raw.options values = Some (FileConfig.Mapping []) ->
             FileConfig.options c = Some (FileConfig.ParquetOptions []))).
Proof.
  intros H. unfold FileConfig.new in H.
  apply bind_ok in H as (values' & Hset & H). apply in_validator_ok in Hset.
  apply bind_ok in H as (f & Hf & H). apply bind_ok in H as (f' & Hlit & H).
  apply bind_ok in H as (p & Hp & H). injection H as <-. cbn.
  unfold FileConfig.set_file_options in Hset.
  assert (Hbuild : forall cls o',
             FileConfig.build cls (FileConfig.Raw.options values) = Ok o' ->
             (exists o, o' = cls o)
             /\ (FileConfig.Raw.options values = None
                 \/ FileConfig.Raw.options values = Some (FileConfig.Mapping []) ->
                 o' = cls [])).
  { intros cls o' Hb. unfold FileConfig.build in Hb.
    destruct (FileConfig.Raw.options values) as [[[| kv l] | |] |];
      try discriminate; injection Hb as <-; (split; [by eauto |]);
      intros [? | ?]; done. }
  case_bool_decide as Hcsv.
  - apply bind_ok in Hset as (o' & Hb & [= <-]).
    destruct (Hbuild _ _ Hb) as ((o & ->) & Hempty). cbn in *.
    rewrite Hcsv in Hf. injection Hf as <-.
    unfold literal in Hlit. cbn in Hlit. injection Hlit as <-.
    destruct (FileConfig.Raw.path values); [| discriminate]. injection Hp as ->.
    split; [done |]. split; [done |]. left. split; [done |]. split; [by eauto |].
    intros He. by rewrite (Hempty He).
  - case_bool_decide as Hpq.
    + apply bind_ok in Hset as (o' & Hb & [= <-]).
      destruct (Hbuild _ _ Hb) as ((o & ->) & Hempty). cbn in *.
      rewrite Hpq in Hf. injection Hf as <-.
      unfold literal in Hlit. cbn in Hlit. injection Hlit as <-.
      destruct (FileConfig.Raw.path values); [| discriminate]. injection Hp as ->.
      split; [done |]. split; [done |]. right. split; [done |]. split; [by eauto |].
      intros He. by rewrite (Hempty He).
    + injection Hset as <-. exfalso.
      destruct (FileConfig.Raw.format values) as [f0 |]; [| discriminate].
      injection Hf as ->. unfold literal in Hlit.
      case_bool_decide as Hin; [| discriminate].
      rewrite !elem_of_cons, elem_of_nil in Hin.
      destruct Hin as [-> | [-> | []]]; congruence.
Qed.

(** X3. An accepted [FileConfig] has format [csv] or [parquet] and always
    carries an options object, of the class of its format; when no options
    are given, or an empty mapping, that object is the one the class builds
    from no argument, with no key set. Its path is the one given. A format
    other than these two is rejected with a validation error. *)
Theorem file_config_options_match_format :
  (forall values c,
      FileConfig.new values = Ok c ->
      FileConfig.Raw.path values = Some (FileConfig.path c)
      /\ FileConfig.Raw.format values = Some (FileConfig.format c)
      /\ (FileConfig.format c = "csv"%string
          /\ (exists o, FileConfig.options c = Some (FileConfig.CsvOptions o))
          /\ (FileConfig.Raw.options values = None
              \/ FileConfig.Raw.options values = Some (FileConfig.Mapping []) ->
              FileConfig.options c = Some (FileConfig.CsvOptions []))
          \/ FileConfig.format c = "parquet"%string
             /\ (exists o, FileConfig.options c = Some (FileConfig.ParquetOptions o))
             /\ (FileConfig.Raw.options values = None
                 \/ FileConfig.Raw.options values = Some (FileConfig.Mapping []) ->
                 FileConfig.options c = Some (FileConfig.ParquetOptions []))))
  /\ (forall values f,
         FileConfig.Raw.format values = Some f ->
         f <> "csv"%string -> f <> "parquet"%string ->
         exists msg, FileConfig.new values = Raise (ValidationError msg)).
Proof.
  split.
  - exact file_config_new_built.
  - intros values f Hf Hcsv Hpq. unfold FileConfig.new, FileConfig.set_file_options.
    rewrite Hf, !bool_decide_eq_false_2 by congruence.
    cbn [in_validator bind]. rewrite Hf. cbn [required bind].
    unfold literal. rewrite bool_decide_eq_false_2; [cbn; eauto |].
    rewrite !elem_of_cons, elem_of_nil. intros [? | [? | []]]; congruence.
Qed.

Lemma file_config_options_match_format_witness :
  exists c, FileConfig.new {| FileConfig.Raw.format := Some "parquet"%string;
                              FileConfig.Raw.path := Some "/data/orders"%string;
                              FileConfig.Raw.options := None |} = Ok c
            /\ FileConfig.options c = Some (FileConfig.ParquetOptions []).
Proof.
  destruct file_config_options_match_format as [Hok _].
  exists {| FileConfig.format := "parquet"; FileConfig.path := "/data/orders";
            FileConfig.options := Some (FileConfig.ParquetOptions []) |}.
  split; [reflexivity |].
  destruct (Hok {| FileConfig.Raw.format := Some "parquet"%string;
                   FileConfig.Raw.path := Some "/data/orders"%string;
                   FileConfig.Raw.options := None |} _ eq_refl)
    as (_ & _ & [(Hf & _) | (_ & _ & Hopt)]); [discriminate Hf |].
  apply Hopt. by left.
Defined.

End Validators.

(** ** Calendar arithmetic behind [datetime.now() - timedelta(...)] *)

Section Calendar.
Import Datetime.
Local Open Scope Z_scope.

Ltac lit z :=
  match z with
  | Z0 => idtac
  | Zpos ?p => is_ground p
  | Zneg ?p => is_ground p
  end.

Ltac eval_literals :=
  repeat match goal with
    | |- context [?a - ?b] =>
        lit a; lit b; let v := eval vm_compute in (a - b) in change (a - b) with v
    | |- context [?a + ?b] =>
        lit a; lit b; let v := eval vm_compute in (a + b) in change (a + b) with v
    | |- context [?a <? ?b] =>
        lit a; lit b; let v := eval vm_compute in (a <? b) in change (a <? b) with v
    | |- context [?a =? ?b] =>
        lit a; lit b; let v := eval vm_compute in (a =? b) in change (a =? b) with v
    | |- context [days_before_month_table ?a] =>
        lit a;
        let v := eval vm_compute in (days_before_month_table a) in
        change (days_before_month_table a) with v
    | |- context [days_in_month_table ?a] =>
        lit a;
        let v := eval vm_compute in (days_in_month_table a) in
        change (days_in_month_table a) with v
    end.

Lemma days_before_year_cycle (a b c e : Z) :
  0 <= a -> 0 <= b <= 3 -> 0 <= c <= 24 -> 0 <= e <= 3 ->
  days_before_year (a * 400 + 1 + b * 100 + c * 4 + e)
  = 146097 * a + 36524 * b + 1461 * c + 365 * e.
Proof.
  intros. unfold days_before_year. cbv zeta. Z.div_mod_to_equations. lia.
Qed.

Lemma days_before_year_mono (y1 y2 : Z) :
  y1 <= y2 -> days_before_year y1 <= days_before_year y2.
Proof.
  intros. unfold days_before_year. cbv zeta. Z.div_mod_to_equations. lia.
Qed.

Lemma days_before_year_succ (y : Z) :
  days_before_year (y + 1) = days_before_year y + 365 + (if is_leap y then 1 else 0).
Proof.
  unfold days_before_year, is_leap. cbv zeta.
  repeat match goal with
    | |- context [?x mod ?k =? 0] => destruct (Z.eqb_spec (x mod k) 0)
    end; cbn [andb orb negb]; Z.div_mod_to_equations; lia.
Qed.

(** The day of the year of a date lies within the year. *)
Lemma day_of_year_bounds (y m d : Z) :
  check_date_fields y m d = true ->
  1 <= days_before_month y m + d <= 365 + (if is_leap y then 1 else 0).
Proof.
  unfold check_date_fields, days_in_month, days_before_month, MINYEAR, MAXYEAR.
  rewrite !andb_true_iff, !Z.leb_le. intros [[[[[Hy1 Hy2] Hm1] Hm2] Hd1] Hd2].
  assert (Hcases : m = 1 \/ m = 2 \/ m = 3 \/ m = 4 \/ m = 5 \/ m = 6 \/ m = 7
                   \/ m = 8 \/ m = 9 \/ m = 10 \/ m = 11 \/ m = 12) by lia.
  revert Hd2.
  destruct (is_leap y);
    repeat (destruct Hcases as [-> | Hcases]); try subst m;
    repeat (eval_literals; cbn [andb orb]); lia.
Qed.

Lemma ymd2ord_range (y m d : Z) :
  check_date_fields y m d = true -> 1 <= ymd2ord y m d <= MAXORDINAL.
Proof.
  intros Hv. pose proof (day_of_year_bounds y m d Hv) as Hd.
  unfold check_date_fields, MINYEAR, MAXYEAR in Hv.
  rewrite !andb_true_iff, !Z.leb_le in Hv.
  unfold ymd2ord, MAXORDINAL.
  pose proof (days_before_year_mono 1 y ltac:(lia)) as H1.
  pose proof (days_before_year_mono (y + 1) 10000 ltac:(lia)) as H2.
  rewrite days_before_year_succ in H2.
  change (days_before_year 1) with 0 in H1.
  change (days_before_year 10000) with 3652059 in H2. lia.
Qed.

(** Two dates with the same ordinal are the same date. *)
Lemma ymd2ord_inj (y m d y' m' d' : Z) :
  check_date_fields y m d = true -> check_date_fields y' m' d' = true ->
  ymd2ord y m d = ymd2ord y' m' d' -> y = y' /\ m = m' /\ d = d'.
Proof.
  intros Hv Hv' Heq.
  pose proof (day_of_year_bounds y m d Hv) as Hd.
  pose proof (day_of_year_bounds y' m' d' Hv') as Hd'.
  unfold ymd2ord in Heq.
  assert (Hy : y = y').
  { destruct (Z.lt_trichotomy y y') as [Hlt | [? | Hgt]]; [exfalso | done | exfalso].
    - pose proof (days_before_year_mono (y + 1) y' ltac:(lia)) as Hm.
      rewrite days_before_year_succ in Hm. lia.
    - pose proof (days_before_year_mono (y' + 1) y ltac:(lia)) as Hm.
      rewrite days_before_year_succ in Hm. lia. }
  subst y'. split; [done |].
  assert (Hday : days_before_month y m + d = days_before_month y m' + d') by lia.
  clear Heq Hd Hd'.
  unfold check_date_fields, days_in_month, days_before_month, MINYEAR, MAXYEAR in *.
  rewrite !andb_true_iff, !Z.leb_le in Hv, Hv'.
  destruct Hv as [[[[[_ _] Hm1] Hm2] Hd1] Hd2].
  destruct Hv' as [[[[[_ _] Hm1'] Hm2'] Hd1'] Hd2'].
  assert (Hcases : m = 1 \/ m = 2 \/ m = 3 \/ m = 4 \/ m = 5 \/ m = 6 \/ m = 7
                   \/ m = 8 \/ m = 9 \/ m = 10 \/ m = 11 \/ m = 12) by lia.
  assert (Hcases' : m' = 1 \/ m' = 2 \/ m' = 3 \/ m' = 4 \/ m' = 5 \/ m' = 6 \/ m' = 7
                    \/ m' = 8 \/ m' = 9 \/ m' = 10 \/ m' = 11 \/ m' = 12) by lia.
  revert Hd2 Hd2' Hday.
  destruct (is_leap y);
    repeat (destruct Hcases as [-> | Hcases]); try subst m;
    repeat (destruct Hcases' as [-> | Hcases']); try subst m';
    repeat (eval_literals; cbn [andb orb]); lia.
Qed.

(** The date of an ordinal has that ordinal. *)
Lemma ymd2ord_ord2ymd (n : Z) :
  1 <= n <= MAXORDINAL ->
  let '(y, m, d) := ord2ymd n in ymd2ord y m d = n.
Proof.
  intros Hn. unfold ord2ymd, DI400Y, DI100Y, DI4Y, MAXORDINAL in *. cbv zeta.
  set (n0 := n - 1).
  set (n400 := n0 / 146097). set (r1 := n0 mod 146097).
  set (n100 := r1 / 36524). set (r2 := r1 mod 36524).
  set (n4 := r2 / 1461). set (r3 := r2 mod 1461).
  set (n1 := r3 / 365). set (r4 := r3 mod 365).
  assert (H400 : 0 <= n400 <= 24 /\ 0 <= r1 < 146097 /\ n0 = 146097 * n400 + r1)
    by (unfold n400, r1; Z.div_mod_to_equations; lia).
  assert (H100 : 0 <= n100 <= 4 /\ 0 <= r2 < 36524 /\ r1 = 36524 * n100 + r2)
    by (unfold n100, r2; Z.div_mod_to_equations; lia).
  assert (H4 : 0 <= n4 <= 24 /\ 0 <= r3 < 1461 /\ r2 = 1461 * n4 + r3)
    by (unfold n4, r3; Z.div_mod_to_equations; lia).
  assert (H1 : 0 <= n1 <= 4 /\ 0 <= r4 < 365 /\ r3 = 365 * n1 + r4)
    by (unfold n1, r4; Z.div_mod_to_equations; lia).
  assert (Hn0 : n = n0 + 1) by (unfold n0; lia).
  clearbody n400 r1 n100 r2 n4 r3 n1 r4 n0.
  destruct ((n1 =? 4) || (n100 =? 4)) eqn:E4.
  - rewrite orb_true_iff, !Z.eqb_eq in E4.
    unfold ymd2ord, days_before_month.
    change (days_before_month_table 12) with 334. change (2 <? 12) with true.
    cbn [andb].
    assert (Hy : n400 * 400 + 1 + n100 * 100 + n4 * 4 + n1 - 1
                 = n400 * 400 + 1 + n100 * 100 + n4 * 4 + (n1 - 1)) by lia.
    destruct E4 as [-> | ->].
    + (* the last day of a leap year inside a century *)
      assert (n100 <= 3 /\ n4 <= 23 /\ r4 = 0) as (? & ? & ->) by lia.
      rewrite Hy, is_leap_cycle, days_before_year_cycle by lia.
      change (4 - 1 =? 3) with true.
      destruct (Z.eqb_spec n4 24); [lia |]. cbn [andb orb negb]. lia.
    + (* the last day of a 400-year cycle *)
      assert (n4 = 0 /\ n1 = 0 /\ r4 = 0) as (-> & -> & ->) by lia.
      replace (n400 * 400 + 1 + 4 * 100 + 0 * 4 + 0 - 1)
        with (n400 * 400 + 1 + 3 * 100 + 24 * 4 + 3) by lia.
      rewrite is_leap_cycle, days_before_year_cycle by lia.
      cbn. lia.
  - rewrite orb_false_iff, !Z.eqb_neq in E4.
    set (leapyear := (n1 =? 3) && (negb (n4 =? 24) || (n100 =? 3))).
    set (y := n400 * 400 + 1 + n100 * 100 + n4 * 4 + n1).
    assert (Hleap : is_leap y = leapyear) by (apply is_leap_cycle; lia).
    assert (Hdby : days_before_year y = 146097 * n400 + 36524 * n100 + 1461 * n4 + 365 * n1)
      by (apply days_before_year_cycle; lia).
    rewrite Z.shiftr_div_pow2 by lia. change (2 ^ 5) with 32.
    set (m := (r4 + 50) / 32).
    assert (Hm : 1 <= m <= 12 /\ 32 * m <= r4 + 50 < 32 * m + 32)
      by (unfold m; Z.div_mod_to_equations; lia).
    clearbody m y leapyear.
    assert (Hcases : m = 1 \/ m = 2 \/ m = 3 \/ m = 4 \/ m = 5 \/ m = 6 \/ m = 7
                     \/ m = 8 \/ m = 9 \/ m = 10 \/ m = 11 \/ m = 12) by lia.
    unfold ymd2ord, days_before_month.
    destruct leapyear;
      repeat (destruct Hcases as [-> | Hcases]); try subst m;
      repeat (eval_literals; cbn [andb orb]);
      match goal with
      | |- context [?a <? ?b] => destruct (Z.ltb_spec a b)
      end;
      repeat (eval_literals; cbn [andb orb]);
      rewrite ?Hleap, ?Hdby; repeat (eval_literals; cbn [andb orb]); lia.
Qed.

(** The ordinal of a date gives the date back. *)
Lemma ord2ymd_ymd2ord (y m d : Z) :
  check_date_fields y m d = true -> ord2ymd (ymd2ord y m d) = (y, m, d).
Proof.
  intros Hv. pose proof (ymd2ord_range y m d Hv) as Hr.
  pose proof (ord2ymd_valid _ Hr) as Hv'. pose proof (ymd2ord_ord2ymd _ Hr) as Heq.
  destruct (ord2ymd (ymd2ord y m d)) as [[y' m'] d'].
  destruct (ymd2ord_inj _ _ _ _ _ _ Hv' Hv Heq) as (-> & -> & ->). done.
Qed.

Import Timeline.

Lemma valid_time_fields (dt : datetime) :
  valid dt = true ->
  check_date_fields (year dt) (month dt) (day dt) = true
  /\ 0 <= hour dt <= 23 /\ 0 <= minute dt <= 59 /\ 0 <= second dt <= 59
  /\ 0 <= microsecond dt <= 999999.
Proof.
  unfold valid, check_time_fields. rewrite !andb_true_iff, !Z.leb_le. tauto.
Qed.

Lemma seconds_range (dt : datetime) :
  valid dt = true -> 86400 <= seconds dt < (MAXORDINAL + 1) * 86400.
Proof.
  intros Hv. apply valid_time_fields in Hv as (Hd & ? & ? & ? & _).
  apply ymd2ord_range in Hd. unfold seconds, MAXORDINAL in *. lia.
Qed.

(** A timestamp is determined by its place on the timeline and its
    microseconds. *)
Lemma seconds_inj (a b : datetime) :
  valid a = true -> valid b = true ->
  seconds a = seconds b -> microsecond a = microsecond b -> a = b.
Proof.
  intros Ha Hb Heq Hus.
  apply valid_time_fields in Ha as (Hda & ? & ? & ? & _).
  apply valid_time_fields in Hb as (Hdb & ? & ? & ? & _).
  unfold seconds in Heq.
  assert (Hord : ymd2ord (year a) (month a) (day a) = ymd2ord (year b) (month b) (day b))
    by lia.
  destruct (ymd2ord_inj _ _ _ _ _ _ Hda Hdb Hord) as (Hy & Hm & Hd).
  destruct a, b; cbn in *. f_equal; lia.
Qed.

Lemma sub_seconds_ok (dt dt' : datetime) (s : Z) :
  valid dt = true -> sub_seconds dt s = Ok dt' ->
  seconds dt' = seconds dt - s /\ microsecond dt' = microsecond dt.
Proof.
  intros Hv. unfold sub_seconds, timedelta, bind.
  repeat match goal with
    | |- context [if ?b then _ else _] => destruct b eqn:?; try discriminate
    end.
  rewrite andb_true_iff, Z.ltb_lt, Z.leb_le in *.
  match goal with
  | |- context [ord2ymd ?n] =>
      pose proof (ymd2ord_ord2ymd n ltac:(lia)) as Hord;
      destruct (ord2ymd n) as [[y m] d]
  end.
  intros [= <-]. unfold seconds. cbn [year month day hour minute second microsecond].
  split; [| done]. rewrite Hord. Z.div_mod_to_equations. lia.
Qed.

Lemma sub_seconds_in_range (dt : datetime) (s : Z) :
  valid dt = true ->
  86400 <= seconds dt - s < (MAXORDINAL + 1) * 86400 ->
  exists dt', sub_seconds dt s = Ok dt'.
Proof.
  intros Hv Hr. pose proof (seconds_range dt Hv) as Hdt.
  apply valid_time_fields in Hv as (_ & ? & ? & ? & _).
  unfold seconds, MAXORDINAL in *.
  unfold sub_seconds, timedelta, bind, MAX_DELTA_DAYS, MAXORDINAL.
  repeat match goal with
    | |- context [if ?a <? ?b then _ else _] => destruct (Z.ltb_spec a b)
    end; try (exfalso; Z.div_mod_to_equations; lia).
  match goal with
  | |- context [if ?c then _ else _] => destruct c eqn:Hc
  end.
  - destruct (ord2ymd _) as [[y m] d]. eauto.
  - exfalso. rewrite andb_false_iff, Z.ltb_ge, Z.leb_gt in Hc.
    Z.div_mod_to_equations. lia.
Qed.

Lemma sub_seconds_raises (dt : datetime) (s : Z) (e : exn) :
  sub_seconds dt s = Raise e -> e = OverflowError.
Proof.
  unfold sub_seconds, timedelta, bind.
  repeat match goal with
    | |- context [if ?b then _ else _] => destruct b; try (by intros [= <-])
    end.
  destruct (ord2ymd _) as [[y m] d]. discriminate.
Qed.

End Calendar.

(** ** The process timestamp of a constructed configuration *)

Section ProcessDatetime.
Import Datetime ValidationConfig Timeline.
Local Open Scope Z_scope.

(** X4. Without an override, or with an empty one, the override is not
    parsed: [set_process_datetime] succeeds exactly with a configuration
    whose [process_datetime] is the truncation of the timestamp that lies
    [defaulttimedelay] seconds before the wall clock, microseconds kept,
    and whose other fields are unchanged; it raises only [OverflowError],
    when that timestamp falls outside the years 1 to 9999. With a delay of
    0 the [process_datetime] is the truncated wall clock. *)
Theorem set_process_datetime_without_override (now : datetime) (values : t) :
  valid now = true ->
  truthy (Args.datetime (args values)) = false ->
  (forall values',
      set_process_datetime now values = Ok values' <->
      exists base pd,
        valid base = true
        /\ seconds base = seconds now - Setting.defaulttimedelay (setting values)
        /\ microsecond base = microsecond now
        /\ truncate (Setting.granularity (setting values)) base = Ok pd
        /\ process_datetime values' = Some pd
        /\ args values' = args values /\ setting values' = setting values
        /\ source values' = source values /\ target values' = target values)
  /\ (forall e,
         set_process_datetime now values = Raise e ->
         e = OverflowError
         /\ ~ (86400 <= seconds now - Setting.defaulttimedelay (setting values)
               < (MAXORDINAL + 1) * 86400))
  /\ (Setting.defaulttimedelay (setting values) = 0 ->
      exists pd values',
        truncate (Setting.granularity (setting values)) now = Ok pd
        /\ set_process_datetime now values = Ok values'
        /\ process_datetime values' = Some pd).
Proof.
  intros Hnow Hf. rewrite (set_process_datetime_no_override now values Hf).
  set (delay := Setting.defaulttimedelay (setting values)).
  set (g := Setting.granularity (setting values)).
  assert (Hexact : forall base,
             sub_seconds now delay = Ok base <->
             valid base = true /\ seconds base = seconds now - delay
             /\ microsecond base = microsecond now).
  { intros base. split.
    - intros H. split; [by eapply sub_seconds_valid |]. by apply sub_seconds_ok.
    - intros (Hv & Hs & Hus).
      destruct (sub_seconds_in_range now delay Hnow) as [base' Hb'].
      { rewrite <- Hs. by apply seconds_range. }
      rewrite Hb'. f_equal.
      pose proof (sub_seconds_valid _ _ _ Hnow Hb') as Hv'.
      apply (sub_seconds_ok _ _ _ Hnow) in Hb' as [Hs' Hus'].
      apply seconds_inj; [done | done | lia | congruence]. }
  split; [| split].
  - intros values'. split.
    + intros H. apply bind_ok in H as (base & Hbase & H).
      apply bind_ok in H as (pd & Hpd & [= <-]).
      apply Hexact in Hbase as (? & ? & ?). exists base, pd. done.
    + intros (base & pd & Hv & Hs & Hus & Hpd & Hfield & Ha & Hset & Hsrc & Htgt).
      assert (Hb : sub_seconds now delay = Ok base) by (by apply Hexact).
      rewrite Hb. cbn [bind]. rewrite Hpd. cbn [bind]. f_equal.
      destruct values'. cbn in *. by subst.
  - intros e H. destruct (sub_seconds now delay) as [base |] eqn:Hb.
    + exfalso. cbn [bind] in H.
      destruct (truncate_total g base) as [pd Hpd]; [by eapply sub_seconds_valid |].
      rewrite Hpd in H. discriminate.
    + cbn [bind] in H. injection H as <-. split; [by eapply sub_seconds_raises |].
      intros Hr. destruct (sub_seconds_in_range now delay Hnow Hr) as [base' Hb'].
      congruence.
  - intros H0. fold delay in H0.
    assert (Hb : sub_seconds now delay = Ok now).
    { apply Hexact. rewrite H0. split; [done |]. split; [lia | done]. }
    rewrite Hb. cbn [bind].
    destruct (truncate_total g now Hnow) as [pd Hpd].
    exists pd, (set_process_datetime_field values pd). by rewrite Hpd.
Qed.

Lemma set_process_datetime_without_override_witness :
  exists pd values',
    truncate (Some "daily"%string) sample_now = Ok pd
    /\ set_process_datetime sample_now Samples.undelayed_values = Ok values'
    /\ process_datetime values' = Some pd.
Proof.
  destruct (set_process_datetime_without_override sample_now Samples.undelayed_values
              eq_refl eq_refl) as (_ & _ & Hzero).
  exact (Hzero eq_refl).
Defined.

Lemma strptime_raises (s : string) (e : exn) :
  strptime s = Raise e -> exists msg, e = ValueError msg.
Proof.
  unfold strptime.
  destruct (re_format s) as [| [[[[[[y m] d] hh] mm] ss] rest] l];
    [intros [= <-]; eauto |].
  destruct rest; [| intros [= <-]; eauto].
  unfold Datetime.new.
  destruct (check_date_fields y m d && check_time_fields hh mm ss 0);
    [discriminate | intros [= <-]; eauto].
Qed.

(** X5. When the rest of the configuration validates, an override of
    ASCII characters that is not empty and that [strptime] rejects (a wrong
    shape, a field out of range, a day that the month does not have) makes
    construction fail with a validation error that carries the message of
    [strptime]. *)
Theorem override_rejected (libc : string -> datetime -> result string)
  (now : datetime) (raw : Raw.t) (a : Args.t) (rs : Setting.Raw.t)
  (rsrc rtgt : Datasource.Raw.t) (s : string) (e : exn) :
  Raw.args raw = Some a -> Raw.setting raw = Some rs ->
  Raw.source raw = Some rsrc -> Raw.target raw = Some rtgt ->
  (exists a', Args.new a = Ok a') -> (exists st, Setting.new rs = Ok st) ->
  (exists src, Datasource.new rsrc = Ok src) ->
  (exists tgt, Datasource.new rtgt = Ok tgt) ->
  Args.datetime a = Some s -> s <> ""%string -> ascii_text s = true ->
  strptime s = Raise e ->
  exists msg, e = ValueError msg
              /\ ValidationConfig.new libc now raw = Raise (ValidationError msg).
Proof.
  intros Ha Hrs Hsrc Htgt [a' Ha'] [st Hst] [src Hsrc'] [tgt Htgt'] Hs Hne _ He.
  destruct (strptime_raises s e He) as [msg ->]. exists msg. split; [done |].
  unfold ValidationConfig.new.
  rewrite Ha, Hrs, Hsrc, Htgt. cbn [required bind].
  rewrite Ha', Hst, Hsrc', Htgt'. cbn [bind].
  assert (a' = a) as ->.
  { unfold Args.new in Ha'. apply bind_ok in Ha' as (? & _ & [= <-]). done. }
  unfold set_process_datetime, untruncated. cbn [args]. rewrite Hs.
  destruct s as [| c s]; [done |]. cbn [truthy String.eqb negb]. rewrite He.
  reflexivity.
Qed.

Lemma override_rejected_witness :
  exists msg,
    strptime "2024-02-30 10:00:00" = Raise (ValueError msg)
    /\ ValidationConfig.new no_libc sample_now
         (sample_raw (Some "2024-02-30 10:00:00"%string) (Some "daily"%string))
       = Raise (ValidationError msg).
Proof.
  destruct (override_rejected no_libc sample_now
              (sample_raw (Some "2024-02-30 10:00:00"%string) (Some "daily"%string))
              (sample_args (Some "2024-02-30 10:00:00"%string))
              (sample_setting 5 (Some "daily"%string)) sample_source sample_target
              "2024-02-30 10:00:00" (ValueError "field out of range"))
    as (msg & Hmsg & Hnew); try reflexivity; try (eexists; vm_compute; reflexivity).
  { discriminate. }
  exists msg. split; [by rewrite <- Hmsg | exact Hnew].
Defined.

Lemma truncate_fields (g : option string) (dt pd : datetime) :
  truncate g dt = Ok pd ->
  valid pd = true
  /\ minute pd = 0 /\ second pd = 0 /\ microsecond pd = 0
  /\ (g = Some "monthly"%string -> day pd = 1 /\ hour pd = 0)
  /\ (g = Some "daily"%string -> hour pd = 0)
  /\ truncate g pd = Ok pd.
Proof.
  intros H. pose proof (truncate_valid _ _ _ H) as Hv. split; [done |].
  destruct (decide (g = Some "monthly"%string)) as [-> | Hm].
  { unfold truncate, replace in H. cbn in H.
    apply new_ok in H as [_ ->]. cbn. repeat split; try done;
      try (rewrite truncate_monthly by done; reflexivity). }
  destruct (decide (g = Some "daily"%string)) as [-> | Hd].
  { unfold truncate, replace in H. cbn in H.
    apply new_ok in H as [_ ->]. cbn. repeat split; try done;
      try (rewrite truncate_daily by done; reflexivity). }
  unfold truncate, replace in H. rewrite !bool_decide_eq_false_2 in H by done.
  cbn in H. apply new_ok in H as [_ ->]. cbn. repeat split; try done;
    try (rewrite truncate_else by done; reflexivity).
Qed.

Lemma setting_new_domain (rs : Setting.Raw.t) (st : Setting.t) :
  Setting.new rs = Ok st ->
  Setting.granularity st
    ∈ [None; Some "monthly"; Some "daily"; Some "hourly"]%string
  /\ Setting.validation_threshold st <= 100.
Proof.
  intros H. unfold Setting.new in H.
  apply bind_ok in H as (name & _ & H). apply bind_ok in H as (th & _ & H).
  apply bind_ok in H as (th' & Hle & H). apply bind_ok in H as (log & _ & H).
  apply bind_ok in H as (g & Hg & H). apply bind_ok in H as (vt & _ & H).
  injection H as <-. cbn. split.
  - unfold optional_literal in Hg.
    destruct (Setting.Raw.granularity rs) as [s |]; [| injection Hg as <-; set_solver].
    apply bind_ok in Hg as (s' & Hlit & [= <-]). unfold literal in Hlit.
    case_bool_decide as Hin; [| discriminate]. injection Hlit as <-.
    rewrite !elem_of_cons, elem_of_nil in Hin.
    destruct Hin as [-> | [-> | [-> | []]]]; set_solver.
  - unfold Setting.le in Hle. destruct (Z.leb_spec th 100); [| discriminate].
    by injection Hle as <-.
Qed.

Lemma render_all_keeps (libc : string -> datetime -> result string) (v1 v : t) :
  render_all libc v1 = Ok v ->
  process_datetime v = process_datetime v1
  /\ args v = args v1
  /\ setting v = Setting.set_summary_log (setting v1) (Setting.summary_log (setting v)).
Proof.
  unfold render_all. destruct (process_datetime v1) as [dt |] eqn:E; [| discriminate].
  intros H.
  apply bind_ok in H as (log & _ & H). apply bind_ok in H as (sdb & _ & H).
  apply bind_ok in H as (tdb & _ & H). apply bind_ok in H as (sfc & _ & H).
  apply bind_ok in H as (tfc & _ & H). injection H as <-. cbn. done.
Qed.

(** X6. Every configuration that construction returns has a process
    timestamp, which is a valid timestamp with minutes, seconds and
    microseconds at zero, also the hour under daily and monthly, and the
    day at 1 under monthly: truncating it again changes nothing. Its
    granularity is absent or one of the three names, and its threshold is
    at most 100. *)
Theorem constructed_config_invariant (libc : string -> datetime -> result string)
  (now : datetime) (raw : Raw.t) (v : t) :
  valid now = true ->
  ValidationConfig.new libc now raw = Ok v ->
  exists pd,
    process_datetime v = Some pd
    /\ valid pd = true
    /\ minute pd = 0 /\ second pd = 0 /\ microsecond pd = 0
    /\ (Setting.granularity (setting v) = Some "monthly"%string ->
        day pd = 1 /\ hour pd = 0)
    /\ (Setting.granularity (setting v) = Some "daily"%string -> hour pd = 0)
    /\ truncate (Setting.granularity (setting v)) pd = Ok pd
    /\ Setting.granularity (setting v)
         ∈ [None; Some "monthly"; Some "daily"; Some "hourly"]%string
    /\ Setting.validation_threshold (setting v) <= 100.
Proof.
  intros Hnow H. unfold ValidationConfig.new in H.
  apply bind_ok in H as (a0 & _ & H). apply bind_ok in H as (a & _ & H).
  apply bind_ok in H as (s0 & _ & H). apply bind_ok in H as (s & Hs & H).
  apply bind_ok in H as (src0 & _ & H). apply bind_ok in H as (src & _ & H).
  apply bind_ok in H as (tgt0 & _ & H). apply bind_ok in H as (tgt & _ & H).
  apply bind_ok in H as (v1 & Hpd & H).
  apply in_validator_ok in Hpd, H. apply set_strftime_string_ok in H.
  apply render_all_keeps in H as (Hdt & _ & Hset).
  unfold set_process_datetime in Hpd. cbn [args setting] in Hpd.
  apply bind_ok in Hpd as (base & _ & Hpd).
  apply bind_ok in Hpd as (pd & Htr & [= <-]).
  cbn in Hdt, Hset.
  assert (Hg : Setting.granularity (setting v) = Setting.granularity s)
    by (by rewrite Hset).
  assert (Hth : Setting.validation_threshold (setting v) = Setting.validation_threshold s)
    by (by rewrite Hset).
  rewrite Hg, Hth. apply setting_new_domain in Hs as [Hdom Hle].
  apply truncate_fields in Htr as (? & ? & ? & ? & ? & ? & ?).
  exists pd. done.
Qed.

Lemma constructed_config_invariant_witness :
  exists v pd,
    ValidationConfig.new no_libc sample_now
      (sample_raw (Some "2024-03-15 14:32:10"%string) (Some "monthly"%string)) = Ok v
    /\ process_datetime v = Some pd
    /\ day pd = 1 /\ hour pd = 0 /\ minute pd = 0.
Proof.
  eexists. 
  destruct (constructed_config_invariant no_libc sample_now
              (sample_raw (Some "2024-03-15 14:32:10"%string) (Some "monthly"%string))
              _ eq_refl ltac:(vm_compute; reflexivity))
    as (pd & Hpd & _ & Hmin & _ & _ & Hmonth & _).
  exists pd. split; [reflexivity |]. split; [exact Hpd |].
  destruct (Hmonth eq_refl) as [Hday Hhour]. done.
Defined.

End ProcessDatetime.

(** ** Rendering: when it fails, and when it changes nothing *)

Section Rendering.
Import Datetime ValidationConfig.
Local Open Scope Z_scope.
Variable libc : string -> datetime -> result string.

Lemma query_rendered_ok (dt : datetime) (c c' : option DatabaseConfig.t) (t : string) :
  query_rendered libc dt c c' -> t ∈ query_of c ->
  exists out, strftime libc dt t = Ok out.
Proof.
  unfold query_rendered, query_of. destruct c as [c |]; [| by intros _ ?%elem_of_nil].
  destruct c' as [c' |]; [| done].
  destruct (DatabaseOptions.query (DatabaseConfig.options c)) as [q |];
    [| by intros _ ?%elem_of_nil].
  intros (_ & _ & _ & _ & q' & Hq' & _) ->%list_elem_of_singleton. eauto.
Qed.

Lemma path_rendered_ok (dt : datetime) (c c' : option FileConfig.t) (t : string) :
  path_rendered libc dt c c' -> t ∈ path_of c ->
  exists out, strftime libc dt t = Ok out.
Proof.
  unfold path_rendered, path_of. destruct c as [c |]; [| by intros _ ?%elem_of_nil].
  destruct c' as [c' |]; [| done].
  intros H ->%list_elem_of_singleton. destruct H as (_ & _ & Hp). eauto.
Qed.

Lemma render_all_ok_templates (values values' : t) (dt : datetime) (t : string) :
  process_datetime values = Some dt ->
  render_all libc values = Ok values' -> t ∈ templates values ->
  exists out, strftime libc dt t = Ok out.
Proof.
  intros Hdt H Ht. unfold render_all in H. rewrite Hdt in H.
  apply bind_ok in H as (log & Hlog & H). apply bind_ok in H as (sdb & Hsdb & H).
  apply bind_ok in H as (tdb & Htdb & H). apply bind_ok in H as (sfc & Hsfc & H).
  apply bind_ok in H as (tfc & Htfc & _).
  apply render_query_spec in Hsdb, Htdb. apply render_path_spec in Hsfc, Htfc.
  unfold templates in Ht. rewrite elem_of_cons, !elem_of_app in Ht.
  destruct Ht as [-> | [Ht | [Ht | [Ht | Ht]]]];
    eauto using query_rendered_ok, path_rendered_ok.
Qed.

Lemma render_all_total (values : t) (dt : datetime) :
  process_datetime values = Some dt ->
  (forall t, t ∈ templates values -> exists out, strftime libc dt t = Ok out) ->
  exists values', render_all libc values = Ok values'.
Proof.
  intros Hdt Hall. unfold render_all. rewrite Hdt. unfold templates in Hall.
  destruct (Hall (Setting.summary_log (setting values))) as [log ->];
    [apply list_elem_of_here |]. cbn [bind].
  destruct (render_query_total libc dt (Datasource.database_config (source values)))
    as [sdb ->]; [intros t Ht; apply Hall; set_solver |]. cbn [bind].
  destruct (render_query_total libc dt (Datasource.database_config (target values)))
    as [tdb ->]; [intros t Ht; apply Hall; set_solver |]. cbn [bind].
  destruct (render_path_total libc dt (Datasource.file_config (source values)))
    as [sfc ->]; [intros t Ht; apply Hall; set_solver |]. cbn [bind].
  destruct (render_path_total libc dt (Datasource.file_config (target values)))
    as [tfc ->]; [intros t Ht; apply Hall; set_solver |]. cbn [bind].
  eauto.
Qed.

(** X7. [set_strftime_string] returns exactly when [strftime] succeeds on
    the summary log path, on every query present and on every file path
    present; when one of them fails, whatever the failure, it raises the
    [ValueError] of its [except] clause, which construction reports as a
    validation error. *)
Theorem set_strftime_string_fails_on_bad_template (values : t) (dt : datetime) :
  process_datetime values = Some dt ->
  ((exists values', set_strftime_string libc values = Ok values') <->
   (forall t, t ∈ templates values -> exists out, strftime libc dt t = Ok out))
  /\ ((exists t e, t ∈ templates values /\ strftime libc dt t = Raise e) ->
      exists msg,
        set_strftime_string libc values = Raise (ValueError msg)
        /\ in_validator (set_strftime_string libc values)
           = Raise (ValidationError msg)).
Proof.
  intros Hdt. split.
  - split.
    + intros [values' H] t Ht. apply set_strftime_string_ok in H.
      by eapply render_all_ok_templates.
    + intros Hall. destruct (render_all_total values dt Hdt Hall) as [v Hv].
      exists v. unfold set_strftime_string. by rewrite Hv.
  - intros (t & e & Ht & He).
    assert (Hr : set_strftime_string libc values
                 = Raise (ValueError "error setting strftime.")).
    { unfold set_strftime_string.
      destruct (render_all libc values) as [v |] eqn:Hv; [exfalso | done].
      destruct (render_all_ok_templates values v dt t Hdt Hv Ht) as [out Hout].
      congruence. }
    eexists. rewrite Hr. done.
Qed.

Lemma strftime_plain (dt : datetime) (s : string) :
  plain s = true -> strftime libc dt s = Ok s.
Proof.
  intros Hs. pose proof (strftime_plain_app libc dt s "" Hs) as H.
  assert (Happ : forall x : string, String.append x "" = x).
  { intros x. induction x as [| c x IH]; [done |].
    change (String.append (String c x) "") with (String c (String.append x "")).
    by rewrite IH. }
  rewrite Happ in H. rewrite H. cbn. by rewrite Happ.
Qed.

Lemma render_query_plain (dt : datetime) (c : option DatabaseConfig.t) :
  (forall t, t ∈ query_of c -> plain t = true) -> render_query libc dt c = Ok c.
Proof.
  intros Hc. unfold render_query. destruct c as [c |]; [| done].
  destruct c as [f [u tb q o]]. unfold query_of in Hc.
  cbn [DatabaseConfig.options DatabaseOptions.query] in *.
  destruct q as [q |]; [| done]. destruct (truthy (Some q)); [| done].
  rewrite strftime_plain by (apply Hc, list_elem_of_here). done.
Qed.

Lemma render_path_plain (dt : datetime) (c : option FileConfig.t) :
  (forall t, t ∈ path_of c -> plain t = true) -> render_path libc dt c = Ok c.
Proof.
  intros Hc. unfold render_path. destruct c as [c |]; [| done].
  destruct c as [f p o]. unfold path_of in Hc. cbn [FileConfig.path] in *.
  destruct (truthy (Some p)); [| done].
  rewrite strftime_plain by (apply Hc, list_elem_of_here). done.
Qed.

(** X8. When neither the summary log path nor any query or file path
    present holds a [%] or a null character, [set_strftime_string] returns
    the configuration unchanged; so rendering a second time changes nothing
    when the first rendering left no [%] behind. *)
Theorem set_strftime_string_plain_unchanged (values : t) (dt : datetime) :
  process_datetime values = Some dt ->
  (forall t, t ∈ templates values -> plain t = true) ->
  set_strftime_string libc values = Ok values.
Proof.
  intros Hdt Hall. unfold set_strftime_string, render_all. rewrite Hdt.
  unfold templates in Hall.
  rewrite strftime_plain by (apply Hall, list_elem_of_here). cbn [bind].
  rewrite !render_query_plain, !render_path_plain
    by (intros t Ht; apply Hall; set_solver). cbn [bind].
  destruct values as [a s src tgt pd]. cbn in *. subst pd.
  destruct s, src, tgt. reflexivity.
Qed.

End Rendering.

Section RenderingSample.
Import Datetime ValidationConfig.

Lemma set_strftime_string_fails_on_bad_template_witness :
  set_strftime_string no_libc
    (set_process_datetime_field
       (sample_values None (Some "daily"%string)) sample_now)
  = Ok Samples.rendered_values.
Proof.
  destruct (set_strftime_string_fails_on_bad_template no_libc
              (set_process_datetime_field
                 (sample_values None (Some "daily"%string)) sample_now)
              sample_now eq_refl) as [[_ Hok] _].
  destruct Hok as [v Hv].
  - intros t Ht.
    change (templates _)
      with ["/logs/%Y-%m/orders"; "select '%Y-%m-%d'"; "/data/orders/%Y/%m/%d"]%string
      in Ht.
    rewrite !elem_of_cons, elem_of_nil in Ht.
    destruct Ht as [-> | [-> | [-> | []]]]; eexists; vm_compute; reflexivity.
  - rewrite Hv. vm_compute in Hv. injection Hv as <-. reflexivity.
Defined.

Lemma set_strftime_string_plain_unchanged_witness :
  set_strftime_string no_libc Samples.rendered_values = Ok Samples.rendered_values.
Proof.
  apply (set_strftime_string_plain_unchanged no_libc Samples.rendered_values
           sample_now eq_refl).
  intros t Ht.
  change (templates _)
    with ["/logs/2024-01/orders"; "select '2024-01-01'"; "/data/orders/2024/01/01"]%string
    in Ht.
  rewrite !elem_of_cons, elem_of_nil in Ht.
  destruct Ht as [-> | [-> | [-> | []]]]; reflexivity.
Defined.

End RenderingSample.

(** ** The verdicts of the two checks *)

Section Thresholds.
Import Verdicts.
Local Open Scope Z_scope.

Lemma float_le_int_mono (f : pyfloat) (n n' : Z) :
  n <= n' -> float_le_int f n = true -> float_le_int f n' = true.
Proof.
  intros Hn. destruct f as [s | s | | s m e]; cbn; try done.
  - rewrite !Z.leb_le. lia.
  - destruct e as [| e | e]; rewrite !Z.leb_le.
    + lia.
    + lia.
    + assert (0 < 2 ^ Z.pos e) by (apply Z.pow_pos_nonneg; lia). nia.
Qed.

Lemma float_le_int_negative (f : pyfloat) (n : Z) :
  signbit f = false -> n < 0 -> float_le_int f n = false.
Proof.
  intros Hs Hn. destruct f as [s | s | | s m e]; cbn in *; try done.
  - apply Z.leb_gt. lia.
  - subst s. destruct e as [| e | e]; apply Z.leb_gt.
    + lia.
    + assert (0 < 2 ^ Z.pos e) by (apply Z.pow_pos_nonneg; lia). nia.
    + assert (0 < 2 ^ Z.pos e) by (apply Z.pow_pos_nonneg; lia). nia.
Qed.

Lemma binary_round_aux_signbit (sx : bool) (mx ex : Z) (lx : location) :
  signbit (binary_round_aux prec emax sx mx ex lx) = sx
  \/ binary_round_aux prec emax sx mx ex lx = S754_nan.
Proof.
  unfold binary_round_aux.
  destruct (shr_fexp prec emax mx ex lx) as [mrs' e'].
  destruct (shr_fexp prec emax _ e' loc_Exact) as [mrs'' e''].
  destruct (shr_m mrs''); [by left | | by right].
  destruct (e'' <=? emax - prec); by left.
Qed.

Lemma spec_percentage_diff_signbit (d s : Z) :
  0 <= d -> 1 <= s -> signbit (spec_percentage_diff d s) = false.
Proof.
  intros Hd Hs. unfold spec_percentage_diff.
  change (binary_normalize prec emax 100 0 false)
    with (S754_finite false 7036874417766400 (-46)).
  assert (Hq : signbit (SFdiv prec emax (Z2SF d) (Z2SF s)) = false).
  { destruct s as [| ps | ps]; try lia. destruct d as [| pd | pd]; try lia; [done |].
    cbn [Z2SF SFdiv xorb].
    destruct (SFdiv_core_binary prec emax (Z.pos pd) 0 (Z.pos ps) 0) as [[mz ez] lz].
    by destruct (binary_round_aux_signbit false mz ez lz) as [-> | ->]. }
  destruct (SFdiv prec emax (Z2SF d) (Z2SF s)) as [sq | sq | | sq mq eq];
    cbn in Hq; subst; try done.
  cbn [SFmul xorb].
  by destruct (binary_round_aux_signbit false (Z.pos (mq * 7036874417766400))
                 (eq + -46) loc_Exact) as [-> | ->].
Qed.

Lemma row_count_passed_spec (df_source df_target : DataFrame) (threshold : Z) :
  1 <= count df_source < 2 ^ 63 -> count df_target < 2 ^ 63 ->
  row_count_passed df_source df_target threshold
  = Some (float_le_int
            (spec_percentage_diff (Z.abs (count df_source - count df_target))
                                  (count df_source))
            threshold).
Proof.
  intros Hs Ht. unfold row_count_passed.
  by rewrite validate_row_count_counts by lia.
Qed.

(** X9. With at least one source row the verdict of the row-count check
    is monotone in the threshold: a run that passes under a threshold
    passes under every larger one. Under a negative threshold no run
    passes, not even on equal counts; on equal counts the check passes
    exactly when the threshold is not negative. *)
Theorem row_count_threshold (df_source df_target : DataFrame) :
  1 <= count df_source < 2 ^ 63 -> count df_target < 2 ^ 63 ->
  (forall threshold threshold',
      threshold <= threshold' ->
      row_count_passed df_source df_target threshold = Some true ->
      row_count_passed df_source df_target threshold' = Some true)
  /\ (forall threshold,
         threshold < 0 ->
         row_count_passed df_source df_target threshold = Some false)
  /\ (count df_source = count df_target ->
      forall threshold,
        row_count_passed df_source df_target threshold = Some (0 <=? threshold)).
Proof.
  intros Hs Ht. split; [| split].
  - intros th th' Hle. rewrite !row_count_passed_spec by done.
    intros [= H]. f_equal. by eapply float_le_int_mono.
  - intros th Hth. rewrite row_count_passed_spec by done. f_equal.
    apply float_le_int_negative; [| done].
    apply spec_percentage_diff_signbit; lia.
  - intros Heq th. rewrite row_count_passed_spec by done. f_equal.
    rewrite <- Heq, Z.sub_diag. unfold spec_percentage_diff.
    destruct (count df_source) as [| p | p]; try lia. reflexivity.
Qed.

Lemma row_count_threshold_witness :
  row_count_passed (frame 100) (frame 97) 5 = Some true
  /\ row_count_passed (frame 100) (frame 97) 100 = Some true
  /\ row_count_passed (frame 100) (frame 100) (-1) = Some false.
Proof.
  assert (H : forall n, (n < 1000)%nat -> count (frame n) = Z.of_nat n).
  { intros n _. unfold count, frame. cbn. by rewrite ?length_replicate, ?length_fmap,
      ?length_seq. }
  destruct (row_count_threshold (frame 100) (frame 97)) as (Hmono & _ & _).
  { rewrite H by lia. lia. }
  { rewrite H by lia. lia. }
  destruct (row_count_threshold (frame 100) (frame 100)) as (_ & Hneg & _).
  { rewrite H by lia. lia. }
  { rewrite H by lia. lia. }
  assert (H5 : row_count_passed (frame 100) (frame 97) 5 = Some true)
    by (vm_compute; reflexivity).
  split; [exact H5 |]. split; [by apply (Hmono 5 100) | by apply Hneg].
Defined.

End Thresholds.

Section ContentVerdict.
Import Verdicts.
Local Open Scope Z_scope.

Lemma rows_only_in_zero (a b : DataFrame) :
  rows_only_in a b = 0 <-> fingerprints a ⊆ fingerprints b.
Proof.
  unfold rows_only_in. split.
  - intros H. assert (H' : size (fingerprints a ∖ fingerprints b) = 0%nat) by lia.
    apply size_empty_inv in H'. intros s Hs.
    destruct (decide (s ∈ fingerprints b)) as [| Hn]; [done |].
    exfalso. apply (not_elem_of_empty (C := gset string) s). rewrite <- H'.
    by apply elem_of_difference.
  - intros H. replace (fingerprints a ∖ fingerprints b) with (∅ : gset string).
    + by rewrite size_empty.
    + apply set_eq. intros s. rewrite elem_of_difference. split.
      * intros Hs. by apply not_elem_of_empty in Hs.
      * intros [Hs Hn]. exfalso. by apply Hn, H.
Qed.

Lemma content_passed_same_columns (df_source df_target : DataFrame) :
  columns df_source = columns df_target ->
  content_passed df_source df_target
  = [bool_decide (fingerprints df_source = fingerprints df_target)].
Proof.
  intros Hcols. unfold content_passed.
  rewrite validate_content_same_columns by done. cbn. f_equal.
  destruct (Z.eqb_spec (rows_only_in df_source df_target) 0) as [H1 | H1];
    destruct (Z.eqb_spec (rows_only_in df_target df_source) 0) as [H2 | H2];
    rewrite ?rows_only_in_zero in *; cbn; symmetry.
  - apply bool_decide_eq_true_2. apply set_eq. intros s. split; [apply H1 | apply H2].
  - apply bool_decide_eq_false_2. intros Heq. apply H2. by rewrite Heq.
  - apply bool_decide_eq_false_2. intros Heq. apply H1. by rewrite Heq.
  - apply bool_decide_eq_false_2. intros Heq. apply H1. by rewrite Heq.
Qed.

(** X10. With equal column names the content check passes exactly when
    the two sets of fingerprints are equal, whichever frame is called the
    source. So it passes whenever the two frames hold the same rows,
    however often and in whatever order each occurs: a target that holds
    every source row twice passes, although it has twice the rows. Column
    types play no part. *)
Theorem validate_content_compares_sets (df_source df_target : DataFrame) :
  columns df_source = columns df_target ->
  content_passed df_source df_target
  = [bool_decide (fingerprints df_source = fingerprints df_target)]
  /\ content_passed df_target df_source = content_passed df_source df_target
  /\ ((forall r, r ∈ rows df_source <-> r ∈ rows df_target) ->
      content_passed df_source df_target = [true])
  /\ content_passed df_source (doubled df_target) = content_passed df_source df_target
  /\ count (doubled df_target) = 2 * count df_target.
Proof.
  intros Hcols. split; [by apply content_passed_same_columns |].
  split; [| split; [| split]].
  - rewrite !content_passed_same_columns by done. f_equal.
    apply bool_decide_ext. split; intros H; by rewrite H.
  - intros Hrows. rewrite content_passed_same_columns by done. f_equal.
    apply bool_decide_eq_true_2, set_eq. intros s.
    rewrite !elem_of_fingerprints, !list_elem_of_fmap.
    split; intros (r & -> & Hr); exists r; (split; [done |]); by apply Hrows.
  - rewrite !content_passed_same_columns by done. f_equal.
    apply bool_decide_ext.
    assert (Hd : fingerprints (doubled df_target) = fingerprints df_target).
    { apply set_eq. intros s. rewrite !elem_of_fingerprints. unfold doubled.
      cbn [rows]. rewrite fmap_app, elem_of_app. tauto. }
    by rewrite Hd.
  - unfold count, doubled. cbn [rows]. rewrite length_app. lia.
Qed.

Lemma validate_content_compares_sets_witness :
  content_passed source_people (doubled source_people) = [true]
  /\ count (doubled source_people) = 2 * count source_people.
Proof.
  destruct (validate_content_compares_sets source_people source_people eq_refl)
    as (_ & _ & Hsame & Hdouble & Hcount).
  split; [| exact Hcount]. rewrite Hdouble. by apply Hsame.
Defined.

End ContentVerdict.

(** ** The run *)

Section Requests.
Import Main.

Lemma file_config_new_options (values : FileConfig.Raw.t) (c : FileConfig.t) :
  FileConfig.new values = Ok c ->
  FileConfig.format c ∈ ["csv"; "parquet"]%string
  /\ exists o, FileConfig.options c = Some o.
Proof.
  intros H. apply file_config_new_built in H as (_ & _ & Hc).
  destruct Hc as [(-> & [o ->] & _) | (-> & [o ->] & _)]; (split; [| by eauto]);
    apply (bool_decide_unpack _); vm_compute; exact I.
Qed.

Lemma database_config_new_format (values : DatabaseConfig.Raw.t) (c : DatabaseConfig.t) :
  DatabaseConfig.new values = Ok c -> DatabaseConfig.format c = "jdbc"%string.
Proof.
  intros H. unfold DatabaseConfig.new in H.
  apply bind_ok in H as (f & Hf & H). apply bind_ok in H as (f' & Hlit & H).
  apply bind_ok in H as (o & Ho & H). apply bind_ok in H as (o' & Ho' & H).
  injection H as <-. cbn. unfold literal in Hlit.
  case_bool_decide as Hin; [| discriminate]. injection Hlit as <-.
  by apply list_elem_of_singleton in Hin.
Qed.

Lemma optional_ok {A B} (new : A -> result B) (o : option A) (b : B) :
  Datasource.optional new o = Ok (Some b) -> exists a, o = Some a /\ new a = Ok b.
Proof.
  destruct o as [a |]; [| discriminate]. cbn.
  destruct (new a) as [b' |] eqn:E; [| discriminate]. intros [= <-]. eauto.
Qed.

Lemma datasource_new_fields (values : Datasource.Raw.t) (d : Datasource.t) :
  Datasource.new values = Ok d ->
  Datasource.Raw.type values = Some (Datasource.type d)
  /\ Datasource.type d ∈ ["database"; "file"]%string
  /\ Datasource.optional DatabaseConfig.new (Datasource.Raw.database_config values)
     = Ok (Datasource.database_config d)
  /\ Datasource.optional FileConfig.new (Datasource.Raw.file_config values)
     = Ok (Datasource.file_config d)
  /\ (Datasource.type d = "database"%string -> is_Some (Datasource.database_config d))
  /\ (Datasource.type d = "file"%string -> is_Some (Datasource.file_config d)).
Proof.
  intros H. unfold Datasource.new in H.
  apply bind_ok in H as (values' & Hcheck & H).
  apply check_target_config_ok in Hcheck as (-> & Hdbc & Hfc).
  apply bind_ok in H as (ty & Hty & H).
  apply bind_ok in H as (ty' & Hlit & H).
  apply bind_ok in H as (db & Hdb' & H).
  apply bind_ok in H as (fc & Hfc' & H).
  injection H as <-. cbn.
  destruct (Datasource.Raw.type values) as [ty0 |]; [| discriminate].
  injection Hty as ->. unfold literal in Hlit.
  case_bool_decide as Hin; [| discriminate]. injection Hlit as <-.
  repeat split; try done.
  - intros ->. eapply optional_present; [by apply Hdbc | exact Hdb'].
  - intros ->. eapply optional_present; [by apply Hfc | exact Hfc'].
Qed.

(** The load that a data source asks for is that of its own kind. *)
Lemma request_new (values : Datasource.Raw.t) (d : Datasource.t) :
  Datasource.new values = Ok d ->
  (Datasource.type d = "file"%string
   /\ exists c o, Datasource.file_config d = Some c
                  /\ FileConfig.options c = Some o
                  /\ FileConfig.format c ∈ ["csv"; "parquet"]%string
                  /\ request d = Some (FileConfig.format c, file_options_dump o,
                                       Some (FileConfig.path c)))
  \/ (Datasource.type d = "database"%string
      /\ exists c, Datasource.database_config d = Some c
                   /\ request d = Some ("jdbc"%string,
                                        database_options_dump (DatabaseConfig.options c),
                                        None)).
Proof.
  intros H. apply datasource_new_fields in H as (_ & Hin & Hdb & Hfc & Hd & Hf).
  rewrite !elem_of_cons, elem_of_nil in Hin. destruct Hin as [Hty | [Hty | []]].
  - right. split; [done |]. destruct (Hd Hty) as [c Hc]. exists c. split; [done |].
    rewrite Hc in Hdb. apply optional_ok in Hdb as (a & _ & Hnew).
    apply database_config_new_format in Hnew.
    unfold request. rewrite Hty, Hc, <- Hnew. reflexivity.
  - left. split; [done |]. destruct (Hf Hty) as [c Hc].
    rewrite Hc in Hfc. apply optional_ok in Hfc as (a & _ & Hnew).
    apply file_config_new_options in Hnew as (Hfmt & o & Ho).
    exists c, o. repeat split; try done.
    unfold request. rewrite Hty, Hc, Ho. reflexivity.
Qed.

Lemma read_dataset_request (spark : engine) (d : Datasource.t)
  (rq : string * reader_options * option string) :
  request d = Some rq ->
  read_dataset spark d = call (load_call rq) (load_reply spark rq).
Proof.
  unfold request, read_dataset, spark_read_file, spark_read_db.
  repeat case_bool_decide.
  - destruct (Datasource.file_config d) as [c |]; [| discriminate].
    destruct (FileConfig.options c) as [o |]; [| discriminate].
    by intros [= <-].
  - destruct (Datasource.database_config d) as [c |]; [| discriminate].
    by intros [= <-].
  - discriminate.
Qed.

(** X11. A data source that construction accepts is read without a missing
    attribute or an unassigned local: [read_dataset] makes one [load], that
    of the kind stated, with the format (which is [csv] or [parquet]) and
    the path of the file config, or with format [jdbc], no path, and the
    [url] among the options. A config of the other kind, when one is
    carried too, plays no part: the file of a source of kind [file] is
    read even when a database config stands beside it. *)
Theorem read_dataset_reads_stated_kind (spark : engine) (values : Datasource.Raw.t)
  (d : Datasource.t) :
  Datasource.new values = Ok d ->
  (Datasource.type d = "file"%string
   /\ exists c options,
       Datasource.file_config d = Some c
       /\ FileConfig.format c ∈ ["csv"; "parquet"]%string
       /\ forall t,
           read_dataset spark d t
           = (match load spark (FileConfig.format c) options
                           (Some (FileConfig.path c)) with
              | Fine df => Returned df
              | Failure msg => Raised (EngineError msg)
              end,
              t ++ [Load (FileConfig.format c) options (Some (FileConfig.path c))]))
  \/ (Datasource.type d = "database"%string
      /\ exists c options,
          Datasource.database_config d = Some c
          /\ ("url"%string, DatabaseOptions.url (DatabaseConfig.options c)) ∈ options
          /\ forall t,
              read_dataset spark d t
              = (match load spark "jdbc" options None with
                 | Fine df => Returned df
                 | Failure msg => Raised (EngineError msg)
                 end,
                 t ++ [Load "jdbc" options None])).
Proof.
  intros H. destruct (request_new values d H)
    as [(Hty & c & o & Hc & Ho & Hfmt & Hrq) | (Hty & c & Hc & Hrq)].
  - left. split; [done |]. exists c, (file_options_dump o). repeat split; try done.
    intros t. by rewrite (read_dataset_request spark d _ Hrq).
  - right. split; [done |].
    exists c, (database_options_dump (DatabaseConfig.options c)).
    split; [done |]. split; [apply list_elem_of_here |].
    intros t. by rewrite (read_dataset_request spark d _ Hrq).
Qed.

Lemma read_dataset_reads_stated_kind_witness :
  exists d options,
    Datasource.new both_configs = Ok d
    /\ is_Some (Datasource.database_config d)
    /\ read_dataset (constant_engine (frame 3)) d []
       = (Returned (frame 3), [Load "csv" options (Some "/data/orders/%Y/%m/%d")])%string.
Proof.
  destruct (read_dataset_reads_stated_kind (constant_engine (frame 3)) both_configs _
              ltac:(vm_compute; reflexivity))
    as [(_ & c & options & Hc & _ & Hread) | (Hty & _)]; [| discriminate Hty].
  eexists _, options. split; [reflexivity |]. split; [cbn; eauto |].
  rewrite Hread. injection Hc as <-. reflexivity.
Defined.

End Requests.

Section Runs.
Import Datetime ValidationConfig Main.
Local Open Scope Z_scope.

Lemma request_rendered (libc : string -> datetime -> result string) (dt : datetime)
  (d : Datasource.t) (sdb : option DatabaseConfig.t) (sfc : option FileConfig.t) :
  is_Some (request d) ->
  render_query libc dt (Datasource.database_config d) = Ok sdb ->
  render_path libc dt (Datasource.file_config d) = Ok sfc ->
  is_Some (request (Datasource.set_file_config (Datasource.set_database_config d sdb) sfc)).
Proof.
  intros [rq Hrq] Hq%render_query_spec Hp%render_path_spec. revert Hrq.
  unfold request. cbn [Datasource.set_file_config Datasource.set_database_config
                       Datasource.type Datasource.file_config Datasource.database_config].
  repeat case_bool_decide; [| | discriminate].
  - destruct (Datasource.file_config d) as [c |]; [| discriminate].
    destruct sfc as [c' |]; [| done]. destruct Hp as (_ & Hopt & _). rewrite Hopt.
    destruct (FileConfig.options c); [eauto | discriminate].
  - destruct (Datasource.database_config d) as [c |]; [| discriminate].
    destruct sdb as [c' |]; [eauto | done].
Qed.

Lemma config_new_parts (libc : string -> datetime -> result string) (now : datetime)
  (mapping : Raw.t) (config : t) :
  ValidationConfig.new libc now mapping = Ok config ->
  Args.spark_master (args config) ∈ ["yarn"; "local"]%string
  /\ is_Some (request (source config))
  /\ is_Some (request (target config)).
Proof.
  intros H. unfold ValidationConfig.new in H.
  apply bind_ok in H as (a0 & _ & H). apply bind_ok in H as (a & Ha & H).
  apply bind_ok in H as (s0 & _ & H). apply bind_ok in H as (s & _ & H).
  apply bind_ok in H as (src0 & _ & H). apply bind_ok in H as (src & Hsrc & H).
  apply bind_ok in H as (tgt0 & _ & H). apply bind_ok in H as (tgt & Htgt & H).
  apply bind_ok in H as (v1 & Hpd & H).
  apply in_validator_ok in Hpd, H. apply set_strftime_string_ok in H.
  unfold set_process_datetime in Hpd. cbn [args setting] in Hpd.
  apply bind_ok in Hpd as (base & _ & Hpd).
  apply bind_ok in Hpd as (pd & _ & [= <-]).
  unfold render_all in H. cbn [process_datetime set_process_datetime_field] in H.
  apply bind_ok in H as (log & _ & H). apply bind_ok in H as (sdb & Hsdb & H).
  apply bind_ok in H as (tdb & Htdb & H). apply bind_ok in H as (sfc & Hsfc & H).
  apply bind_ok in H as (tfc & Htfc & H). injection H as <-.
  cbn [args source target setting] in *.
  split; [| split].
  - unfold Args.new in Ha. apply bind_ok in Ha as (m & Hlit & [= <-]).
    unfold literal in Hlit. by case_bool_decide.
  - eapply request_rendered; [| done | done].
    destruct (request_new _ _ Hsrc) as [(_ & ? & ? & _ & _ & _ & ->) | (_ & ? & _ & ->)];
      eauto.
  - eapply request_rendered; [| done | done].
    destruct (request_new _ _ Htgt) as [(_ & ? & ? & _ & _ & _ & ->) | (_ & ? & _ & ->)];
      eauto.
Qed.

Lemma validate_row_count_raises (df_source df_target : DataFrame) (threshold : Z)
  (e : exn) :
  run (validate_row_count df_source df_target threshold) = Raise e ->
  e = ZeroDivisionError \/ e = OverflowError.
Proof.
  unfold run, validate_row_count, df_count, logging_info, ebind, emit, SparkValidation.ret, lift.
  cbn [app].
  destruct (int_truediv _ _) as [q | e0] eqn:Hq.
  - rewrite float_mul_int_100. destruct (float_le_int _ _); discriminate.
  - intros [= <-]. revert Hq. unfold int_truediv.
    destruct (count df_source =? 0); [intros [= <-]; by left |].
    destruct (SFdiv _ _ _ _); try discriminate. intros [= <-]. by right.
Qed.

Lemma validate_row_count_zero (df_source df_target : DataFrame) (threshold : Z) :
  count df_source = 0 ->
  run (validate_row_count df_source df_target threshold) = Raise ZeroDivisionError.
Proof.
  intros H0.
  unfold run, validate_row_count, df_count, logging_info, ebind, emit, SparkValidation.ret, lift.
  cbn [app]. unfold int_truediv. by rewrite H0.
Qed.

Lemma validate_content_returns (df_source df_target : DataFrame) :
  exists evs, run (validate_content df_source df_target) = Ok (tt, evs).
Proof.
  destruct (decide (columns df_source = columns df_target)) as [Heq | Hne].
  - rewrite validate_content_same_columns by done. eauto.
  - unfold run, validate_content, df_columns, df_schema, logging_info, ebind, emit, SparkValidation.ret.
    cbn [app]. rewrite bool_decide_eq_true_2 by done. eauto.
Qed.

Lemma session_master_of_args (config : t) :
  Args.spark_master (args config) ∈ ["yarn"; "local"]%string ->
  (if bool_decide (Args.spark_master (args config) = "local"%string)
   then "local[*]"%string else Args.spark_master (args config))
  = session_master config.
Proof.
  intros Hm. unfold session_master. case_bool_decide as Hl; [done |].
  rewrite !elem_of_cons, elem_of_nil in Hm.
  destruct Hm as [Hm | [Hm | []]]; [done | by destruct Hl].
Qed.

(** A run whose configuration is built, whose session is granted and whose
    two reads are answered stands, before the row-count check, at
    [fetched]. *)
Lemma main_fetched (spark : engine) (libc : string -> datetime -> result string)
  (now now' : datetime) (mapping : Raw.t) (config : t)
  (rq_source rq_target : string * reader_options * option string)
  (df_source df_target : DataFrame) :
  ValidationConfig.new libc now mapping = Ok config ->
  request (source config) = Some rq_source ->
  request (target config) = Some rq_target ->
  getOrCreate spark (Setting.validation_name (setting config)) (session_master config)
  = Fine tt ->
  load_reply spark rq_source = Fine df_source ->
  load_reply spark rq_target = Fine df_target ->
  main spark libc now now' mapping []
  = (let! res := check (validate_row_count df_source df_target
                          (Setting.validation_threshold (setting config))) in
     spark_write_hdfs spark now' (setting config) (process_datetime config) res;!
     if Setting.validate_content (setting config)
     then check (validate_content df_source df_target)
     else ret tt) (fetched config rq_source rq_target).
Proof.
  intros Hnew Hrs Hrt Hsess Hls Hlt.
  destruct (config_new_parts _ _ _ _ Hnew) as (Hm & _ & _).
  pose proof (session_master_of_args config Hm) as Hmaster.
  unfold main. rewrite Hnew. cbn [of_result].
  unfold rbind at 1. cbn [ret].
  unfold rbind at 1. unfold info at 1. cbn [app].
  unfold rbind at 1.
  assert (Hv : forall t, (if Args.verbose (args config) then info (DumpLine config)
                          else ret tt) t
                         = (Returned tt,
                            t ++ (if Args.verbose (args config)
                                  then [Logged (DumpLine config)] else []))).
  { intros t. destruct (Args.verbose (args config)); cbn; [done |].
    by rewrite app_nil_r. }
  rewrite Hv. unfold rbind at 1. unfold spark_get_session, call at 1.
  rewrite Hmaster, Hsess. unfold rbind at 1. unfold info at 1.
  unfold rbind at 1. rewrite (read_dataset_request spark _ _ Hrs).
  unfold call at 1. rewrite Hls.
  unfold rbind at 1. rewrite (read_dataset_request spark _ _ Hrt).
  unfold call at 1. rewrite Hlt.
  unfold rbind at 1. unfold info at 1.
  unfold fetched. rewrite <- !app_assoc. reflexivity.
Qed.

Lemma writes_fetched (config : t)
  (rq_source rq_target : string * reader_options * option string) :
  List.filter writes (fetched config rq_source rq_target) = [].
Proof.
  unfold fetched. destruct rq_source as [[? ?] ?], rq_target as [[? ?] ?].
  by destruct (Args.verbose (args config)).
Qed.

Lemma writes_lines (evs : list event) : List.filter writes (lines evs) = [].
Proof.
  unfold lines. induction evs as [| [o | l] evs IH]; [done | done |].
  cbn. exact IH.
Qed.

Lemma writes_content_lines (config : t) (df_source df_target : DataFrame) :
  List.filter writes (content_lines config df_source df_target) = [].
Proof.
  unfold content_lines. destruct (Setting.validate_content _); [| done].
  destruct (run _) as [[? evs] |]; [apply writes_lines | done].
Qed.

(** A run whose configuration is built either stops on the engine's
    refusal of the session or of a read, having written nothing, or has
    its session and its two frames. *)
Lemma main_reads (spark : engine) (libc : string -> datetime -> result string)
  (now now' : datetime) (mapping : Raw.t) (config : t)
  (rq_source rq_target : string * reader_options * option string) :
  ValidationConfig.new libc now mapping = Ok config ->
  request (source config) = Some rq_source ->
  request (target config) = Some rq_target ->
  (exists msg trace,
      main spark libc now now' mapping [] = (Raised (EngineError msg), trace)
      /\ List.filter writes trace = [])
  \/ (exists df_source df_target,
         getOrCreate spark (Setting.validation_name (setting config))
           (session_master config) = Fine tt
         /\ load_reply spark rq_source = Fine df_source
         /\ load_reply spark rq_target = Fine df_target).
Proof.
  intros Hnew Hrs Hrt.
  destruct (getOrCreate spark (Setting.validation_name (setting config))
              (session_master config)) as [[] | msg] eqn:Hsess;
    [destruct (load_reply spark rq_source) as [df_source | msg] eqn:Hls;
     [destruct (load_reply spark rq_target) as [df_target | msg] eqn:Hlt |] |].
  { right. eauto. }
  all: left; exists msg.
  all: destruct (config_new_parts _ _ _ _ Hnew) as (Hm & _ & _).
  all: pose proof (session_master_of_args config Hm) as Hmaster.
  all: unfold main; rewrite Hnew; cbn [of_result];
    unfold rbind at 1; cbn [ret];
    unfold rbind at 1; unfold info at 1; cbn [app];
    unfold rbind at 1.
  all: destruct rq_source as [[fs os] ps], rq_target as [[ft ot] pt].
  all: destruct (Args.verbose (args config)); cbn [info ret app];
    unfold rbind at 1; unfold spark_get_session, call at 1;
    rewrite Hmaster, Hsess; try (eexists; split; [reflexivity | reflexivity]).
  all: unfold rbind at 1; unfold info at 1;
    unfold rbind at 1; rewrite (read_dataset_request spark _ _ Hrs);
    unfold call at 1; rewrite Hls; try (eexists; split; [reflexivity | reflexivity]).
  all: unfold rbind at 1; rewrite (read_dataset_request spark _ _ Hrt);
    unfold call at 1; rewrite Hlt; eexists; split; reflexivity.
Qed.

(** From the two frames on: the row-count check, the report, the content
    check. *)
Lemma main_checks (spark : engine) (now' : datetime) (config : t)
  (df_source df_target : DataFrame) (t0 : list action) :
  let r := (let! res := check (validate_row_count df_source df_target
                                 (Setting.validation_threshold (setting config))) in
            spark_write_hdfs spark now' (setting config) (process_datetime config) res;!
            if Setting.validate_content (setting config)
            then check (validate_content df_source df_target)
            else Main.ret tt) t0 in
  let row := report_row now' config (count df_source) (count df_target) in
  let path := Setting.summary_log (setting config) in
  (exists e, (e = ZeroDivisionError \/ e = OverflowError)
             /\ run (validate_row_count df_source df_target
                       (Setting.validation_threshold (setting config))) = Raise e
             /\ r = (Raised (Python e), t0))
  \/ (exists res evs,
         run (validate_row_count df_source df_target
                (Setting.validation_threshold (setting config))) = Ok (res, evs)
         /\ count df_source <> 0
         /\ ((exists msg,
                 createDataFrame spark [row] = Failure msg
                 /\ r = (Raised (EngineError msg),
                         t0 ++ [Logged (ValidationLine (RowCountLog res));
                                CreateDataFrame [row]]))
             \/ (exists msg,
                    createDataFrame spark [row] = Fine tt
                    /\ save spark "csv" "append" path [row] = Failure msg
                    /\ r = (Raised (EngineError msg),
                            t0 ++ [Logged (ValidationLine (RowCountLog res));
                                   CreateDataFrame [row];
                                   Save "csv" "append" path [row]]))
             \/ (createDataFrame spark [row] = Fine tt
                 /\ save spark "csv" "append" path [row] = Fine tt
                 /\ r = (Returned tt,
                         t0 ++ [Logged (ValidationLine (RowCountLog res));
                                CreateDataFrame [row];
                                Save "csv" "append" path [row];
                                Logged (WrittenLine path)]
                            ++ content_lines config df_source df_target)))).
Proof.
  intros r row path.
  destruct (run (validate_row_count df_source df_target _)) as [[res evs] | e] eqn:Hrun.
  2: { left. exists e. split; [by eapply validate_row_count_raises |]. split; [done |].
       subst r. unfold rbind, check. by rewrite Hrun. }
  right. exists res, evs. split; [done |].
  assert (Hres : count df_source <> 0
                 /\ count_source res = count df_source
                 /\ count_target res = count df_target
                 /\ lines evs = [Logged (ValidationLine (RowCountLog res))]).
  { revert Hrun.
    unfold run, validate_row_count, df_count, logging_info, ebind, emit,
      SparkValidation.ret, lift. cbn [app].
    destruct (int_truediv _ _) as [q | e0] eqn:Hq; [| discriminate].
    rewrite float_mul_int_100.
    assert (count df_source <> 0).
    { intros H0. unfold int_truediv in Hq. by rewrite H0 in Hq. }
    destruct (float_le_int _ _); intros [= <- <-]; done. }
  destruct Hres as (Hne & Hcs & Hct & Hlines). split; [done |].
  assert (Hr : r = ((call (CreateDataFrame [row]) (createDataFrame spark [row]);!
                     call (Save "csv" "append" path [row])
                          (save spark "csv" "append" path [row]);!
                     info (WrittenLine path));!
                    if Setting.validate_content (setting config)
                    then check (validate_content df_source df_target)
                    else Main.ret tt)
                     (t0 ++ [Logged (ValidationLine (RowCountLog res))])).
  { subst r. unfold rbind, check at 1, spark_write_hdfs. rewrite Hrun. cbv beta iota.
    rewrite Hcs, Hct, Hlines. reflexivity. }
  rewrite Hr. clear Hr. unfold rbind, call, info.
  destruct (createDataFrame spark [row]) as [[] | msg] eqn:Hc.
  2: { left. exists msg. split; [done |]. by rewrite <- app_assoc. }
  right.
  destruct (save spark "csv" "append" path [row]) as [[] | msg] eqn:Hs.
  2: { left. exists msg. split; [done |]. split; [done |]. by rewrite <- !app_assoc. }
  right. split; [done |]. split; [done |].
  unfold content_lines.
  destruct (Setting.validate_content (setting config)).
  - unfold check. destruct (validate_content_returns df_source df_target) as [cevs ->].
    by rewrite <- !app_assoc.
  - cbn [Main.ret]. by rewrite <- !app_assoc, app_nil_r.
Qed.

End Runs.

Section RunProperties.
Import Datetime ValidationConfig Main.
Local Open Scope Z_scope.

(** X12. When the source frame has no rows, a run whose configuration is
    built and whose two reads are answered ends with [ZeroDivisionError]
    right after the line that follows the reads: both frames were loaded,
    but nothing is handed to the engine for writing, no result of the
    row-count check is logged, and the content check is not made,
    whatever [validate_content] says. *)
Theorem main_empty_source (spark : engine) (libc : string -> datetime -> result string)
  (now now' : datetime) (mapping : Raw.t) (config : t)
  (rq_source rq_target : string * reader_options * option string)
  (df_source df_target : DataFrame) :
  ValidationConfig.new libc now mapping = Ok config ->
  request (source config) = Some rq_source ->
  request (target config) = Some rq_target ->
  getOrCreate spark (Setting.validation_name (setting config)) (session_master config)
  = Fine tt ->
  load_reply spark rq_source = Fine df_source ->
  load_reply spark rq_target = Fine df_target ->
  rows df_source = [] ->
  main spark libc now now' mapping []
  = (Raised (Python ZeroDivisionError), fetched config rq_source rq_target)
  /\ List.filter writes (fetched config rq_source rq_target) = []
  /\ List.filter reads (fetched config rq_source rq_target)
     = [load_call rq_source; load_call rq_target]
  /\ forall l, Logged (ValidationLine l) ∉ fetched config rq_source rq_target.
Proof.
  intros Hnew Hrs Hrt Hsess Hls Hlt Hrows.
  split; [| split; [| split]].
  - rewrite (main_fetched spark libc now now' mapping config rq_source rq_target
               df_source df_target) by done.
    unfold rbind, check. rewrite validate_row_count_zero; [done |].
    unfold count. by rewrite Hrows.
  - apply writes_fetched.
  - unfold fetched. destruct rq_source as [[? ?] ?], rq_target as [[? ?] ?].
    by destruct (Args.verbose (args config)).
  - intros l. unfold fetched. destruct rq_source as [[? ?] ?], rq_target as [[? ?] ?].
    destruct (Args.verbose (args config)); cbn [app]; rewrite ?elem_of_cons, elem_of_nil;
      intros H; repeat (destruct H as [H | H]; [discriminate H |]); done.
Qed.

(** X13. With at least one source row, a run whose calls the engine all
    accepts appends exactly one row to the summary log, at the rendered
    path, in format [csv]: the row holds the two counts, the process
    timestamp, the clock at the time of writing and the names and kinds of
    the setting. The row is written after the result of the row-count
    check is logged and whether or not that check passed; the content
    check comes after the report, and only when [validate_content] is
    set. *)
Theorem main_reports_counts (spark : engine)
  (libc : string -> datetime -> result string)
  (now now' : datetime) (mapping : Raw.t) (config : t)
  (rq_source rq_target : string * reader_options * option string)
  (df_source df_target : DataFrame) :
  let row := report_row now' config (count df_source) (count df_target) in
  let path := Setting.summary_log (setting config) in
  let res := spec_row_count (count df_source) (count df_target)
               (Setting.validation_threshold (setting config)) in
  ValidationConfig.new libc now mapping = Ok config ->
  request (source config) = Some rq_source ->
  request (target config) = Some rq_target ->
  getOrCreate spark (Setting.validation_name (setting config)) (session_master config)
  = Fine tt ->
  load_reply spark rq_source = Fine df_source ->
  load_reply spark rq_target = Fine df_target ->
  1 <= count df_source < 2 ^ 63 -> count df_target < 2 ^ 63 ->
  createDataFrame spark [row] = Fine tt ->
  save spark "csv" "append" path [row] = Fine tt ->
  main spark libc now now' mapping []
  = (Returned tt,
     fetched config rq_source rq_target
     ++ [Logged (ValidationLine (RowCountLog res));
         CreateDataFrame [row];
         Save "csv" "append" path [row];
         Logged (WrittenLine path)]
     ++ content_lines config df_source df_target)
  /\ List.filter writes (main spark libc now now' mapping []).2
     = [CreateDataFrame [row]; Save "csv" "append" path [row]].
Proof.
  intros row path res Hnew Hrs Hrt Hsess Hls Hlt Hcs Hct Hc Hs.
  assert (Hmain : main spark libc now now' mapping []
                  = (Returned tt,
                     fetched config rq_source rq_target
                     ++ [Logged (ValidationLine (RowCountLog res));
                         CreateDataFrame [row];
                         Save "csv" "append" path [row];
                         Logged (WrittenLine path)]
                     ++ content_lines config df_source df_target)).
  { rewrite (main_fetched spark libc now now' mapping config rq_source rq_target
               df_source df_target) by done.
    pose proof (validate_row_count_counts df_source df_target
                  (Setting.validation_threshold (setting config))
                  ltac:(lia) ltac:(lia) Hct) as Hrun. cbv zeta in Hrun.
    destruct (main_checks spark now' config df_source df_target
                (fetched config rq_source rq_target))
      as [(e & _ & He & _) | (res' & evs & Hrun' & _ & Hcases)].
    { rewrite Hrun in He. discriminate. }
    rewrite Hrun in Hrun'. injection Hrun' as <- <-.
    fold row path in Hcases.
    destruct Hcases as [(msg & Hc' & _) | [(msg & _ & Hs' & _) | (_ & _ & Hr)]].
    - rewrite Hc in Hc'. discriminate.
    - rewrite Hs in Hs'. discriminate.
    - by rewrite Hr. }
  split; [exact Hmain |].
  rewrite Hmain. cbn [snd]. rewrite !List.filter_app, writes_fetched, writes_content_lines.
  reflexivity.
Qed.

(** X14. A run whose configuration is built never ends with an unassigned
    local in [read_dataset] nor with a missing attribute on an absent
    config or options object: the validators leave every data source with
    the config of its kind. However the engine answers, such a run
    returns, or ends with an error of the engine, or with the
    [ZeroDivisionError] or [OverflowError] of the row-count check. *)
Theorem main_ends_as_expected (spark : engine)
  (libc : string -> datetime -> result string) (now now' : datetime) (mapping : Raw.t)
  (config : t) :
  ValidationConfig.new libc now mapping = Ok config ->
  ends_as_expected (main spark libc now now' mapping []).
Proof.
  intros Hnew. unfold ends_as_expected.
  destruct (config_new_parts _ _ _ _ Hnew) as (_ & [rs Hrs] & [rt Hrt]).
  destruct (main_reads spark libc now now' mapping config rs rt Hnew Hrs Hrt)
    as [(msg & trace & -> & _) | (dfs & dft & Hsess & Hls & Hlt)]; [done |].
  rewrite (main_fetched spark libc now now' mapping config rs rt dfs dft) by done.
  destruct (main_checks spark now' config dfs dft (fetched config rs rt))
    as [(e & He & _ & ->) | (res & evs & _ & _ & Hcases)].
  { by destruct He as [-> | ->]. }
  destruct Hcases as [(msg & _ & ->) | [(msg & _ & _ & ->) | (_ & _ & ->)]]; done.
Qed.

(** X15. No run writes more than one report row, and none writes a row
    with a source count of zero. Whatever the engine answers, what a run
    hands to the engine for writing is nothing, or one row, the same for
    [createDataFrame] and then for [save], saved in format [csv] and mode
    [append] at the rendered [summary_log]; that row holds the counts of
    the two frames read, with at least one source row, and the process
    timestamp of the configuration. A run that ends with an exception of
    the program itself has written nothing. *)
Theorem main_writes_one_row (spark : engine)
  (libc : string -> datetime -> result string) (now now' : datetime) (mapping : Raw.t) :
  let r := main spark libc now now' mapping [] in
  (List.filter writes r.2 = []
   \/ exists config row,
       ValidationConfig.new libc now mapping = Ok config
       /\ 1 <= source_count row
       /\ 0 <= destination_count row
       /\ datetime_ row = process_datetime config
       /\ timestamp row = now'
       /\ (List.filter writes r.2 = [CreateDataFrame [row]]
           \/ List.filter writes r.2
              = [CreateDataFrame [row];
                 Save "csv" "append" (Setting.summary_log (setting config)) [row]]))
  /\ (forall e, r.1 = Raised (Python e) -> List.filter writes r.2 = []).
Proof.
  intros r. subst r.
  destruct (ValidationConfig.new libc now mapping) as [config | e] eqn:Hnew.
  2: { unfold main. rewrite Hnew. cbn. split; [by left | done]. }
  destruct (config_new_parts _ _ _ _ Hnew) as (_ & [rs Hrs] & [rt Hrt]).
  destruct (main_reads spark libc now now' mapping config rs rt Hnew Hrs Hrt)
    as [(msg & trace & -> & Hw) | (dfs & dft & Hsess & Hls & Hlt)].
  { split; [by left | done]. }
  rewrite (main_fetched spark libc now now' mapping config rs rt dfs dft) by done.
  destruct (main_checks spark now' config dfs dft (fetched config rs rt))
    as [(e & He & _ & ->) | (res & evs & _ & Hne & Hcases)].
  { cbn [fst snd]. rewrite writes_fetched. split; [by left | done]. }
  pose proof (count_nonneg dfs). pose proof (count_nonneg dft).
  destruct Hcases as [(msg & _ & ->) | [(msg & _ & _ & ->) | (_ & _ & ->)]];
    cbn [fst snd];
    rewrite ?List.filter_app, ?writes_fetched, ?writes_content_lines;
    (split; [| done]); right;
    exists config, (report_row now' config (count dfs) (count dft));
    (split; [done |]); cbn [source_count destination_count datetime_ timestamp report_row];
    (split; [lia |]); (split; [lia |]); (split; [done |]); (split; [done |]).
  - by left.
  - by right.
  - by right.
Qed.

End RunProperties.

Section RunSamples.
Import Datetime ValidationConfig Main.
Local Open Scope Z_scope.

Lemma main_empty_source_witness :
  (main (constant_engine (frame 0)) no_libc sample_now sample_now
        (sample_raw None (Some "daily"%string)) []).1
  = Raised (Python ZeroDivisionError).
Proof.
  edestruct (main_empty_source (constant_engine (frame 0)) no_libc sample_now sample_now
               (sample_raw None (Some "daily"%string))) as [H _].
  - vm_compute. reflexivity.
  - vm_compute. reflexivity.
  - vm_compute. reflexivity.
  - reflexivity.
  - reflexivity.
  - reflexivity.
  - reflexivity.
  - rewrite H. reflexivity.
Defined.

Lemma main_ends_as_expected_witness :
  ends_as_expected
    (main (constant_engine (frame 0)) no_libc sample_now sample_now
          (sample_raw None (Some "daily"%string)) []).
Proof.
  eapply (main_ends_as_expected (constant_engine (frame 0)) no_libc sample_now sample_now
            (sample_raw None (Some "daily"%string))).
  vm_compute. reflexivity.
Defined.

Lemma main_reports_counts_witness :
  List.filter writes
    (main (constant_engine (frame 3)) no_libc sample_now sample_now
          (sample_raw None (Some "daily"%string)) []).2
  = [CreateDataFrame
       [{| timestamp := sample_now;
           datetime_ := Some {| year := 2024; month := 1; day := 1; hour := 0;
                                minute := 0; second := 0; microsecond := 0 |};
           granularity := Some "daily"%string;
           type := Some "hdfs-jdbc"%string;
           source_name := Some "lake"%string;
           destination_name := Some "warehouse"%string;
           source_count := 3;
           destination_count := 3 |}];
     Save "csv" "append" "/logs/2024-01/orders"
       [{| timestamp := sample_now;
           datetime_ := Some {| year := 2024; month := 1; day := 1; hour := 0;
                                minute := 0; second := 0; microsecond := 0 |};
           granularity := Some "daily"%string;
           type := Some "hdfs-jdbc"%string;
           source_name := Some "lake"%string;
           destination_name := Some "warehouse"%string;
           source_count := 3;
           destination_count := 3 |}]].
Proof.
  edestruct (main_reports_counts (constant_engine (frame 3)) no_libc sample_now sample_now
               (sample_raw None (Some "daily"%string))) as [_ H].
  - vm_compute. reflexivity.
  - vm_compute. reflexivity.
  - vm_compute. reflexivity.
  - reflexivity.
  - reflexivity.
  - reflexivity.
  - vm_compute. split; [discriminate | reflexivity].
  - vm_compute. reflexivity.
  - reflexivity.
  - reflexivity.
  - rewrite H. vm_compute. reflexivity.
Defined.

End RunSamples.
